(** * deb_reversion: re-versioning a Debian package archive in place

    A shallow embedding of [src/sync_debs_to_gemfury/deb_reversion.py].

    The script is glue around three things, and the development follows
    that split:

    - [Re]: the fragment of Python's [re] module the script relies on
      (pattern compilation, the backtracking matcher, [search], [sub] and
      replacement templates);
    - [Posix]: path arithmetic ([os.path.join], [normpath], [abspath]);
    - [Script]: the file-system world, the external tools and the two
      functions of the script, [_update_changelog_file] and [main].
    - [Manifest]: the substitution on the manifest read line by line;
    - [Footprint]: the paths the editing step works on.

    Text is modelled as [list ascii]; every character the script's own
    patterns mention is ASCII. *)

From Stdlib Require Import Ascii String List Arith Lia Bool.
From stdpp Require Import base option list gmap strings.

Import ListNotations.
Local Open Scope char_scope.
Local Open Scope list_scope.
Local Open Scope nat_scope.

Abbreviation text := (list ascii).

(** String literals of the source are written [s2l "..."]. *)
Definition s2l (s : string) : text := list_ascii_of_string s.

Definition newline : ascii := "010".
Definition backslash : ascii := "\".

(* ================================================================== *)
(** * The [re] fragment *)
(* ================================================================== *)

Module Re.

(** ** Compiled patterns

    A pattern is compiled to a flat sequence of opcodes, the way [sre]
    does: a capturing group becomes a pair of [Mark]s around its body. *)

Inductive cset :=
  | Literal (c : ascii)                      (* LITERAL c *)
  | NotLiteral (c : ascii)                   (* NOT_LITERAL c, e.g. [^ ] *)
  | AnyChar                                  (* ANY: '.' without DOTALL *)
  | InSet (negate : bool) (members : text).  (* IN [...] *)

Inductive greed := MaxRepeat | MinRepeat | PossessiveRepeat.

Inductive op :=
  | AtBeginning                              (* ^ *)
  | AtBeginningLine                          (* ^ under MULTILINE *)
  | AtEnd                                    (* $ *)
  | AtEndLine                                (* $ under MULTILINE *)
  | One (cs : cset)
  | Repeat (g : greed) (lo : nat) (hi : option nat) (cs : cset)
  | Mark (i : nat).

Inductive re_error :=
  | NothingToRepeat
  | MultipleRepeat
  | UnbalancedParenthesis
  | UnterminatedSubpattern
  | UnterminatedCharacterSet
  | BadEscape
  | MissingAngle
  | BadGroupName
  | InvalidGroupReference
  | OctalOutOfRange.

(** Outcome of a call into the module: a value, an exception, or
    [Unsupported] when the pattern or template uses syntax outside the
    modelled fragment (escapes and alternation in patterns, counted
    repeats, group extensions, repeated groups, ranges in sets, named
    references in templates). *)
Inductive res (A : Type) :=
  | Ret (a : A)
  | Raise (e : re_error)
  | Unsupported.
Arguments Ret {A} a.
Arguments Raise {A} e.
Arguments Unsupported {A}.

Record pattern := { p_ops : list op; p_groups : nat }.

(** ** The parser, after [_parser._parse] *)

Definition is_special (c : ascii) : bool :=
  existsb (Ascii.eqb c) (s2l ".\[{()*+?^$|").

(** [_uniq]: drop later duplicates, keep first occurrences in order. *)
Fixpoint uniq (seen : text) (l : text) : text :=
  match l with
  | [] => []
  | c :: l' =>
      if existsb (Ascii.eqb c) seen then uniq seen l'
      else c :: uniq (c :: seen) l'
  end.

Definition make_set (negate : bool) (members_rev : text) : cset :=
  match uniq [] (rev members_rev) with
  | [c] => if negate then NotLiteral c else Literal c
  | ms => InSet negate ms
  end.

Inductive pmode :=
  | Normal
  | SetStart (negate : bool)                 (* just after "[" or "[^" *)
  | SetBody (negate : bool) (members_rev : text).

Definition repeat_bounds (q : ascii) : option (nat * option nat) :=
  if Ascii.eqb q "?" then Some (0, Some 1)
  else if Ascii.eqb q "*" then Some (0, None)
  else if Ascii.eqb q "+" then Some (1, None)
  else None.

(** Apply a quantifier to the last item parsed ([acc] is reversed). *)
Definition apply_repeat (g : greed) (lo : nat) (hi : option nat)
    (acc : list op) : res (list op) :=
  match acc with
  | [] => Raise NothingToRepeat
  | One cs :: acc' => Ret (Repeat g lo hi cs :: acc')
  | Repeat _ _ _ _ :: _ => Raise MultipleRepeat
  | Mark i :: _ =>
      (* an opening mark: the group body is still empty;
         a closing mark: the item is a whole group *)
      if Nat.even i then Raise NothingToRepeat else Unsupported
  | _ => Raise NothingToRepeat               (* AT codes *)
  end.

Fixpoint parse (multiline : bool) (src : text) (mode : pmode)
    (acc : list op) (ngroups : nat) (opened : list nat)
    : res pattern :=
  match src with
  | [] =>
      match mode with
      | Normal =>
          match opened with
          | [] => Ret {| p_ops := rev acc; p_groups := ngroups |}
          | _ => Raise UnterminatedSubpattern
          end
      | _ => Raise UnterminatedCharacterSet
      end
  | c :: src' =>
      match mode with
      | SetStart negate =>
          if Ascii.eqb c backslash then Unsupported
          else match src' with
               | "-" :: _ => Unsupported
               | _ => parse multiline src' (SetBody negate [c])
                        acc ngroups opened
               end
      | SetBody negate ms =>
          if Ascii.eqb c "]" then
            parse multiline src' Normal (One (make_set negate ms) :: acc)
              ngroups opened
          else if Ascii.eqb c backslash then Unsupported
          else match src' with
               | "-" :: _ => Unsupported
               | _ => parse multiline src' (SetBody negate (c :: ms))
                        acc ngroups opened
               end
      | Normal =>
          if Ascii.eqb c backslash then Unsupported
          else if Ascii.eqb c "|" then Unsupported
          else if Ascii.eqb c "{" then Unsupported
          else if negb (is_special c) then
            parse multiline src' Normal (One (Literal c) :: acc)
              ngroups opened
          else if Ascii.eqb c "." then
            parse multiline src' Normal (One AnyChar :: acc) ngroups opened
          else if Ascii.eqb c "^" then
            parse multiline src' Normal
              ((if multiline then AtBeginningLine else AtBeginning) :: acc)
              ngroups opened
          else if Ascii.eqb c "$" then
            parse multiline src' Normal
              ((if multiline then AtEndLine else AtEnd) :: acc)
              ngroups opened
          else if Ascii.eqb c "[" then
            match src' with
            | "^" :: src'' =>
                parse multiline src'' (SetStart true) acc ngroups opened
            | _ => parse multiline src' (SetStart false) acc ngroups opened
            end
          else if Ascii.eqb c "(" then
            match src' with
            | "?" :: _ => Unsupported
            | _ =>
                parse multiline src' Normal (Mark (2 * ngroups) :: acc)
                  (S ngroups) (ngroups :: opened)
            end
          else if Ascii.eqb c ")" then
            match opened with
            | [] => Raise UnbalancedParenthesis
            | g :: opened' =>
                parse multiline src' Normal (Mark (2 * g + 1) :: acc)
                  ngroups opened'
            end
          else
            match repeat_bounds c with
            | None => Unsupported
            | Some (lo, hi) =>
                match src' with
                | "?" :: src'' =>
                    match apply_repeat MinRepeat lo hi acc with
                    | Ret acc' =>
                        parse multiline src'' Normal acc' ngroups opened
                    | Raise e => Raise e
                    | Unsupported => Unsupported
                    end
                | "+" :: src'' =>
                    match apply_repeat PossessiveRepeat lo hi acc with
                    | Ret acc' =>
                        parse multiline src'' Normal acc' ngroups opened
                    | Raise e => Raise e
                    | Unsupported => Unsupported
                    end
                | _ =>
                    match apply_repeat MaxRepeat lo hi acc with
                    | Ret acc' =>
                        parse multiline src' Normal acc' ngroups opened
                    | Raise e => Raise e
                    | Unsupported => Unsupported
                    end
                end
            end
      end
  end.

(** [re.compile(src, re.MULTILINE)] when [multiline] is set. *)
Definition compile (multiline : bool) (src : text) : res pattern :=
  parse multiline src Normal [] 0 [].

(** ** The matcher, after [sre_lib.h]

    A position in the subject is the pair of the character before it
    ([None] at the start of the string) and the text from it on.  A mark
    stores the text that remained when it was set, as [sre] stores a
    pointer. *)

Definition cset_match (cs : cset) (c : ascii) : bool :=
  match cs with
  | Literal a => Ascii.eqb c a
  | NotLiteral a => negb (Ascii.eqb c a)
  | AnyChar => negb (Ascii.eqb c newline)
  | InSet negate ms => xorb negate (existsb (Ascii.eqb c) ms)
  end.

Definition at_beginning (prev : option ascii) : bool :=
  match prev with None => true | Some _ => false end.

Definition at_beginning_line (prev : option ascii) : bool :=
  match prev with None => true | Some c => Ascii.eqb c newline end.

Definition at_end_line (rest : text) : bool :=
  match rest with [] => true | c :: _ => Ascii.eqb c newline end.

(** [$] without MULTILINE: at the end, or before a final newline. *)
Definition at_end (rest : text) : bool :=
  match rest with
  | [] => true
  | [c] => Ascii.eqb c newline
  | _ => false
  end.

(** [SRE(count)]: how many leading characters match, at most [hi]. *)
Fixpoint count (cs : cset) (hi : option nat) (rest : text) : nat :=
  match rest with
  | [] => 0
  | c :: rest' =>
      match hi with
      | Some 0 => 0
      | _ =>
          if cset_match cs c
          then S (count cs (Nat.pred <$> hi) rest')
          else 0
      end
  end.

(** The position reached after consuming [n] characters. *)
Fixpoint advance (n : nat) (prev : option ascii) (rest : text)
    : option ascii * text :=
  match n, rest with
  | S n', c :: rest' => advance n' (Some c) rest'
  | _, _ => (prev, rest)
  end.

Definition marks := list (nat * text).

Record mresult := {
  r_prev : option ascii;     (* character before the end of the match *)
  r_rest : text;             (* text after the match *)
  r_marks : marks
}.

(** Try [f n], [f (n-1)], ..., [f lo]: the backtracking of a greedy
    repeat. *)
Fixpoint first_down {R} (f : nat -> option R) (lo n : nat) : option R :=
  if n <? lo then None
  else match f n with
       | Some r => Some r
       | None => match n with
                 | 0 => None
                 | S n' => first_down f lo n'
                 end
       end.

(** Try [f i], [f (i+1)], ..., [f (i+d)]: a lazy repeat. *)
Fixpoint first_up {R} (f : nat -> option R) (i d : nat) : option R :=
  match f i with
  | Some r => Some r
  | None => match d with
            | 0 => None
            | S d' => first_up f (S i) d'
            end
  end.

(** [SRE(match)].  [forbid = Some n] is [must_advance]: a match that
    ends with [n] characters remaining (an empty match at the start
    position) is rejected and the matcher backtracks. *)
Fixpoint exec (ops : list op) (forbid : option nat)
    (prev : option ascii) (rest : text) (ms : marks) : option mresult :=
  match ops with
  | [] =>
      match forbid with
      | Some n =>
          if length rest =? n then None
          else Some {| r_prev := prev; r_rest := rest; r_marks := ms |}
      | None => Some {| r_prev := prev; r_rest := rest; r_marks := ms |}
      end
  | AtBeginning :: ops' =>
      if at_beginning prev then exec ops' forbid prev rest ms else None
  | AtBeginningLine :: ops' =>
      if at_beginning_line prev then exec ops' forbid prev rest ms else None
  | AtEnd :: ops' =>
      if at_end rest then exec ops' forbid prev rest ms else None
  | AtEndLine :: ops' =>
      if at_end_line rest then exec ops' forbid prev rest ms else None
  | One cs :: ops' =>
      match rest with
      | c :: rest' =>
          if cset_match cs c then exec ops' forbid (Some c) rest' ms
          else None
      | [] => None
      end
  | Repeat g lo hi cs :: ops' =>
      let n := count cs hi rest in
      let try i :=
        let '(p, r) := advance i prev rest in exec ops' forbid p r ms in
      if n <? lo then None
      else match g with
           | MaxRepeat => first_down try lo n
           | MinRepeat => first_up try lo (n - lo)
           | PossessiveRepeat => try n
           end
  | Mark i :: ops' => exec ops' forbid prev rest ((i, rest) :: ms)
  end.

(** Text between two positions of the same subject, the later one given
    by what remains after it. *)
Definition span (from to : text) : text :=
  take (length from - length to) from.

Definition get_mark (i : nat) (ms : marks) : option text :=
  snd <$> List.find (fun m => fst m =? i) ms.

(** A match object: [m_pre] is the text skipped before the match. *)
Record match_obj := {
  m_pre : text;
  m_start : text;            (* text from the start of the match on *)
  m_res : mresult
}.

(** [m.group(0)] *)
Definition group0 (m : match_obj) : text :=
  span (m_start m) (r_rest (m_res m)).

(** [m.group(g)] for [g >= 1]; [None] when the group did not take part. *)
Definition group (g : nat) (m : match_obj) : option text :=
  match get_mark (2 * (g - 1)) (r_marks (m_res m)),
        get_mark (2 * (g - 1) + 1) (r_marks (m_res m)) with
  | Some from, Some to => Some (span from to)
  | _, _ => None
  end.

(** [SRE(search)], general case: try every start position in turn;
    [must_advance] only constrains the attempt at the first one. *)
Fixpoint search_at (ops : list op) (forbid : option nat)
    (prev : option ascii) (rest : text) : option match_obj :=
  match exec ops forbid prev rest [] with
  | Some r => Some {| m_pre := []; m_start := rest; m_res := r |}
  | None =>
      match rest with
      | [] => None
      | c :: rest' =>
          match search_at ops None (Some c) rest' with
          | Some m => Some {| m_pre := c :: m_pre m;
                              m_start := m_start m; m_res := m_res m |}
          | None => None
          end
      end
  end.

(** [pattern.search(string)] *)
Definition search (p : pattern) (s : text) : option match_obj :=
  search_at (p_ops p) None None s.

(** ** Replacement templates, after [_parser.parse_template] *)

Inductive titem :=
  | TLit (c : ascii)
  | TGroup (g : nat).

Definition is_digit (c : ascii) : bool :=
  existsb (Ascii.eqb c) (s2l "0123456789").
Definition is_octdigit (c : ascii) : bool :=
  existsb (Ascii.eqb c) (s2l "01234567").
Definition is_ascii_letter (c : ascii) : bool :=
  existsb (Ascii.eqb c)
    (s2l "abcdefghijklmnopqrstuvwxyzABCDEFGHIJKLMNOPQRSTUVWXYZ").
Definition digit_val (c : ascii) : nat := nat_of_ascii c - 48.

(** The [ESCAPES] table. *)
Definition escape_char (c : ascii) : option ascii :=
  if Ascii.eqb c "a" then Some "007"
  else if Ascii.eqb c "b" then Some "008"
  else if Ascii.eqb c "f" then Some "012"
  else if Ascii.eqb c "n" then Some "010"
  else if Ascii.eqb c "r" then Some "013"
  else if Ascii.eqb c "t" then Some "009"
  else if Ascii.eqb c "v" then Some "011"
  else if Ascii.eqb c backslash then Some backslash
  else None.

Definition add_group (groups index : nat) (k : res (list titem))
    : res (list titem) :=
  if groups <? index then Raise InvalidGroupReference
  else match k with
       | Ret l => Ret (TGroup index :: l)
       | other => other
       end.

Definition add_lit (c : ascii) (k : res (list titem)) : res (list titem) :=
  match k with
  | Ret l => Ret (TLit c :: l)
  | other => other
  end.

Fixpoint parse_template (groups : nat) (src : text) : res (list titem) :=
  match src with
  | [] => Ret []
  | c :: src1 =>
      if negb (Ascii.eqb c backslash) then
        add_lit c (parse_template groups src1)
      else
        match src1 with
        | [] => Raise BadEscape                    (* end of pattern *)
        | c1 :: src2 =>
            if Ascii.eqb c1 "g" then Unsupported
            else if Ascii.eqb c1 "0" then
              match src2 with
              | d2 :: src3 =>
                  if is_octdigit d2 then
                    match src3 with
                    | d3 :: src4 =>
                        if is_octdigit d3 then
                          add_lit (ascii_of_nat
                                     ((8 * digit_val d2 + digit_val d3)
                                      mod 256))
                            (parse_template groups src4)
                        else
                          add_lit (ascii_of_nat (digit_val d2))
                            (parse_template groups src3)
                    | [] =>
                        add_lit (ascii_of_nat (digit_val d2))
                          (parse_template groups src3)
                    end
                  else add_lit zero (parse_template groups src2)
              | [] => add_lit zero (parse_template groups src2)
              end
            else if is_digit c1 then
              match src2 with
              | d2 :: src3 =>
                  if is_digit d2 then
                    match src3 with
                    | d3 :: src4 =>
                        if is_octdigit c1 && is_octdigit d2 && is_octdigit d3
                        then
                          let v := 64 * digit_val c1 + 8 * digit_val d2
                                   + digit_val d3 in
                          if 255 <? v then Raise OctalOutOfRange
                          else add_lit (ascii_of_nat v)
                                 (parse_template groups src4)
                        else
                          add_group groups (10 * digit_val c1 + digit_val d2)
                            (parse_template groups src3)
                    | [] =>
                        add_group groups (10 * digit_val c1 + digit_val d2)
                          (parse_template groups src3)
                    end
                  else
                    add_group groups (digit_val c1)
                      (parse_template groups src2)
              | [] =>
                  add_group groups (digit_val c1) (parse_template groups src2)
              end
            else
              match escape_char c1 with
              | Some e => add_lit e (parse_template groups src2)
              | None =>
                  if is_ascii_letter c1 then Raise BadEscape
                  else add_lit backslash
                         (add_lit c1 (parse_template groups src2))
              end
        end
  end.

(** [pattern_subx] takes the replacement literally when it holds no
    backslash and hands it to the template compiler otherwise. *)
Definition template_of (groups : nat) (repl : text) : res (list titem) :=
  if existsb (Ascii.eqb backslash) repl then parse_template groups repl
  else Ret (map TLit repl).

(** [expand_template]: a group that did not take part expands to the
    empty string. *)
Definition expand (tpl : list titem) (m : match_obj) : text :=
  flat_map (fun it => match it with
                      | TLit c => [c]
                      | TGroup g => default [] (group g m)
                      end) tpl.

(** ** Substitution, after [pattern_subx] *)

Fixpoint sub_loop (fuel : nat) (ops : list op) (tpl : list titem)
    (must_advance : bool) (prev : option ascii) (rest : text) : text :=
  match fuel with
  | 0 => rest
  | S fuel' =>
      match search_at ops (if must_advance then Some (length rest) else None)
              prev rest with
      | None => rest
      | Some m =>
          let r := m_res m in
          m_pre m ++ expand tpl m ++
          sub_loop fuel' ops tpl
            (length (r_rest r) =? length (m_start m))
            (r_prev r) (r_rest r)
      end
  end.

(** [pattern.sub(repl, string)].  Every iteration either consumes a
    character or sets [must_advance], so [2 * len + 2] iterations are
    enough. *)
Definition sub (p : pattern) (repl s : text) : res text :=
  match template_of (p_groups p) repl with
  | Ret tpl => Ret (sub_loop (2 * length s + 2) (p_ops p) tpl false None s)
  | Raise e => Raise e
  | Unsupported => Unsupported
  end.

(** [re.sub(pattern, repl, string, flags=re.MULTILINE)] *)
Definition re_sub (multiline : bool) (pat repl s : text) : res text :=
  match compile multiline pat with
  | Ret p => sub p repl s
  | Raise e => Raise e
  | Unsupported => Unsupported
  end.

(** ** Vocabulary for reasoning about the matcher *)

(** The opcodes of a run of literal characters. *)
Definition lits (s : text) : list op := map (fun c => One (Literal c)) s.

(** The character before the position reached by reading [l]. *)
Definition prev_after (prev : option ascii) (l : text) : option ascii :=
  match last l with Some c => Some c | None => prev end.

(** A match found after skipping [p] more characters. *)
Definition shift (p : text) (m : match_obj) : match_obj :=
  {| m_pre := p ++ m_pre m; m_start := m_start m; m_res := m_res m |}.

Definition group1 (m : match_obj) : text := default [] (group 1 m).

End Re.

(* ================================================================== *)
(** * Path arithmetic, after [posixpath] *)
(* ================================================================== *)

Module Posix.

Definition sep : ascii := "/".

Definition isabs (p : text) : bool :=
  match p with
  | c :: _ => Ascii.eqb c sep
  | [] => false
  end.

Definition ends_with_sep (a : text) : bool :=
  match last a with
  | Some c => Ascii.eqb c sep
  | None => false
  end.

(** [os.path.join(a, p)] *)
Definition join (a p : text) : text :=
  if isabs p then p
  else if (length a =? 0) || ends_with_sep a then a ++ p
  else a ++ sep :: p.

(** [str.split("/")] *)
Fixpoint split (s : text) : list text :=
  match s with
  | [] => [[]]
  | c :: s' =>
      if Ascii.eqb c sep then [] :: split s'
      else match split s' with
           | h :: t => (c :: h) :: t
           | [] => [[c]]
           end
  end.

(** ["/".join(comps)] *)
Fixpoint unsplit (comps : list text) : text :=
  match comps with
  | [] => []
  | [c] => c
  | c :: comps' => c ++ sep :: unsplit comps'
  end.

Definition text_eqb (a b : text) : bool := bool_decide (a = b).

(** One round of the loop of [normpath]; [new_comps] is kept reversed. *)
Definition norm_step (initial_slashes : nat) (new_rev : list text)
    (comp : text) : list text :=
  if text_eqb comp [] || text_eqb comp (s2l ".") then new_rev
  else if negb (text_eqb comp (s2l ".."))
          || ((initial_slashes =? 0) && (length new_rev =? 0))
          || match new_rev with
             | top :: _ => text_eqb top (s2l "..")
             | [] => false
             end
       then comp :: new_rev
       else tail new_rev.

Definition initial_slashes (p : text) : nat :=
  match p with
  | "/" :: "/" :: "/" :: _ => 1
  | "/" :: "/" :: _ => 2
  | "/" :: _ => 1
  | _ => 0
  end.

(** [os.path.normpath(path)] *)
Definition normpath (path : text) : text :=
  match path with
  | [] => s2l "."
  | _ =>
      let n := initial_slashes path in
      let comps := rev (fold_left (norm_step n) (split path) []) in
      match replicate n sep ++ unsplit comps with
      | [] => s2l "."
      | p => p
      end
  end.

(** [os.path.abspath(path)] in a process whose working directory is
    [cwd]. *)
Definition abspath (cwd path : text) : text :=
  normpath (if isabs path then path else join cwd path).

(** [os.path.dirname(p)] *)
Fixpoint rstrip_sep_rev (r : text) : text :=
  match r with
  | c :: r' => if Ascii.eqb c sep then rstrip_sep_rev r' else r
  | [] => []
  end.

Fixpoint drop_basename_rev (r : text) : text :=
  match r with
  | c :: r' => if Ascii.eqb c sep then r else drop_basename_rev r'
  | [] => []
  end.

Definition dirname (p : text) : text :=
  let head_rev := drop_basename_rev (rev p) in
  if forallb (Ascii.eqb sep) head_rev then rev head_rev
  else rev (rstrip_sep_rev head_rev).

(** A directory name as [tempfile] and [os.getcwd] return them:
    absolute and without trailing separator. *)
Definition plain_dir (d : text) : Prop :=
  isabs d = true /\ ends_with_sep d = false.

End Posix.

(* ================================================================== *)
(** * The script *)
(* ================================================================== *)

Module Script.

(** ** The world the script runs in

    A file system maps absolute path strings to nodes.  A relative path
    is resolved by joining it to the working directory; [..] components
    and symbolic links are not interpreted, except by [chdir_parent]. *)

Inductive node :=
  | File (content : text)
  | Dir.

Inductive event :=
  | EvMkdtemp (p : text)
  | EvMkdir (p : text)
  | EvChdir (p : text)
  | EvIsFile (p : text)
  | EvOpenRead (p : text)
  | EvOpenWrite (p : text)
  | EvRun (cmd : list text)
  | EvRmtree (p : text)
  | EvMove (src dst : text)
  | EvCleanup (p : text).

Record world := {
  w_fs : gmap text node;
  w_cwd : text;
  w_euid : nat;
  w_out : list text;         (* standard output, most recent first *)
  w_log : list event         (* file-system and process calls, most
                                recent first *)
}.

Inductive exn :=
  | SystemExit (code : nat)
  | IndexError
  | RuntimeError (msg : text)
  | CalledProcessError (returncode : nat) (cmd : list text)
  | FileNotFoundError (p : text)
  | FileExistsError (p : text)
  | IsADirectoryError (p : text)
  | NotADirectoryError (p : text)
  | BadGzipFile
  | ReError (e : Re.re_error)
  | ShutilError (p : text)                   (* shutil.Error *)
  | SameFileError (p : text)                 (* shutil.SameFileError *)
  | OSError (p : text).

(** [Unmodelled]: the run left the modelled fragment of [re], or asked
    [shutil.move] to move a directory. *)
Inductive outcome (A : Type) :=
  | Val (a : A)
  | Exc (e : exn)
  | Unmodelled.
Arguments Val {A} a.
Arguments Exc {A} e.
Arguments Unmodelled {A}.

(** The status the process ends with. *)
Definition exit_status (e : exn) : nat :=
  match e with
  | SystemExit code => code
  | _ => 1
  end.

(** ** A state and exception monad *)

Definition M (A : Type) := world -> outcome A * world.

Definition ret {A} (a : A) : M A := fun w => (Val a, w).
Definition raise {A} (e : exn) : M A := fun w => (Exc e, w).
Definition unmodelled {A} : M A := fun w => (Unmodelled, w).

Definition bind {A B} (m : M A) (f : A -> M B) : M B :=
  fun w =>
    match m w with
    | (Val a, w') => f a w'
    | (Exc e, w') => (Exc e, w')
    | (Unmodelled, w') => (Unmodelled, w')
    end.

Notation "x <- m ;; k" := (bind m (fun x => k))
  (at level 100, m at next level, right associativity).
Notation "m ;;; k" := (bind m (fun _ => k))
  (at level 100, right associativity).

(** [try: m except ...: handler]; the handler re-raises what it does
    not catch. *)
Definition try_except {A} (m : M A) (handler : exn -> M A) : M A :=
  fun w =>
    match m w with
    | (Exc e, w') => handler e w'
    | other => other
    end.

(** [try: m finally: cleanup] for a cleanup that cannot fail. *)
Definition finally {A} (m : M A) (cleanup : world -> world) : M A :=
  fun w => let '(o, w') := m w in (o, cleanup w').

Definition get {A} (f : world -> A) : M A := fun w => (Val (f w), w).
Definition modify (f : world -> world) : M unit := fun w => (Val tt, f w).

Definition set_fs (f : gmap text node -> gmap text node) (w : world)
    : world :=
  {| w_fs := f (w_fs w); w_cwd := w_cwd w; w_euid := w_euid w;
     w_out := w_out w; w_log := w_log w |}.
Definition set_cwd (d : text) (w : world) : world :=
  {| w_fs := w_fs w; w_cwd := d; w_euid := w_euid w;
     w_out := w_out w; w_log := w_log w |}.
Definition emit (line : text) (w : world) : world :=
  {| w_fs := w_fs w; w_cwd := w_cwd w; w_euid := w_euid w;
     w_out := line :: w_out w; w_log := w_log w |}.
Definition record (e : event) (w : world) : world :=
  {| w_fs := w_fs w; w_cwd := w_cwd w; w_euid := w_euid w;
     w_out := w_out w; w_log := e :: w_log w |}.

(** ** Primitive calls *)

Definition resolve (w : world) (p : text) : text := Posix.join (w_cwd w) p.

(** A path lies under directory [d]. *)
Definition under (d k : text) : Prop := (d ++ [Posix.sep]) `prefix_of` k.
Global Instance under_dec (d k : text) : Decision (under d k) :=
  decide ((d ++ [Posix.sep]) `prefix_of` k).

Definition remove_tree (d : text) (fs : gmap text node) : gmap text node :=
  filter (fun kv => kv.1 <> d /\ ~ under d kv.1) fs.

(** Entries produced by a tool, placed under directory [d]. *)
Definition place (d : text) (entries : list (text * node))
    (fs : gmap text node) : gmap text node :=
  foldr (fun e m => <[ d ++ Posix.sep :: e.1 := e.2 ]> m) fs entries.

Definition print (line : text) : M unit := modify (emit line).

Definition geteuid : M nat := get w_euid.

(** [sys.argv[i]] *)
Definition argv_get (argv : list text) (i : nat) : M text :=
  match argv !! i with
  | Some a => ret a
  | None => raise IndexError
  end.

Definition abspath (p : text) : M text :=
  get (fun w => Posix.abspath (w_cwd w) p).

(** [os.mkdir(p)] *)
Definition mkdir (p : text) : M unit :=
  fun w =>
    let k := resolve w p in
    let w := record (EvMkdir k) w in
    match w_fs w !! k with
    | Some _ => (Exc (FileExistsError k), w)
    | None => (Val tt, set_fs <[ k := Dir ]> w)
    end.

(** [os.path.isfile(p)] *)
Definition isfile (p : text) : M bool :=
  fun w =>
    let k := resolve w p in
    (Val (match w_fs w !! k with Some (File _) => true | _ => false end),
     record (EvIsFile k) w).

(** [open(p).read()], also the opening of a [GzipFile] for reading *)
Definition read_file (p : text) : M text :=
  fun w =>
    let k := resolve w p in
    let w := record (EvOpenRead k) w in
    match w_fs w !! k with
    | Some (File c) => (Val c, w)
    | Some Dir => (Exc (IsADirectoryError k), w)
    | None => (Exc (FileNotFoundError k), w)
    end.

(** [open(p, "w")]: creates or truncates the file *)
Definition open_write (p : text) : M unit :=
  fun w =>
    let k := resolve w p in
    let w := record (EvOpenWrite k) w in
    match w_fs w !! k with
    | Some Dir => (Exc (IsADirectoryError k), w)
    | _ => (Val tt, set_fs <[ k := File [] ]> w)
    end.

(** Writing through a handle obtained from [open_write]. *)
Definition put (p : text) (c : text) : M unit :=
  fun w => (Val tt, set_fs <[ resolve w p := File c ]> w).

(** [os.chdir(p)] *)
Definition chdir (p : text) : M unit :=
  fun w =>
    let d := resolve w p in
    (Val tt, set_cwd d (record (EvChdir d) w)).

(** [os.chdir("..")] *)
Definition chdir_parent : M unit :=
  fun w =>
    let d := Posix.dirname (w_cwd w) in
    (Val tt, set_cwd d (record (EvChdir d) w)).

(** [with contextlib.chdir(d): body] *)
Definition with_chdir {A} (d : text) (body : M A) : M A :=
  fun w =>
    let old := w_cwd w in
    finally (chdir d ;;; body)
            (fun w' => set_cwd old (record (EvChdir old) w')) w.

(** [shutil.rmtree(p, onerror=_ignore_file_not_found)] *)
Definition rmtree_ignore_missing (p : text) : M unit :=
  fun w =>
    let k := resolve w p in
    let w := record (EvRmtree k) w in
    match w_fs w !! k with
    | None => (Val tt, w)
    | Some Dir => (Val tt, set_fs (remove_tree k) w)
    | Some (File _) => (Exc (NotADirectoryError k), w)
    end.

(** How [shutil.copy2] onto the destination of a move ends. *)
Inductive copy_result :=
  | Copied                   (* the whole content was written *)
  | OpenFailed               (* the destination could not be opened *)
  | WriteFailed (n : nat).   (* the copy stopped after [n] bytes *)

(** [shutil.move(src, dst)] for a source that is not a directory; the
    script's only call moves the file [package.deb].

    If [dst] is a directory the destination is [dst/src], which must
    not exist.  Then [os.rename] is tried; [os_rename] says whether it
    succeeds (it does not across file systems).  When it raises
    [OSError], the source is copied with [copy2] and unlinked: the
    copy opens the source, then opens the destination for writing,
    which truncates it, and writes; [copy2] says how that ends.  A
    copy that stops leaves the destination with what was written and
    the source in place. *)
Definition move (os_rename : text -> text -> bool)
    (copy2 : text -> text -> copy_result) (src dst : text) : M unit :=
  fun w =>
    let s := resolve w src in
    let d := resolve w dst in
    let w := record (EvMove s d) w in
    let rename_or_copy (real_dst : text) :=
      match w_fs w !! s with
      | Some (File c) =>
          if os_rename s real_dst then
            (Val tt, set_fs (fun fs => <[ real_dst := File c ]> (delete s fs)) w)
          else if decide (s = real_dst) then
            (Exc (SameFileError s), w)
          else
            match copy2 s real_dst with
            | Copied =>
                (Val tt,
                 set_fs (fun fs => delete s (<[ real_dst := File c ]> fs)) w)
            | OpenFailed => (Exc (OSError real_dst), w)
            | WriteFailed n =>
                (Exc (OSError real_dst),
                 set_fs <[ real_dst := File (take n c) ]> w)
            end
      | Some Dir => (Unmodelled, w)
      | None => (Exc (FileNotFoundError s), w)
      end in
    match w_fs w !! s with
    | Some Dir => (Unmodelled, w)
    | _ =>
        match w_fs w !! d with
        | Some Dir =>
            let d' := d ++ Posix.sep :: src in
            match w_fs w !! d' with
            | Some _ => (Exc (ShutilError d'), w)
            | None => rename_or_copy d'
            end
        | _ => rename_or_copy d
        end
    end.

(** ** The script's constants *)

Definition compiled_or_empty (r : Re.res Re.pattern) : Re.pattern :=
  match r with
  | Re.Ret p => p
  | _ => {| Re.p_ops := []; Re.p_groups := 0 |}
  end.

Definition PACKAGE_RE : Re.pattern :=
  compiled_or_empty (Re.compile true (s2l "^Package: (.+)")).
Definition VERSION_RE : Re.pattern :=
  compiled_or_empty (Re.compile true (s2l "^Version: .*")).

Definition root_message : text :=
  s2l "Please run this as root/fakeroot to ensure proper ownership"
  ++ s2l " in the resulting deb archive.".

Definition no_package_message : text :=
  s2l "Could not find the package name in deb's control file.".

Definition dch_message : text :=
  s2l "Bumped version during deb synchronization.".

Definition dch_env : list (text * text) :=
  [ (s2l "DEBFULLNAME", s2l "github-actions[bot]");
    (s2l "DEBEMAIL",
     s2l "41898282+github-actions[bot]@users.noreply.github.com") ].

Definition changelog_names : list text :=
  [ s2l "changelog.gz"; s2l "changelog.Debian.gz" ].

(** [f"usr/share/doc/{package_name}/{item}"] *)
Definition changelog_path (package_name item : text) : text :=
  s2l "usr/share/doc/" ++ package_name ++ s2l "/" ++ item.

Definition lift_re {A} (r : Re.res A) : M A :=
  match r with
  | Re.Ret a => ret a
  | Re.Raise e => raise (ReError e)
  | Re.Unsupported => unmodelled
  end.

(** The [re.sub] call of [_update_changelog_file].  The replacement
    is written [f"{md5sum}\1{changelog_gz_path}"] in a string literal
    that is not raw, so what stands between the two fields is the
    character U+0001, not a reference to group 1. *)
Definition update_md5sums (changelog_gz_path md5sum md5sums_text : text)
    : Re.res text :=
  Re.re_sub true
    (s2l "^[^ ]*( *)" ++ changelog_gz_path ++ s2l "$")
    (md5sum ++ "001" :: changelog_gz_path)
    md5sums_text.

(** [PACKAGE_RE.search(control_text)] followed by [match[1]] *)
Definition package_name_of (control_text : text) : option text :=
  match Re.search PACKAGE_RE control_text with
  | Some m => Some (default [] (Re.group 1 m))
  | None => None
  end.

(** [VERSION_RE.sub(f"Version: {new_version}", control_text)] *)
Definition set_version (new_version control_text : text) : Re.res text :=
  Re.sub VERSION_RE (s2l "Version: " ++ new_version) control_text.

Section WithTools.

(** External collaborators.  A tool reports its exit status and the
    entries it leaves behind, which the model places under the tool's
    destination directory. *)
Variable tmpdir : text.            (* name picked by TemporaryDirectory *)
Variable dpkg_extract : option node -> nat * list (text * node).
Variable dpkg_control : option node -> nat * list (text * node).
Variable dpkg_build : gmap text node -> text -> nat * option text.
Variable dch :
  list text -> list (text * text) -> option node -> nat * option text.
Variable gunzip : text -> option text.
Variable gzip : text -> text.
Variable md5_hex : text -> text.
Variable str_exn : exn -> text.
Variable os_rename : text -> text -> bool.
Variable copy2 : text -> text -> copy_result.

(** [subprocess.check_call(cmd)]: [effect] is what the tool leaves in
    the file system. *)
Definition check_call (cmd : list text)
    (run : world -> nat * (gmap text node -> gmap text node)) : M unit :=
  fun w =>
    let '(code, effect) := run w in
    let w' := set_fs effect (record (EvRun cmd) w) in
    if code =? 0 then (Val tt, w')
    else (Exc (CalledProcessError code cmd), w').

Definition run_extract (deb_file_path : text) : M unit :=
  check_call [s2l "dpkg-deb"; s2l "--extract"; deb_file_path; s2l "."]
    (fun w =>
       let '(code, entries) := dpkg_extract (w_fs w !! deb_file_path) in
       (code, place (w_cwd w) entries)).

Definition run_control (deb_file_path : text) : M unit :=
  check_call [s2l "dpkg-deb"; s2l "--control"; deb_file_path; s2l "DEBIAN"]
    (fun w =>
       let '(code, entries) := dpkg_control (w_fs w !! deb_file_path) in
       (code, place (resolve w (s2l "DEBIAN")) entries)).

Definition run_dch (new_version : text) : M unit :=
  let cmd := [s2l "dch"; s2l "-v"; new_version; s2l "--"; dch_message] in
  check_call cmd
    (fun w =>
       let k := resolve w (s2l "debian/changelog") in
       let '(code, edited) := dch cmd dch_env (w_fs w !! k) in
       (code, match edited with
              | Some c => <[ k := File c ]>
              | None => id
              end)).

Definition run_build : M unit :=
  check_call [s2l "dpkg-deb"; s2l "-b"; s2l "package"]
    (fun w =>
       let '(code, built) :=
         dpkg_build (w_fs w) (resolve w (s2l "package")) in
       (code, match built with
              | Some c => <[ resolve w (s2l "package.deb") := File c ]>
              | None => id
              end)).

(** Lines 25-59. *)
Definition _update_changelog_file (changelog_gz_path new_version : text)
    : M unit :=
  (* add changelog entry (unpack, add, repack) *)
  mkdir (s2l "debian") ;;;
  gz <- read_file changelog_gz_path ;;
  open_write (s2l "debian/changelog") ;;;
  plain <- match gunzip gz with
           | Some c => ret c
           | None => raise BadGzipFile
           end ;;
  put (s2l "debian/changelog") plain ;;;
  run_dch new_version ;;;
  open_write changelog_gz_path ;;;
  edited <- read_file (s2l "debian/changelog") ;;
  put changelog_gz_path (gzip edited) ;;;
  (* update md5sums *)
  packed <- read_file changelog_gz_path ;;
  let md5sum := md5_hex packed in
  md5sums_text <- read_file (s2l "DEBIAN/md5sums") ;;
  md5sums_text <- lift_re (update_md5sums changelog_gz_path md5sum
                             md5sums_text) ;;
  open_write (s2l "DEBIAN/md5sums") ;;;
  put (s2l "DEBIAN/md5sums") md5sums_text.

Definition changelog_warning (exc : exn) : text :=
  s2l "WARNING: Failed to update changelog file: " ++ str_exn exc
  ++ newline :: s2l "Leaving the changelog file unchanged.".

(** Lines 81-89: read the control file, find the package name, rewrite
    the version. *)
Definition change_version (new_version : text) : M (text * text) :=
  control_text <- read_file (s2l "DEBIAN/control") ;;
  match package_name_of control_text with
  | None => raise (RuntimeError no_package_message)
  | Some package_name =>
      control_text <- lift_re (set_version new_version control_text) ;;
      ret (package_name, control_text)
  end.

(** Lines 95-99: the [except subprocess.CalledProcessError] clause;
    any other exception propagates. *)
Definition advisory (exc : exn) : M unit :=
  match exc with
  | CalledProcessError _ _ => print (changelog_warning exc)
  | _ => raise exc
  end.

(** Lines 90-100: the loop over the candidate names, left at the first
    one that is a file. *)
Fixpoint update_changelog (items : list text)
    (package_name new_version : text) : M unit :=
  match items with
  | [] => ret tt
  | item :: items' =>
      let changelog_gz_path := changelog_path package_name item in
      found <- isfile changelog_gz_path ;;
      if found then
        try_except (_update_changelog_file changelog_gz_path new_version)
          advisory
      else update_changelog items' package_name new_version
  end.

(** Lines 76-78. *)
Definition extract (deb_file_path : text) : M unit :=
  run_extract deb_file_path ;;;
  run_control deb_file_path.

(** Lines 80-103. *)
Definition edit (new_version : text) : M unit :=
  pc <- change_version new_version ;;
  let '(package_name, control_text) := pc in
  update_changelog changelog_names package_name new_version ;;;
  open_write (s2l "DEBIAN/control") ;;;
  put (s2l "DEBIAN/control") control_text ;;;
  rmtree_ignore_missing (s2l "debian").

(** Lines 105-108. *)
Definition repack (deb_file_path : text) : M unit :=
  chdir_parent ;;;
  run_build ;;;
  move os_rename copy2 (s2l "package.deb") deb_file_path.

(** [with tempfile.TemporaryDirectory() as tmpdir: body] *)
Definition with_temporary_directory {A} (body : text -> M A) : M A :=
  finally
    (modify (fun w => set_fs <[ tmpdir := Dir ]> (record (EvMkdtemp tmpdir) w))
     ;;; body tmpdir)
    (fun w => set_fs (remove_tree tmpdir) (record (EvCleanup tmpdir) w)).

(** Lines 62-110; [argv] is [sys.argv]. *)
Definition main (argv : list text) : M unit :=
  arg1 <- argv_get argv 1 ;;
  deb_file_path <- abspath arg1 ;;
  new_version <- argv_get argv 2 ;;
  euid <- geteuid ;;
  if negb (euid =? 0) then
    print root_message ;;;
    raise (SystemExit 77)
  else
    with_temporary_directory (fun tmpdir =>
      let package_dir := Posix.join tmpdir (s2l "package") in
      mkdir package_dir ;;;
      with_chdir package_dir
        (extract deb_file_path ;;;
         edit new_version ;;;
         repack deb_file_path)) ;;;
    raise (SystemExit 0).

End WithTools.

(** ** Vocabulary for reasoning about runs *)

(** A path is directory [t] or lies under it. *)
Definition inside (t k : text) : Prop := k = t \/ under t k.

(** Every path an event mentions satisfies [T]. *)
Definition touches (T : text -> Prop) (e : event) : Prop :=
  match e with
  | EvMkdtemp p | EvMkdir p | EvChdir p | EvIsFile p | EvOpenRead p
  | EvOpenWrite p | EvRmtree p | EvCleanup p => T p
  | EvRun _ => True
  | EvMove s d => T s /\ T d
  end.

(** [w] was reached from [w0] by calls that stay in directory [d] and
    read, write and mention only paths satisfying [T]. *)
Record inv (T : text -> Prop) (d : text) (w0 w : world) : Prop := {
  inv_cwd : w_cwd w = d;
  inv_fs : forall k, ~ T k -> w_fs w !! k = w_fs w0 !! k;
  inv_out : exists new, w_out w = new ++ w_out w0;
  inv_log : exists new, w_log w = new ++ w_log w0 /\ Forall (touches T) new
}.

Definition preserves {A} (I : world -> Prop) (m : M A) : Prop :=
  forall w, I w -> I (m w).2.

(** The world in which the body of [with contextlib.chdir] starts. *)
Definition staged (tmpdir : text) (w : world) : world :=
  let pd := Posix.join tmpdir (s2l "package") in
  set_cwd pd
    (record (EvChdir pd)
       (set_fs <[ pd := Dir ]>
          (record (EvMkdir pd)
             (set_fs <[ tmpdir := Dir ]> (record (EvMkdtemp tmpdir) w))))).

(** Leaving the two [with] blocks: back to directory [old], staging
    tree removed. *)
Definition leave (tmpdir old : text) (w : world) : world :=
  set_fs (remove_tree tmpdir)
    (record (EvCleanup tmpdir) (set_cwd old (record (EvChdir old) w))).

(** How the process ends, given how the body of the [with] blocks
    ended. *)
Definition conclude (o : outcome unit) : outcome unit :=
  match o with
  | Val _ => Exc (SystemExit 0)
  | other => other
  end.

(** Nothing outside the staging tree [t] differs between [w0] and
    [w]. *)
Definition frame (t : text) (w0 w : world) : Prop :=
  forall k : text, ~ inside t k -> w_fs w !! k = w_fs w0 !! k.

(** Every exception [m] can raise satisfies [P]. *)
Definition raises_only {A} (P : exn -> Prop) (m : M A) : Prop :=
  forall w e, (m w).1 = Exc e -> P e.

Definition not_exit (e : exn) : Prop :=
  match e with SystemExit _ => False | _ => True end.

(** The first candidate name that is a file in [w]. *)
Fixpoint first_candidate (w : world) (pkg : text) (items : list text)
    : option text :=
  match items with
  | [] => None
  | item :: items' =>
      match w_fs w !! resolve w (changelog_path pkg item) with
      | Some (File _) => Some item
      | _ => first_candidate w pkg items'
      end
  end.

(** The world after the [isfile] probes of the loop, up to and
    including the first hit. *)
Fixpoint probed (w : world) (pkg : text) (items : list text) : world :=
  match items with
  | [] => w
  | item :: items' =>
      let k := resolve w (changelog_path pkg item) in
      match w_fs w !! k with
      | Some (File _) => record (EvIsFile k) w
      | _ => probed (record (EvIsFile k) w) pkg items'
      end
  end.

(** What [os.path.join] puts before a relative path. *)
Definition join_base (d : text) : text :=
  if (length d =? 0) || Posix.ends_with_sep d then d else d ++ [Posix.sep].

End Script.

(* ================================================================== *)
(** * Line-oriented readings of the two control-file patterns

    These follow the wording of the specification, not the code; the
    theorems below compare them with what [re] computes. *)
(* ================================================================== *)

Module Lines.

(** [t.split("\n")] *)
Fixpoint lines (t : text) : list text :=
  match t with
  | [] => [[]]
  | c :: t' =>
      if Ascii.eqb c newline then [] :: lines t'
      else match lines t' with
           | l :: ls => (c :: l) :: ls
           | [] => [[c]]
           end
  end.

(** ["\n".join(ls)] *)
Fixpoint unlines (ls : list text) : text :=
  match ls with
  | [] => []
  | [l] => l
  | l :: ls' => l ++ newline :: unlines ls'
  end.

(** A text without line feed. *)
Definition one_line (l : text) : Prop := Forall (fun c => c <> newline) l.

(** What follows [p] in [l], when [l] begins with [p]. *)
Fixpoint after_prefix (p l : text) : option text :=
  match p, l with
  | [], _ => Some l
  | a :: p', b :: l' => if Ascii.eqb a b then after_prefix p' l' else None
  | _ :: _, [] => None
  end.

Definition begins_with (p l : text) : bool :=
  match after_prefix p l with Some _ => true | None => false end.

(** Replace a line beginning [s] by [repl]. *)
Definition rewrite_line (s repl l : text) : text :=
  if begins_with s l then repl else l.

(** The remainder of the first line that is [s] followed by at least
    one character. *)
Fixpoint first_capture (s : text) (ls : list text) : option text :=
  match ls with
  | [] => None
  | l :: ls' =>
      match after_prefix s l with
      | Some (c :: name) => Some (c :: name)
      | _ => first_capture s ls'
      end
  end.

(** The remainder of the first line that begins with [s], possibly
    empty. *)
Fixpoint first_after (s : text) (ls : list text) : option text :=
  match ls with
  | [] => None
  | l :: ls' =>
      match after_prefix s l with
      | Some r => Some r
      | None => first_after s ls'
      end
  end.

(** A package name as Debian policy allows it: at least two
    characters among lower case letters, digits, [+], [-] and [.],
    the first one a letter or digit. *)
Definition debian_package_name (name : text) : bool :=
  let alnum c := existsb (Ascii.eqb c)
                   (s2l "abcdefghijklmnopqrstuvwxyz0123456789") in
  let other c := existsb (Ascii.eqb c) (s2l "+-.") in
  match name with
  | c :: _ :: _ => alnum c && forallb (fun x => alnum x || other x) name
  | _ => false
  end.

(** Replace a line beginning [Version: ] by [Version: V]. *)
Definition rewrite_version_line (V : text) : text -> text :=
  rewrite_line (s2l "Version: ") (s2l "Version: " ++ V).

Definition rewrite_version_lines (V t : text) : text :=
  unlines (map (rewrite_version_line V) (lines t)).

Definition first_package : list text -> option text :=
  first_capture (s2l "Package: ").

Definition text_eqb (a b : text) : bool := bool_decide (a = b).

Definition count_lines (P : text -> bool) (t : text) : nat :=
  length (filter (fun l => P l = true) (lines t)).

End Lines.

(* ================================================================== *)
(** * A small world to run the script in *)
(* ================================================================== *)

Module Demo.
Import Script Lines.

Definition tmpdir : text := s2l "/tmp/tmpq1".

Definition control_of (pkg : text) : text :=
  unlines [s2l "Package: " ++ pkg; s2l "Version: 1.0";
           s2l "Architecture: all"; []].

Definition manifest_of (pkg : text) : text :=
  unlines [s2l "d41d8cd98f00b204e9800998ecf8427e  usr/bin/tool";
           s2l "9e107d9d372bb6826bd81d3542a419d6  "
           ++ changelog_path pkg (s2l "changelog.gz");
           []].

Definition dpkg_extract (pkg : text) (deb : option node)
    : nat * list (text * node) :=
  match deb with
  | Some (File _) =>
      (0, [ (s2l "usr/bin/tool", File (s2l "#!/bin/sh"));
            (changelog_path pkg (s2l "changelog.gz"),
             File (s2l "GZ:pkg (1.0) stable; urgency=low")) ])
  | _ => (2, [])
  end.

Definition dpkg_control (pkg : text) (deb : option node)
    : nat * list (text * node) :=
  match deb with
  | Some (File _) =>
      (0, [ (s2l "control", File (control_of pkg));
            (s2l "md5sums", File (manifest_of pkg)) ])
  | _ => (2, [])
  end.

Definition dpkg_build (fs : gmap text node) (dir : text)
    : nat * option text :=
  match fs !! (dir ++ s2l "/DEBIAN/control"),
        fs !! (dir ++ s2l "/DEBIAN/md5sums") with
  | Some (File c), Some (File m) =>
      (0, Some (s2l "control:" ++ newline :: c
                ++ s2l "md5sums:" ++ newline :: m))
  | _, _ => (2, None)
  end.

Definition dch (ok : bool) (cmd : list text) (env : list (text * text))
    (changelog : option node) : nat * option text :=
  match ok, changelog, cmd with
  | true, Some (File c), [_; _; v; _; msg] =>
      (0, Some (s2l "pkg (" ++ v ++ s2l ") " ++ msg ++ newline :: c))
  | _, _, _ => (1, None)
  end.

Definition gunzip (c : text) : option text := after_prefix (s2l "GZ:") c.
Definition gzip (c : text) : text := s2l "GZ:" ++ c.
Definition md5_hex (c : text) : text := s2l "0123456789abcdef0123456789abcdef".
Definition str_exn (e : exn) : text :=
  match e with
  | CalledProcessError _ _ => s2l "Command returned non-zero exit status 1."
  | _ => s2l "error"
  end.

(** The temporary directory is on another file system than the
    archive: the rename fails and the copy goes through. *)
Definition os_rename (src dst : text) : bool := false.
Definition copy2 (src dst : text) : copy_result := Copied.

Definition deb_path : text := s2l "/home/ci/work/foo_1.0.deb".

Definition world0 (euid : nat) : world :=
  {| w_fs := {[ deb_path := File (s2l "!<arch>");
                s2l "/home/ci/work" := Dir ]};
     w_cwd := s2l "/home/ci/work";
     w_euid := euid;
     w_out := [];
     w_log := [] |}.

Definition main (pkg : text) (dch_ok : bool) (argv : list text) : M unit :=
  Script.main tmpdir (dpkg_extract pkg) (dpkg_control pkg) dpkg_build
    (dch dch_ok) gunzip gzip md5_hex str_exn os_rename copy2 argv.

Definition argv0 : list text :=
  [s2l "deb_reversion.py"; s2l "foo_1.0.deb"; s2l "2.0"].

(** The world a root run is in once the archive is extracted. *)
Definition extracted (pkg : text) : world :=
  (extract (dpkg_extract pkg) (dpkg_control pkg) deb_path
     (staged tmpdir (world0 0))).2.

Definition edit (dch_ok : bool) (V : text) : M unit :=
  Script.edit (dch dch_ok) gunzip gzip md5_hex str_exn V.

Definition update_changelog (dch_ok : bool) (pkg V : text) : M unit :=
  Script.update_changelog (dch dch_ok) gunzip gzip md5_hex str_exn
    changelog_names pkg V.

End Demo.

(* ================================================================== *)
(** * A line-oriented reading of the checksum manifest *)
(* ================================================================== *)

Module Manifest.
Import Lines.

Definition space : ascii := " ".

Definition has_space (l : text) : bool := existsb (Ascii.eqb space) l.

(** A character [a] of the path, read as a pattern, against a
    character [b] of the manifest: a dot stands for any character but
    a line feed, any other character for itself. *)
Definition reads (a b : ascii) : bool :=
  if Ascii.eqb a "." then negb (Ascii.eqb b newline) else Ascii.eqb b a.

Fixpoint reads_as (path u : text) : bool :=
  match path, u with
  | [], [] => true
  | a :: path', b :: u' => reads a b && reads_as path' u'
  | _, _ => false
  end.

(** Space-free text followed by nothing but spaces. *)
Fixpoint field_and_spaces (pre : text) : bool :=
  match pre with
  | [] => true
  | c :: pre' =>
      if Ascii.eqb c space then forallb (Ascii.eqb space) pre'
      else field_and_spaces pre'
  end.

(** The line is a space-free field, spaces, and a name the path reads
    as. *)
Definition entry_for (path l : text) : bool :=
  let k := length l - length path in
  field_and_spaces (take k l) && reads_as path (drop k l).

(** What the substitution of [_update_changelog_file] puts in the
    place of an entry for [path]. *)
Definition rewrite_entry (md5sum path l : text) : text :=
  if entry_for path l then md5sum ++ "001" :: path else l.

Definition rewrite_entries (md5sum path t : text) : text :=
  unlines (map (rewrite_entry md5sum path) (lines t)).

(** Every line holds a space, except that the last one may be empty:
    the shape of a manifest whose entries are a checksum, spaces and a
    path. *)
Fixpoint spaced (ls : list text) : bool :=
  match ls with
  | [] => true
  | [l] => has_space l || (length l =? 0)
  | l :: ls' => has_space l && spaced ls'
  end.

(** A character of a path that holds no pattern syntax but dots: a
    dot, or a character that stands for itself; neither a space nor a
    line feed. *)
Definition path_char (c : ascii) : bool :=
  (Ascii.eqb c "." || negb (Re.is_special c))
  && negb (Ascii.eqb c space) && negb (Ascii.eqb c newline).

(** ** Vocabulary for reasoning about the pattern *)

(** The opcodes a path of such characters compiles to. *)
Definition path_ops (path : text) : list Re.op :=
  map (fun a => Re.One (if Ascii.eqb a "." then Re.AnyChar else Re.Literal a))
    path.

(** The text does not begin with a space. *)
Definition starts_plain (r : text) : Prop :=
  match r with c :: _ => c <> space | [] => True end.

(** A match ended at the end of the line, with [tl] left to read,
    after at least one character of the line. *)
Definition ends_line (tl : text) (res : Re.mresult) : Prop :=
  Re.r_rest res = tl /\ Re.at_beginning_line (Re.r_prev res) = false.

End Manifest.

(* ================================================================== *)
(** * The paths of the editing step *)
(* ================================================================== *)

Module Footprint.
Import Script.

(** The paths the editing step of a run in directory [d] on package
    [pkg] may read or write: the control file, the manifest, the two
    changelog candidates, and the scratch directory with what is in
    it. *)
Definition edit_footprint (d pkg : text) (k : text) : Prop :=
  k = Posix.join d (s2l "DEBIAN/control")
  \/ k = Posix.join d (s2l "DEBIAN/md5sums")
  \/ k = Posix.join d (changelog_path pkg (s2l "changelog.gz"))
  \/ k = Posix.join d (changelog_path pkg (s2l "changelog.Debian.gz"))
  \/ inside (Posix.join d (s2l "debian")) k.

End Footprint.

(* ================================================================== *)
(** * Facts about the [re] fragment *)
(* ================================================================== *)

Module ReFacts.
Import Re Lines.

Lemma eqb_newline_false c : c <> newline -> Ascii.eqb c newline = false.
Proof. intros H. apply Ascii.eqb_neq. exact H. Qed.

Lemma prev_after_cons prev c l :
  prev_after (Some c) l = prev_after prev (c :: l).
Proof.
  unfold prev_after. rewrite last_cons. destruct (last l); reflexivity.
Qed.

Lemma advance_app l : forall prev tl,
  advance (length l) prev (l ++ tl) = (prev_after prev l, tl).
Proof.
  induction l as [|c l IH]; intros prev tl; simpl.
  - destruct tl; reflexivity.
  - rewrite IH. f_equal. apply prev_after_cons.
Qed.

Lemma count_any_line l tl :
  one_line l -> at_end_line tl = true ->
  count AnyChar None (l ++ tl) = length l.
Proof.
  intros Hl Htl. induction Hl as [|c l Hc Hl IH]; simpl.
  - destruct tl as [|d tl]; [reflexivity|]. simpl in *.
    rewrite Htl. reflexivity.
  - rewrite (eqb_newline_false c Hc). simpl. rewrite IH. reflexivity.
Qed.

Lemma first_down_top {R} (f : nat -> option R) lo n r :
  lo <= n -> f n = Some r -> first_down f lo n = Some r.
Proof.
  intros Hle Hf. destruct n; simpl.
  - destruct lo; [|lia]. simpl. rewrite Hf. reflexivity.
  - destruct (S n <? lo) eqn:E.
    + apply Nat.ltb_lt in E. lia.
    + rewrite Hf. reflexivity.
Qed.

Lemma after_prefix_app p l : after_prefix p (p ++ l) = Some l.
Proof.
  induction p as [|a p IH]; simpl; [reflexivity|].
  rewrite Ascii.eqb_refl. exact IH.
Qed.

Lemma after_prefix_Some p : forall l x,
  after_prefix p l = Some x -> l = p ++ x.
Proof.
  induction p as [|a p IH]; intros l x H; simpl in *.
  - congruence.
  - destruct l as [|b l]; [discriminate|].
    destruct (Ascii.eqb a b) eqn:E; [|discriminate].
    apply Ascii.eqb_eq in E. subst b. f_equal. apply IH. exact H.
Qed.

(** Matching a run of literals is reading a prefix. *)
Lemma exec_lits s : forall ops forbid prev rest ms,
  exec (lits s ++ ops) forbid prev rest ms =
  match after_prefix s rest with
  | Some rest' => exec ops forbid (prev_after prev s) rest' ms
  | None => None
  end.
Proof.
  induction s as [|a s IH]; intros ops forbid prev rest ms.
  - reflexivity.
  - simpl. destruct rest as [|b rest]; [reflexivity|].
    simpl. rewrite (Ascii.eqb_sym b a).
    destruct (Ascii.eqb a b) eqn:E; [|reflexivity].
    apply Ascii.eqb_eq in E. subst b.
    rewrite IH. rewrite (prev_after_cons prev). reflexivity.
Qed.


Lemma prev_after_app prev a b :
  prev_after (prev_after prev a) b = prev_after prev (a ++ b).
Proof.
  revert prev. induction a as [|c a IH]; intros prev; simpl.
  - reflexivity.
  - rewrite <- (prev_after_cons prev c (a ++ b)), <- (prev_after_cons prev c a).
    apply IH.
Qed.

Lemma prev_after_not_bol prev l :
  one_line l -> l <> [] -> at_beginning_line (prev_after prev l) = false.
Proof.
  intros Hl Hne. unfold prev_after.
  destruct (last l) as [c|] eqn:E.
  - simpl. apply eqb_newline_false.
    apply last_Some in E as [l' ->].
    apply Forall_app in Hl as [_ Hc]. inversion Hc; subst; assumption.
  - apply last_None in E. contradiction.
Qed.

Lemma after_prefix_app_l s : forall l x t,
  after_prefix s l = Some x -> after_prefix s (l ++ t) = Some (x ++ t).
Proof.
  intros l x t H. apply after_prefix_Some in H. subst l.
  rewrite <- app_assoc. apply after_prefix_app.
Qed.

Lemma after_prefix_None_line s : forall l tl,
  one_line s -> after_prefix s l = None ->
  after_prefix s (l ++ newline :: tl) = None.
Proof.
  induction s as [|a s IH]; intros l tl Hs H; simpl in *; [discriminate|].
  inversion Hs as [|? ? Ha Hs']; subst.
  destruct l as [|b l]; simpl.
  - rewrite (eqb_newline_false a Ha). reflexivity.
  - destruct (Ascii.eqb a b); [|reflexivity]. apply IH; assumption.
Qed.

(** *** Lines *)

Lemma lines_nonempty t : lines t <> [].
Proof.
  destruct t as [|c t]; simpl; [discriminate|].
  destruct (Ascii.eqb c newline); [discriminate|].
  destruct (lines t); discriminate.
Qed.

Lemma lines_one_line l : one_line l -> lines l = [l].
Proof.
  induction 1 as [|c l Hc Hl IH]; simpl; [reflexivity|].
  rewrite (eqb_newline_false c Hc), IH. reflexivity.
Qed.

Lemma lines_app_newline l tl :
  one_line l -> lines (l ++ newline :: tl) = l :: lines tl.
Proof.
  induction 1 as [|c l Hc Hl IH]; simpl; [reflexivity|].
  rewrite (eqb_newline_false c Hc), IH. reflexivity.
Qed.

Lemma unlines_cons l ls :
  ls <> [] -> unlines (l :: ls) = l ++ newline :: unlines ls.
Proof. destruct ls; [contradiction|reflexivity]. Qed.

Lemma first_line_split t :
  exists l, one_line l /\ (t = l \/ exists tl, t = l ++ newline :: tl).
Proof.
  induction t as [|c t (l & Hl & IH)].
  - exists []. split; [constructor|left; reflexivity].
  - destruct (Ascii.eqb c newline) eqn:E.
    + apply Ascii.eqb_eq in E. subst c.
      exists []. split; [constructor|right; exists t; reflexivity].
    + apply Ascii.eqb_neq in E.
      exists (c :: l). split; [constructor; assumption|].
      destruct IH as [->|[tl ->]]; [left|right; exists tl]; reflexivity.
Qed.

Lemma unlines_lines t : unlines (lines t) = t.
Proof.
  induction t as [|c t IH]; simpl; [reflexivity|].
  destruct (Ascii.eqb c newline) eqn:E.
  - apply Ascii.eqb_eq in E. subst c.
    rewrite unlines_cons by apply lines_nonempty. rewrite IH. reflexivity.
  - pose proof (lines_nonempty t) as Hne.
    destruct (lines t) as [|l ls]; [contradiction|].
    destruct ls; simpl in *; rewrite <- IH; reflexivity.
Qed.

(** *** Searching for a pattern anchored at the beginning of a line *)

Lemma search_at_eq ops forbid prev rest :
  search_at ops forbid prev rest =
  match exec ops forbid prev rest [] with
  | Some r => Some {| m_pre := []; m_start := rest; m_res := r |}
  | None =>
      match rest with
      | [] => None
      | c :: rest' => shift [c] <$> search_at ops None (Some c) rest'
      end
  end.
Proof.
  destruct rest as [|c rest]; simpl.
  - reflexivity.
  - destruct (exec ops forbid prev (c :: rest) []); [reflexivity|].
    destruct (search_at ops None (Some c) rest); reflexivity.
Qed.

Lemma shift_shift p q m : shift p (shift q m) = shift (p ++ q) m.
Proof. unfold shift. simpl. rewrite app_assoc. reflexivity. Qed.

Lemma exec_midline ops forbid prev rest ms :
  at_beginning_line prev = false ->
  exec (AtBeginningLine :: ops) forbid prev rest ms = None.
Proof. intros H. simpl. rewrite H. reflexivity. Qed.

(** A failed attempt on a line moves the search to the next line. *)
Lemma search_skip_line ops l : forall prev tl,
  one_line l ->
  exec (AtBeginningLine :: ops) None prev (l ++ newline :: tl) [] = None ->
  search_at (AtBeginningLine :: ops) None prev (l ++ newline :: tl) =
  shift (l ++ [newline]) <$>
    search_at (AtBeginningLine :: ops) None (Some newline) tl.
Proof.
  induction l as [|c l IH]; intros prev tl Hl Hex.
  - rewrite search_at_eq, Hex. reflexivity.
  - rewrite search_at_eq, Hex. inversion Hl as [|? ? Hc Hl']; subst.
    simpl app. cbv beta iota.
    rewrite IH; [|assumption|].
    + destruct (search_at _ None (Some newline) tl) as [m|]; simpl;
        [rewrite shift_shift|]; reflexivity.
    + apply exec_midline. simpl. apply eqb_newline_false. assumption.
Qed.

Lemma search_skip_last ops l : forall prev,
  one_line l ->
  exec (AtBeginningLine :: ops) None prev l [] = None ->
  search_at (AtBeginningLine :: ops) None prev l = None.
Proof.
  induction l as [|c l IH]; intros prev Hl Hex.
  - rewrite search_at_eq, Hex. reflexivity.
  - rewrite search_at_eq, Hex. inversion Hl as [|? ? Hc Hl']; subst.
    rewrite IH; [reflexivity|assumption|].
    apply exec_midline. simpl. apply eqb_newline_false. assumption.
Qed.

Lemma expand_shift tpl p m : expand tpl (shift p m) = expand tpl m.
Proof. reflexivity. Qed.

Lemma sub_skip_line ops tpl l fuel prev tl :
  one_line l ->
  exec (AtBeginningLine :: ops) None prev (l ++ newline :: tl) [] = None ->
  sub_loop fuel (AtBeginningLine :: ops) tpl false prev (l ++ newline :: tl)
  = l ++ newline ::
      sub_loop fuel (AtBeginningLine :: ops) tpl false (Some newline) tl.
Proof.
  intros Hl Hex. destruct fuel as [|fuel]; [reflexivity|].
  cbn [sub_loop]. rewrite search_skip_line by assumption.
  destruct (search_at _ None (Some newline) tl) as [m|]; simpl.
  - rewrite <- !app_assoc. reflexivity.
  - reflexivity.
Qed.

Lemma sub_skip_newline ops tpl fuel prev tl :
  at_beginning_line prev = false ->
  sub_loop fuel (AtBeginningLine :: ops) tpl false prev (newline :: tl)
  = newline ::
      sub_loop fuel (AtBeginningLine :: ops) tpl false (Some newline) tl.
Proof.
  intros Hb. apply (sub_skip_line ops tpl [] fuel prev tl).
  - constructor.
  - apply exec_midline. assumption.
Qed.

Lemma sub_skip_last ops tpl l fuel prev :
  one_line l ->
  exec (AtBeginningLine :: ops) None prev l [] = None ->
  sub_loop fuel (AtBeginningLine :: ops) tpl false prev l = l.
Proof.
  intros Hl Hex. destruct fuel as [|fuel]; [reflexivity|].
  cbn [sub_loop]. rewrite search_skip_last by assumption. reflexivity.
Qed.


(** *** The pattern [^s.*] for a literal [s] *)

Section LineRewrite.

Variable s : text.
Hypothesis s_line : one_line s.
Hypothesis s_nonempty : s <> [].
Variable repl : text.

Local Abbreviation ops := (lits s ++ [Repeat MaxRepeat 0 None AnyChar]).
Local Abbreviation tpl := (map TLit repl).

Lemma expand_literal m : expand tpl m = repl.
Proof.
  unfold expand. clear. induction repl as [|c r IH]; simpl;
    [|rewrite IH]; reflexivity.
Qed.

Lemma exec_line_hit prev x tl :
  at_beginning_line prev = true -> one_line x -> at_end_line tl = true ->
  exec (AtBeginningLine :: ops) None prev (s ++ x ++ tl) [] =
  Some {| r_prev := prev_after prev (s ++ x); r_rest := tl; r_marks := [] |}.
Proof.
  intros Hb Hx Htl. cbn [exec]. rewrite Hb. 
  rewrite exec_lits, after_prefix_app. cbn [exec].
  rewrite count_any_line by assumption. cbn [Nat.ltb Nat.leb].
  erewrite first_down_top; [reflexivity|lia|].
  rewrite advance_app. cbn [exec]. rewrite prev_after_app. reflexivity.
Qed.

Lemma exec_line_hit_last prev x :
  at_beginning_line prev = true -> one_line x ->
  exec (AtBeginningLine :: ops) None prev (s ++ x) [] =
  Some {| r_prev := prev_after prev (s ++ x); r_rest := []; r_marks := [] |}.
Proof.
  intros Hb Hx. pose proof (exec_line_hit prev x [] Hb Hx eq_refl) as H.
  rewrite app_nil_r in H. exact H.
Qed.

Lemma exec_line_miss forbid prev rest ms :
  after_prefix s rest = None ->
  exec (AtBeginningLine :: ops) forbid prev rest ms = None.
Proof.
  intros H. cbn [exec]. destruct (at_beginning_line prev); [|reflexivity].
   rewrite exec_lits, H. reflexivity.
Qed.

Lemma hit_not_bol prev x :
  one_line x -> at_beginning_line (prev_after prev (s ++ x)) = false.
Proof.
  intros Hx. apply prev_after_not_bol.
  - apply Forall_app. split; assumption.
  - destruct s; [contradiction|discriminate].
Qed.

Lemma length_hit x tl : (length tl =? length (s ++ x ++ tl)) = false.
Proof.
  apply Nat.eqb_neq. rewrite !length_app.
  destruct s; [contradiction|]. simpl. lia.
Qed.

(** Substitution rewrites the text line by line. *)
Lemma sub_loop_lines : forall n t fuel prev,
  length t < n -> length t < fuel ->
  at_beginning_line prev = true ->
  sub_loop fuel (AtBeginningLine :: ops) tpl false prev t =
  unlines (map (rewrite_line s repl) (lines t)).
Proof.
  induction n as [|n IH]; intros t fuel prev Hn Hf Hb; [lia|].
  - destruct (first_line_split t) as (l & Hl & [->|[tl ->]]).
    + (* the last line *)
      rewrite lines_one_line by assumption. cbn [map unlines].
      unfold rewrite_line, begins_with.
      destruct (after_prefix s l) as [x|] eqn:E.
      * apply after_prefix_Some in E. subst l.
        apply Forall_app in Hl as [_ Hx].
        destruct fuel as [|fuel]; [lia|]. cbn [sub_loop].
        rewrite search_at_eq.
        rewrite exec_line_hit_last by assumption.
        cbn [m_res m_pre r_rest r_prev m_start]. rewrite expand_literal.
        pose proof (length_hit x []) as Hlen. rewrite app_nil_r in Hlen.
        rewrite Hlen. rewrite (sub_skip_last _ _ []).
        -- rewrite app_nil_r. reflexivity.
        -- constructor.
        -- apply exec_midline. apply hit_not_bol. assumption.
      * apply sub_skip_last; [assumption|].
        apply exec_line_miss. assumption.
    + (* a line followed by others *)
      rewrite lines_app_newline by assumption. cbn [map].
      rewrite unlines_cons
        by (intros H; apply map_eq_nil in H; revert H; apply lines_nonempty).
      rewrite length_app in Hn, Hf. cbn [length] in Hn, Hf.
      unfold rewrite_line at 1. unfold begins_with.
      destruct (after_prefix s l) as [x|] eqn:E.
      * apply after_prefix_Some in E. subst l.
        apply Forall_app in Hl as [_ Hx].
        destruct fuel as [|fuel]; [lia|]. cbn [sub_loop].
        rewrite search_at_eq. rewrite <- app_assoc.
        rewrite exec_line_hit by (assumption || reflexivity).
        cbn [m_res m_pre r_rest r_prev m_start]. rewrite expand_literal.
        rewrite length_hit.
        rewrite sub_skip_newline by (apply hit_not_bol; assumption).
        rewrite IH; [reflexivity|lia|lia|reflexivity].
      * rewrite sub_skip_line.
        -- rewrite IH; [reflexivity|lia|lia|reflexivity].
        -- assumption.
        -- apply exec_line_miss. apply after_prefix_None_line; assumption.
Qed.

End LineRewrite.


(** *** The pattern [^s(.+)] for a literal [s] *)

Section LineCapture.

Variable s : text.
Hypothesis s_line : one_line s.
Hypothesis s_nonempty : s <> [].

Local Abbreviation ops :=
  (lits s ++ [Mark 0; Repeat MaxRepeat 1 None AnyChar; Mark 1]).

Lemma span_app x tl : span (x ++ tl) tl = x.
Proof.
  unfold span. rewrite length_app.
  replace (length x + length tl - length tl) with (length x) by lia.
  apply take_app_length.
Qed.

Lemma group1_marks pre start p rest a b :
  group1 {| m_pre := pre; m_start := start;
            m_res := {| r_prev := p; r_rest := rest;
                        r_marks := [(1, b); (0, a)] |} |} = span a b.
Proof. reflexivity. Qed.

Lemma exec_capture_hit prev c x tl :
  at_beginning_line prev = true -> one_line (c :: x) ->
  at_end_line tl = true ->
  exists r,
    exec (AtBeginningLine :: ops) None prev (s ++ (c :: x) ++ tl) [] = Some r
    /\ forall pre start,
         group1 {| m_pre := pre; m_start := start; m_res := r |} = c :: x.
Proof.
  intros Hb Hx Htl. eexists. split.
  - cbn [exec]. rewrite Hb. 
    rewrite exec_lits, after_prefix_app. cbn [exec].
    rewrite count_any_line by assumption. cbn [length Nat.ltb Nat.leb].
    erewrite first_down_top; [reflexivity|lia|].
    rewrite (advance_app (c :: x)). cbn [exec]. reflexivity.
  - intros pre start. rewrite group1_marks. apply span_app.
Qed.

Lemma exec_capture_empty forbid prev tl ms :
  at_end_line tl = true ->
  exec (AtBeginningLine :: ops) forbid prev (s ++ tl) ms = None.
Proof.
  intros Htl. cbn [exec]. destruct (at_beginning_line prev); [|reflexivity].
   rewrite exec_lits, after_prefix_app. cbn [exec].
  destruct tl as [|d tl]; [reflexivity|].
  simpl in Htl. cbn [count cset_match]. rewrite Htl. reflexivity.
Qed.

Lemma exec_capture_miss forbid prev rest ms :
  after_prefix s rest = None ->
  exec (AtBeginningLine :: ops) forbid prev rest ms = None.
Proof.
  intros H. cbn [exec]. destruct (at_beginning_line prev); [|reflexivity].
   rewrite exec_lits, H. reflexivity.
Qed.

(** A line that is not [s] followed by a character is passed over. *)
Lemma exec_capture_skip prev l tl :
  one_line l -> at_end_line tl = true ->
  match after_prefix s l with Some (_ :: _) => False | _ => True end ->
  exec (AtBeginningLine :: ops) None prev (l ++ tl) [] = None.
Proof.
  intros Hl Htl H. destruct (after_prefix s l) as [[|c x]|] eqn:E.
  - apply after_prefix_Some in E. subst l. rewrite app_nil_r.
    apply exec_capture_empty. assumption.
  - contradiction.
  - apply exec_capture_miss. destruct tl as [|d tl].
    + rewrite app_nil_r. assumption.
    + simpl in Htl. apply Ascii.eqb_eq in Htl. subst d.
      apply after_prefix_None_line; assumption.
Qed.

Lemma search_capture_lines : forall n t prev,
  length t < n -> at_beginning_line prev = true ->
  group1 <$> search_at (AtBeginningLine :: ops) None prev t =
  first_capture s (lines t).
Proof.
  induction n as [|n IH]; intros t prev Hn Hb; [lia|].
  destruct (first_line_split t) as (l & Hl & [->|[tl ->]]).
  - rewrite lines_one_line by assumption. cbn [first_capture].
    destruct (after_prefix s l) as [[|c x]|] eqn:E.
    + rewrite search_skip_last; [reflexivity|assumption|].
      rewrite <- (app_nil_r l). apply exec_capture_skip;
        [assumption|reflexivity|rewrite E; exact I].
    + apply after_prefix_Some in E. subst l.
      apply Forall_app in Hl as [_ Hx].
      destruct (exec_capture_hit prev c x [] Hb Hx eq_refl) as (r & Hr & Hg).
      rewrite app_nil_r in Hr. rewrite search_at_eq, Hr.
      cbn [fmap option_fmap option_map]. rewrite Hg. reflexivity.
    + rewrite search_skip_last; [reflexivity|assumption|].
      rewrite <- (app_nil_r l). apply exec_capture_skip;
        [assumption|reflexivity|rewrite E; exact I].
  - rewrite lines_app_newline by assumption. cbn [first_capture].
    rewrite length_app in Hn. cbn [length] in Hn.
    assert (Hskip :
      match after_prefix s l with Some (_ :: _) => False | _ => True end ->
      group1 <$> search_at (AtBeginningLine :: ops) None prev
                   (l ++ newline :: tl)
      = first_capture s (lines tl)).
    { intros H. rewrite search_skip_line.
      - rewrite <- (IH tl (Some newline)) by (lia || reflexivity).
        destruct (search_at _ None (Some newline) tl); reflexivity.
      - assumption.
      - apply exec_capture_skip; [assumption|apply Ascii.eqb_refl|assumption]. }
    destruct (after_prefix s l) as [[|c x]|] eqn:E.
    + apply Hskip. exact I.
    + apply after_prefix_Some in E. subst l.
      apply Forall_app in Hl as [_ Hx].
      destruct (exec_capture_hit prev c x (newline :: tl) Hb Hx
                  (Ascii.eqb_refl _)) as (r & Hr & Hg).
      rewrite <- app_assoc. rewrite search_at_eq, Hr.
      cbn [fmap option_fmap option_map]. rewrite Hg. reflexivity.
    + apply Hskip. exact I.
Qed.

End LineCapture.

End ReFacts.

(* ================================================================== *)
(** * The control file: package name and version line *)
(* ================================================================== *)

Module ControlFacts.
Import Re Lines ReFacts Script.

Lemma one_line_s2l_version : one_line (s2l "Version: ").
Proof. repeat constructor; discriminate. Qed.

Lemma one_line_s2l_package : one_line (s2l "Package: ").
Proof. repeat constructor; discriminate. Qed.

Lemma VERSION_RE_ops :
  VERSION_RE =
  {| p_ops := AtBeginningLine ::
              lits (s2l "Version: ") ++ [Repeat MaxRepeat 0 None AnyChar];
     p_groups := 0 |}.
Proof. reflexivity. Qed.

Lemma PACKAGE_RE_ops :
  PACKAGE_RE =
  {| p_ops := AtBeginningLine ::
              lits (s2l "Package: ")
              ++ [Mark 0; Repeat MaxRepeat 1 None AnyChar; Mark 1];
     p_groups := 1 |}.
Proof. reflexivity. Qed.

Lemma existsb_backslash repl :
  ~ In backslash repl -> existsb (Ascii.eqb backslash) repl = false.
Proof.
  intros H. induction repl as [|c r IH]; cbn [existsb]; [reflexivity|].
  destruct (Ascii.eqb backslash c) eqn:E.
  - apply Ascii.eqb_eq in E. subst c. exfalso. apply H. left. reflexivity.
  - apply IH. intros Hin. apply H. right. exact Hin.
Qed.

Lemma template_literal g repl :
  ~ In backslash repl -> template_of g repl = Ret (map TLit repl).
Proof. intros H. unfold template_of. rewrite existsb_backslash; auto. Qed.

(** The substitution of [main], read line by line. *)
Lemma set_version_lines V control :
  ~ In backslash V ->
  set_version V control = Ret (rewrite_version_lines V control).
Proof.
  intros HV. unfold set_version, sub. rewrite template_literal.
  - rewrite VERSION_RE_ops. cbn [p_ops]. f_equal.
    apply (sub_loop_lines (s2l "Version: ") one_line_s2l_version)
      with (n := S (length control));
      first [lia | reflexivity | (intros H; vm_compute in H; discriminate)].
  - intros Hin. apply in_app_or in Hin as [Hin|Hin]; [|auto].
    revert Hin. vm_compute. intuition discriminate.
Qed.

Lemma package_name_lines control :
  package_name_of control = first_package (lines control).
Proof.
  unfold package_name_of, search, first_package.
  rewrite PACKAGE_RE_ops. cbn [p_ops].
  rewrite <- (search_capture_lines (s2l "Package: ") one_line_s2l_package)
    with (n := S (length control)) (prev := None);
    first [lia | reflexivity | (intros H; vm_compute in H; discriminate)].
Qed.

Lemma lines_all_one_line t : Forall one_line (lines t).
Proof.
  induction t as [|c t IH]; simpl.
  - repeat constructor.
  - destruct (Ascii.eqb c newline) eqn:E.
    + constructor; [constructor|assumption].
    + apply Ascii.eqb_neq in E.
      destruct (lines t) as [|l ls]; [repeat constructor; assumption|].
      inversion IH; subst. constructor; [constructor|]; assumption.
Qed.

Lemma lines_unlines ls :
  ls <> [] -> Forall one_line ls -> lines (unlines ls) = ls.
Proof.
  induction ls as [|l ls IH]; intros Hne Hall; [contradiction|].
  inversion Hall as [|? ? Hl Hls]; subst.
  destruct ls as [|l' ls].
  - simpl. apply lines_one_line. assumption.
  - rewrite unlines_cons by discriminate.
    rewrite lines_app_newline by assumption.
    rewrite IH; [reflexivity|discriminate|assumption].
Qed.

Lemma rewrite_line_one_line s repl l :
  one_line repl -> one_line l -> one_line (rewrite_line s repl l).
Proof. intros Hr Hl. unfold rewrite_line. destruct (begins_with s l); auto. Qed.

Lemma lines_rewrite V t :
  one_line V ->
  lines (rewrite_version_lines V t) = map (rewrite_version_line V) (lines t).
Proof.
  intros HV. unfold rewrite_version_lines. apply lines_unlines.
  - intros H. apply map_eq_nil in H. revert H. apply lines_nonempty.
  - apply Forall_map. eapply Forall_impl; [apply lines_all_one_line|].
    intros l Hl. apply rewrite_line_one_line; [|assumption].
    apply Forall_app. split; [apply one_line_s2l_version|assumption].
Qed.

Lemma begins_with_app s x : begins_with s (s ++ x) = true.
Proof. unfold begins_with. rewrite after_prefix_app. reflexivity. Qed.

Lemma text_eqb_eq a b : text_eqb a b = true <-> a = b.
Proof. unfold text_eqb. rewrite bool_decide_eq_true. reflexivity. Qed.

(** A line is [Version: V] after the rewrite exactly when it began
    [Version: ] before. *)
Lemma rewritten_is_target V l :
  text_eqb (s2l "Version: " ++ V) (rewrite_version_line V l)
  = begins_with (s2l "Version: ") l.
Proof.
  unfold rewrite_version_line, rewrite_line.
  destruct (begins_with (s2l "Version: ") l) eqn:E.
  - apply text_eqb_eq. reflexivity.
  - destruct (text_eqb _ l) eqn:E'; [|reflexivity].
    apply text_eqb_eq in E'. subst l.
    rewrite begins_with_app in E. discriminate.
Qed.

Lemma count_filter_map {A} (f : A -> A) (P Q : A -> bool) (ls : list A) :
  (forall l, P (f l) = Q l) ->
  length (filter (fun l => P l = true) (map f ls))
  = length (filter (fun l => Q l = true) ls).
Proof.
  intros H. induction ls as [|l ls IH]; [reflexivity|].
  cbn [map]. rewrite !filter_cons.
  destruct (decide (P (f l) = true)) as [e|n];
    destruct (decide (Q l = true)) as [e'|n']; simpl;
    rewrite ?IH; try reflexivity; rewrite H in *; congruence.
Qed.

Lemma rewrite_no_version_lines V ls :
  length (filter (fun l => begins_with (s2l "Version: ") l = true) ls) = 0 ->
  map (rewrite_version_line V) ls = ls.
Proof.
  induction ls as [|l ls IH]; intros H; [reflexivity|].
  rewrite filter_cons in H.
  destruct (decide (begins_with (s2l "Version: ") l = true)) as [e|n];
    [discriminate|].
  cbn [map]. rewrite IH by assumption.
  unfold rewrite_version_line, rewrite_line.
  destruct (begins_with (s2l "Version: ") l); [contradiction|reflexivity].
Qed.


Lemma package_line_kept V l :
  begins_with (s2l "Package: ") l = true -> rewrite_version_line V l = l.
Proof.
  unfold begins_with. destruct (after_prefix (s2l "Package: ") l) eqn:E;
    [|discriminate].
  intros _. apply after_prefix_Some in E. subst l. reflexivity.
Qed.

Lemma rewrite_version_line_idem V l :
  rewrite_version_line V (rewrite_version_line V l) = rewrite_version_line V l.
Proof.
  unfold rewrite_version_line, rewrite_line.
  destruct (begins_with (s2l "Version: ") l) eqn:E.
  - rewrite begins_with_app. reflexivity.
  - rewrite E. reflexivity.
Qed.

Lemma no_backslash_literal (s : string) :
  existsb (Ascii.eqb backslash) (s2l s) = false -> ~ In backslash (s2l s).
Proof.
  intros H Hin.
  assert (existsb (Ascii.eqb backslash) (s2l s) = true) as Ht.
  { apply existsb_exists. exists backslash.
    split; [assumption|apply Ascii.eqb_refl]. }
  congruence.
Qed.

End ControlFacts.

(* ================================================================== *)
(** * Facts about paths *)
(* ================================================================== *)

Module PosixFacts.
Import Posix.

Lemma join_abs a p : isabs p = true -> join a p = p.
Proof. intros H. unfold join. rewrite H. reflexivity. Qed.

Lemma plain_dir_nonempty d : plain_dir d -> d <> [].
Proof. intros [H _] ->. discriminate. Qed.

Lemma join_rel d p :
  plain_dir d -> isabs p = false -> join d p = d ++ sep :: p.
Proof.
  intros [Ha He] Hp. unfold join. rewrite Hp, He.
  destruct d; [discriminate|reflexivity].
Qed.

Lemma ends_with_sep_app a b :
  b <> [] -> ends_with_sep (a ++ b) = ends_with_sep b.
Proof.
  intros Hb. unfold ends_with_sep. rewrite last_app.
  destruct (last b) eqn:E; [reflexivity|].
  apply last_None in E. contradiction.
Qed.

Lemma isabs_app a b : isabs a = true -> isabs (a ++ b) = true.
Proof. destruct a; [discriminate|]. simpl. auto. Qed.

Lemma plain_dir_sub d (name : text) :
  plain_dir d -> name <> [] -> ends_with_sep name = false ->
  plain_dir (d ++ sep :: name).
Proof.
  intros [Ha He] Hn Hs. split.
  - apply isabs_app. assumption.
  - change (d ++ sep :: name) with (d ++ [sep] ++ name).
    rewrite app_assoc, ends_with_sep_app; assumption.
Qed.

Lemma drop_basename_rev_app b : forall r,
  Forall (fun c => c <> sep) b ->
  drop_basename_rev (rev b ++ sep :: r) = sep :: r.
Proof.
  induction b as [|c b IH] using rev_ind; intros r Hb.
  - cbn [rev app drop_basename_rev]. rewrite Ascii.eqb_refl. reflexivity.
  - apply Forall_app in Hb as [Hb Hc]. inversion Hc as [|? ? Hc' _]; subst.
    rewrite rev_app_distr. cbn [rev app drop_basename_rev].
    destruct (Ascii.eqb c sep) eqn:E;
      [apply Ascii.eqb_eq in E; contradiction|].
    apply IH. assumption.
Qed.

(** The parent of [d/name] is [d]. *)
Lemma dirname_sub d name :
  plain_dir d -> Forall (fun c => c <> sep) name ->
  dirname (d ++ sep :: name) = d.
Proof.
  intros [Ha He] Hn. unfold dirname.
  rewrite rev_app_distr. simpl rev at 1. rewrite <- app_assoc. simpl app at 2.
  assert (rev (sep :: name) = rev name ++ [sep]) as -> by reflexivity.
  rewrite <- app_assoc. simpl app at 2.
  rewrite drop_basename_rev_app by assumption.
  unfold ends_with_sep in He. rewrite <- (rev_involutive d) in He.
  destruct (rev d) as [|c r] eqn:Er.
  - apply (f_equal (@rev _)) in Er. rewrite rev_involutive in Er.
    subst d. discriminate.
  - simpl rev in He. rewrite last_snoc in He.
    cbn [forallb]. rewrite (Ascii.eqb_sym sep c), He, andb_false_r.
    change ([sep] ++ c :: r) with (sep :: c :: r).
    rewrite drop_basename_rev_app by assumption.
    cbn [rstrip_sep_rev]. rewrite Ascii.eqb_refl, He.
    rewrite <- Er. apply rev_involutive.
Qed.

Lemma isabs_normpath p : isabs p = true -> isabs (normpath p) = true.
Proof.
  intros H. unfold normpath. destruct p as [|c p]; [discriminate|].
  simpl in H. apply Ascii.eqb_eq in H. subst c.
  set (n := initial_slashes (sep :: p)).
  assert (Hn : n = 1 \/ n = 2).
  { subst n. unfold initial_slashes, sep.
    destruct p as [|a p]; [left; reflexivity|].
    destruct (Ascii.ascii_dec a "/") as [->|Hne].
    - destruct p as [|b p]; [right; reflexivity|].
      destruct (Ascii.ascii_dec b "/") as [->|Hne']; [left; reflexivity|].
      right. destruct b as [[] [] [] [] [] [] [] []]; try reflexivity.
      contradiction Hne'. reflexivity.
    - left. destruct a as [[] [] [] [] [] [] [] []]; try reflexivity.
      contradiction Hne. reflexivity. }
  destruct Hn as [-> | ->]; reflexivity.
Qed.

Lemma isabs_abspath cwd p : isabs cwd = true -> isabs (abspath cwd p) = true.
Proof.
  intros H. unfold abspath. apply isabs_normpath.
  destruct (isabs p) eqn:E; [assumption|].
  unfold join. rewrite E.
  destruct ((length cwd =? 0) || ends_with_sep cwd);
    [|change (cwd ++ sep :: p) with (cwd ++ [sep] ++ p)];
    apply isabs_app; assumption.
Qed.

End PosixFacts.

(* ================================================================== *)
(** * Facts about the world and the primitive calls *)
(* ================================================================== *)

Module WorldFacts.
Import Script Posix PosixFacts.

(** ** The monad *)

Lemma bind_val {A B} (m : M A) (f : A -> M B) w a w' :
  m w = (Val a, w') -> bind m f w = f a w'.
Proof. intros H. unfold bind. rewrite H. reflexivity. Qed.

Lemma bind_exc {A B} (m : M A) (f : A -> M B) w e w' :
  m w = (Exc e, w') -> bind m f w = (Exc e, w').
Proof. intros H. unfold bind. rewrite H. reflexivity. Qed.

Lemma preserves_ret {A} I (a : A) : preserves I (ret a).
Proof. intros w H. exact H. Qed.

Lemma preserves_raise {A} I e : preserves I (@raise A e).
Proof. intros w H. exact H. Qed.

Lemma preserves_unmodelled {A} I : preserves I (@unmodelled A).
Proof. intros w H. exact H. Qed.

Lemma preserves_bind {A B} I (m : M A) (f : A -> M B) :
  preserves I m -> (forall a, preserves I (f a)) -> preserves I (bind m f).
Proof.
  intros Hm Hf w HI. unfold bind. specialize (Hm w HI).
  destruct (m w) as [[a| e |] w1]; simpl in *; [apply Hf|..]; assumption.
Qed.

Lemma preserves_try_except {A} I (m : M A) handler :
  preserves I m -> (forall e, preserves I (handler e)) ->
  preserves I (try_except m handler).
Proof.
  intros Hm Hh w HI. unfold try_except. specialize (Hm w HI).
  destruct (m w) as [[a| e |] w1]; simpl in *; [|apply Hh|]; assumption.
Qed.

Lemma preserves_lift_re {A} I (r : Re.res A) : preserves I (lift_re r).
Proof. destruct r; intros w H; exact H. Qed.

(** ** Updates of the world that keep [inv] *)

Section Inv.

Variable T : text -> Prop.
Variable d : text.
Variable w0 : world.

Lemma inv_refl : w_cwd w0 = d -> inv T d w0 w0.
Proof.
  intros H. split; [assumption|reflexivity|exists []; reflexivity|].
  exists []. split; [reflexivity|constructor].
Qed.

Lemma inv_record e w : inv T d w0 w -> touches T e -> inv T d w0 (record e w).
Proof.
  intros [Hc Hf Ho (new & Hl & Hall)] He. split; simpl; try assumption.
  exists (e :: new). rewrite Hl. split; [reflexivity|constructor; assumption].
Qed.

Lemma inv_emit l w : inv T d w0 w -> inv T d w0 (emit l w).
Proof.
  intros [Hc Hf (new & Ho) Hl]. split; simpl; try assumption.
  exists (l :: new). rewrite Ho. reflexivity.
Qed.

Lemma inv_set_fs f w :
  inv T d w0 w ->
  (forall k, ~ T k -> f (w_fs w) !! k = w_fs w !! k) ->
  inv T d w0 (set_fs f w).
Proof.
  intros [Hc Hf Ho Hl] H. split; simpl; try assumption.
  intros k Hk. rewrite H by assumption. apply Hf. assumption.
Qed.

Lemma inv_insert k n w :
  inv T d w0 w -> T k -> inv T d w0 (set_fs <[k := n]> w).
Proof.
  intros Hi Hk. apply inv_set_fs; [assumption|].
  intros k' Hk'. apply lookup_insert_ne. intros ->. contradiction.
Qed.

Lemma lookup_place (dir : text) (entries : list (text * node))
    (fs : gmap text node) (k : text) :
  ~ under dir k -> place dir entries fs !! k = fs !! k.
Proof.
  intros Hk. induction entries as [|e entries IH]; simpl; [reflexivity|].
  rewrite lookup_insert_ne; [assumption|].
  intros <-. apply Hk. unfold under.
  exists e.1. rewrite <- app_assoc. reflexivity.
Qed.

Lemma inv_place (dir : text) (entries : list (text * node)) w :
  inv T d w0 w -> (forall k, under dir k -> T k) ->
  inv T d w0 (set_fs (place dir entries) w).
Proof.
  intros Hi HT. apply inv_set_fs; [assumption|].
  intros k Hk. apply lookup_place. intros Hu. apply Hk, HT, Hu.
Qed.

Lemma lookup_remove_tree (dir : text) (fs : gmap text node) (k : text) :
  k <> dir -> ~ under dir k -> remove_tree dir fs !! k = fs !! k.
Proof.
  intros Hne Hu. unfold remove_tree.
  destruct (fs !! k) as [n|] eqn:E.
  - apply map_lookup_filter_Some. split; [assumption|]. simpl. auto.
  - apply map_lookup_filter_None. left. assumption.
Qed.

Lemma inv_remove_tree (dir : text) w :
  inv T d w0 w -> T dir -> (forall k, under dir k -> T k) ->
  inv T d w0 (set_fs (remove_tree dir) w).
Proof.
  intros Hi Hd HT. apply inv_set_fs; [assumption|].
  intros k Hk. apply lookup_remove_tree.
  - intros ->. contradiction.
  - intros Hu. apply Hk, HT, Hu.
Qed.

(** ** The primitive calls *)

Local Abbreviation I := (inv T d w0).

Lemma resolve_inv w p : I w -> resolve w p = join d p.
Proof. intros [Hc _ _ _]. unfold resolve. rewrite Hc. reflexivity. Qed.

Lemma preserves_print l : preserves I (print l).
Proof. intros w H. apply inv_emit. assumption. Qed.

Lemma preserves_mkdir p : T (join d p) -> preserves I (mkdir p).
Proof.
  intros HT w H. unfold mkdir. rewrite (resolve_inv w p H).
  cbn [record w_fs].
  destruct (w_fs w !! join d p); cbn [snd];
    [|apply inv_insert; [|assumption]]; apply inv_record; assumption.
Qed.

Lemma preserves_isfile p : T (join d p) -> preserves I (isfile p).
Proof.
  intros HT w H. unfold isfile. rewrite (resolve_inv w p H).
  apply inv_record; assumption.
Qed.

Lemma preserves_read_file p : T (join d p) -> preserves I (read_file p).
Proof.
  intros HT w H. unfold read_file. rewrite (resolve_inv w p H).
  cbn [record w_fs].
  destruct (w_fs w !! join d p) as [[c|]|]; apply inv_record; assumption.
Qed.

Lemma preserves_open_write p : T (join d p) -> preserves I (open_write p).
Proof.
  intros HT w H. unfold open_write. rewrite (resolve_inv w p H).
  cbn [record w_fs].
  destruct (w_fs w !! join d p) as [[c|]|]; cbn [snd];
    try (apply inv_insert; [|assumption]); apply inv_record; assumption.
Qed.

Lemma preserves_put p c : T (join d p) -> preserves I (put p c).
Proof.
  intros HT w H. unfold put. rewrite (resolve_inv w p H).
  apply inv_insert; assumption.
Qed.

Lemma preserves_rmtree p :
  T (join d p) -> (forall k, under (join d p) k -> T k) ->
  preserves I (rmtree_ignore_missing p).
Proof.
  intros HT HU w H. unfold rmtree_ignore_missing.
  rewrite (resolve_inv w p H). cbn [record w_fs].
  destruct (w_fs w !! join d p) as [[c|]|]; cbn [snd];
    try (apply inv_remove_tree; [|assumption..]); apply inv_record;
    assumption.
Qed.

Lemma preserves_check_call cmd run :
  (forall w, I w ->
     forall k, ~ T k -> (run w).2 (w_fs w) !! k = w_fs w !! k) ->
  preserves I (check_call cmd run).
Proof.
  intros Hrun w H. unfold check_call.
  specialize (Hrun w H). destruct (run w) as [code effect].
  assert (I (set_fs effect (record (EvRun cmd) w))) as Hi.
  { apply inv_set_fs; [apply inv_record; [assumption|exact Logic.I]|].
    exact Hrun. }
  destruct (code =? 0); exact Hi.
Qed.

End Inv.

(** ** The tools and the functions of the script *)

Ltac pres_step :=
  first
    [ apply preserves_ret | apply preserves_raise
    | apply preserves_unmodelled | apply preserves_lift_re
    | apply preserves_print
    | apply preserves_mkdir | apply preserves_isfile
    | apply preserves_read_file | apply preserves_open_write
    | apply preserves_put
    | apply preserves_bind; [|intros ?]
    | apply preserves_try_except; [|intros ?]
    | match goal with
      | |- preserves _ (match ?x with _ => _ end) => destruct x
      | |- preserves _ (if ?x then _ else _) => destruct x
      end ].

Section Tools.

Variable tmpdir : text.
Variable dpkg_extract : option node -> nat * list (text * node).
Variable dpkg_control : option node -> nat * list (text * node).
Variable dpkg_build : gmap text node -> text -> nat * option text.
Variable dch :
  list text -> list (text * text) -> option node -> nat * option text.
Variable gunzip : text -> option text.
Variable gzip : text -> text.
Variable md5_hex : text -> text.
Variable str_exn : exn -> text.

Variable T : text -> Prop.
Variable d : text.
Variable w0 : world.

Local Abbreviation I := (inv T d w0).

Lemma preserves_run_extract deb :
  (forall k, under d k -> T k) -> preserves I (run_extract dpkg_extract deb).
Proof.
  intros HT. apply preserves_check_call. intros w Hi k Hk.
  cbv beta zeta.
  destruct (dpkg_extract (w_fs w !! deb)) as [code entries]. cbn [snd].
  apply lookup_place. rewrite (inv_cwd _ _ _ _ Hi). auto.
Qed.

Lemma preserves_run_control deb :
  (forall k, under (join d (s2l "DEBIAN")) k -> T k) ->
  preserves I (run_control dpkg_control deb).
Proof.
  intros HT. apply preserves_check_call. intros w Hi k Hk.
  cbv beta zeta.
  destruct (dpkg_control (w_fs w !! deb)) as [code entries]. cbn [snd].
  apply lookup_place. rewrite (resolve_inv _ _ _ _ _ Hi). auto.
Qed.

Lemma preserves_run_dch V :
  T (join d (s2l "debian/changelog")) -> preserves I (run_dch dch V).
Proof.
  intros HT. apply preserves_check_call. intros w Hi k Hk.
  cbv beta zeta. rewrite (resolve_inv _ _ _ _ _ Hi).
  match goal with
  | |- context [dch ?a ?b ?c] => destruct (dch a b c) as [code [c'|]]
  end; cbn [snd]; [|reflexivity].
  apply lookup_insert_ne. intros <-. contradiction.
Qed.

Lemma preserves_run_build :
  T (join d (s2l "package.deb")) -> preserves I (run_build dpkg_build).
Proof.
  intros HT. apply preserves_check_call. intros w Hi k Hk.
  cbv beta zeta. rewrite !(resolve_inv _ _ _ _ _ Hi).
  match goal with
  | |- context [dpkg_build ?a ?b] => destruct (dpkg_build a b) as [code [c'|]]
  end; cbn [snd]; [|reflexivity].
  apply lookup_insert_ne. intros <-. contradiction.
Qed.

Lemma preserves_update_changelog_file p V :
  T (join d (s2l "debian")) -> T (join d p) ->
  T (join d (s2l "debian/changelog")) ->
  T (join d (s2l "DEBIAN/md5sums")) ->
  preserves I (_update_changelog_file dch gunzip gzip md5_hex p V).
Proof.
  intros H1 H2 H3 H4. unfold _update_changelog_file.
  repeat first [apply preserves_run_dch | pres_step]; assumption.
Qed.

Lemma preserves_update_changelog items pkg V :
  T (join d (s2l "debian")) ->
  Forall (fun item => T (join d (changelog_path pkg item))) items ->
  T (join d (s2l "debian/changelog")) ->
  T (join d (s2l "DEBIAN/md5sums")) ->
  preserves I
    (update_changelog dch gunzip gzip md5_hex str_exn items pkg V).
Proof.
  intros H1 H2 H3 H4. induction H2 as [|item items Hi Hall IH];
    cbn [update_changelog].
  - apply preserves_ret.
  - repeat first [apply preserves_update_changelog_file | apply IH
                 | progress unfold advisory | pres_step]; assumption.
Qed.

Lemma preserves_change_version V :
  T (join d (s2l "DEBIAN/control")) -> preserves I (change_version V).
Proof. intros H. unfold change_version. repeat pres_step. assumption. Qed.

Lemma preserves_extract deb :
  (forall k, under d k -> T k) ->
  (forall k, under (join d (s2l "DEBIAN")) k -> T k) ->
  preserves I (extract dpkg_extract dpkg_control deb).
Proof.
  intros H1 H2. unfold extract.
  repeat first [apply preserves_run_extract | apply preserves_run_control
               | pres_step]; assumption.
Qed.

Lemma preserves_edit V :
  (forall p, isabs p = false -> T (join d p)) ->
  (forall k, under (join d (s2l "debian")) k -> T k) ->
  preserves I (edit dch gunzip gzip md5_hex str_exn V).
Proof.
  intros HT HU. unfold edit.
  apply preserves_bind; [apply preserves_change_version; auto|].
  intros [pkg control]. apply preserves_bind.
  - apply preserves_update_changelog; auto.
    unfold changelog_names. repeat constructor; apply HT; reflexivity.
  - intros _. repeat first [apply preserves_rmtree | pres_step]; auto.
Qed.

End Tools.

End WorldFacts.

(* ================================================================== *)
(** * Facts about whole runs *)
(* ================================================================== *)

Module RunFacts.
Import Script Posix PosixFacts WorldFacts.

(** ** What the script can raise *)

Lemma raises_ret {A} P (a : A) : raises_only P (ret a).
Proof. intros w e H. discriminate. Qed.

Lemma raises_unmodelled {A} P : raises_only P (@unmodelled A).
Proof. intros w e H. discriminate. Qed.

Lemma raises_raise {A} (P : exn -> Prop) e :
  P e -> raises_only P (@raise A e).
Proof. intros HP w e' H. injection H as Heq; subst. assumption. Qed.

Lemma raises_bind {A B} P (m : M A) (f : A -> M B) :
  raises_only P m -> (forall a, raises_only P (f a)) ->
  raises_only P (bind m f).
Proof.
  intros Hm Hf w e0. unfold bind. specialize (Hm w).
  destruct (m w) as [[a| e' |] w1]; cbn [fst] in *.
  - apply Hf.
  - intros H. injection H as Heq; subst. apply Hm. reflexivity.
  - discriminate.
Qed.

Lemma raises_try_except {A} P (m : M A) handler :
  raises_only P m -> (forall e, P e -> raises_only P (handler e)) ->
  raises_only P (try_except m handler).
Proof.
  intros Hm Hh w e0. unfold try_except. specialize (Hm w).
  destruct (m w) as [[a| e' |] w1]; cbn [fst] in *; [discriminate| |].
  - apply Hh. apply Hm. reflexivity.
  - discriminate.
Qed.

Lemma raises_lift_re {A} (r : Re.res A) : raises_only not_exit (lift_re r).
Proof.
  destruct r as [a|r|]; intros w e H; try discriminate.
  injection H as Heq; subst. exact Logic.I.
Qed.

Lemma raises_print l : raises_only not_exit (print l).
Proof. intros w e H. discriminate. Qed.

Lemma raises_mkdir p : raises_only not_exit (mkdir p).
Proof.
  intros w e. unfold mkdir. cbn [record w_fs].
  destruct (w_fs w !! resolve w p); cbn [fst]; intros H;
    [injection H as Heq; subst; exact Logic.I|discriminate].
Qed.

Lemma raises_isfile p : raises_only not_exit (isfile p).
Proof. intros w e H. discriminate. Qed.

Lemma raises_read_file p : raises_only not_exit (read_file p).
Proof.
  intros w e. unfold read_file. cbn [record w_fs].
  destruct (w_fs w !! resolve w p) as [[c|]|]; cbn [fst]; intros H;
    try discriminate; injection H as Heq; subst; exact Logic.I.
Qed.

Lemma raises_open_write p : raises_only not_exit (open_write p).
Proof.
  intros w e. unfold open_write. cbn [record w_fs].
  destruct (w_fs w !! resolve w p) as [[c|]|]; cbn [fst]; intros H;
    try discriminate; injection H as Heq; subst; exact Logic.I.
Qed.

Lemma raises_put p c : raises_only not_exit (put p c).
Proof. intros w e H. discriminate. Qed.

Lemma raises_chdir_parent : raises_only not_exit chdir_parent.
Proof. intros w e H. discriminate. Qed.

Lemma raises_rmtree p : raises_only not_exit (rmtree_ignore_missing p).
Proof.
  intros w e. unfold rmtree_ignore_missing. cbn [record w_fs].
  destruct (w_fs w !! resolve w p) as [[c|]|]; cbn [fst]; intros H;
    try discriminate; injection H as Heq; subst; exact Logic.I.
Qed.

Lemma raises_move os_rename copy2 s t :
  raises_only not_exit (move os_rename copy2 s t).
Proof.
  intros w e. unfold move. cbn [record w_fs].
  destruct (w_fs w !! resolve w s) as [[c|]|];
    destruct (w_fs w !! resolve w t) as [[c'|]|];
    try destruct (w_fs w !! _);
    try destruct (os_rename _ _);
    try destruct (decide _);
    try destruct (copy2 _ _);
    cbn [fst]; intros H;
    try discriminate; injection H as Heq; subst; exact Logic.I.
Qed.

(** What a move between two different paths does.  It is logged; when
    the destination is not a directory, every other path but the
    source is as it was; on success the destination holds what the
    source held; on failure the destination is as it was, unless the
    rename failed and the copy stopped while writing: then it holds
    what was written. *)
Lemma move_post os_rename copy2 src dst w o w' :
  let s := resolve w src in
  let d := resolve w dst in
  s <> d ->
  move os_rename copy2 src dst w = (o, w') ->
  w_log w' = EvMove s d :: w_log w
  /\ (w_fs w !! d <> Some Dir ->
      forall k : text, k <> s -> k <> d -> w_fs w' !! k = w_fs w !! k)
  /\ match o with
     | Val _ =>
         exists c, w_fs w !! s = Some (File c)
                   /\ (w_fs w !! d <> Some Dir ->
                       w_fs w' !! d = Some (File c))
     | _ =>
         w_fs w' !! d = w_fs w !! d
         \/ exists c n,
              o = Exc (OSError d)
              /\ w_fs w !! s = Some (File c)
              /\ os_rename s d = false
              /\ copy2 s d = WriteFailed n
              /\ w_fs w' !! d = Some (File (take n c))
     end.
Proof.
  intros s d Hne. unfold move. fold s d. cbn [record w_fs w_log].
  assert (Hsub : d ++ sep :: src <> d).
  { intros H. apply (f_equal length) in H. rewrite length_app in H.
    simpl in H. lia. }
  destruct (w_fs w !! s) as [[c|]|] eqn:Es;
    destruct (w_fs w !! d) as [[c'|]|] eqn:Ed;
    try destruct (w_fs w !! (d ++ sep :: src)) as [n'|] eqn:Ed';
    try destruct (os_rename s _) eqn:Er;
    try destruct (decide (s = _)) as [Hsame|Hdiff];
    try destruct (copy2 s _) as [| |n] eqn:Ec;
    intros H; injection H as <- <-; cbn [w_log w_fs set_fs record];
    (split; [reflexivity|]);
    (split;
     [intros Hnd k Hks Hkd; try (exfalso; apply Hnd; reflexivity);
      rewrite ?lookup_insert_ne, ?lookup_delete_ne, ?lookup_insert_ne
        by congruence; reflexivity|]);
    try (exists c; split; [reflexivity|];
         intros Hnd; try (exfalso; apply Hnd; reflexivity);
         rewrite ?(lookup_delete_ne _ s d) by assumption;
         apply lookup_insert_eq);
    try (left; rewrite ?(lookup_insert_ne _ _ d) by assumption;
         rewrite ?Ed; reflexivity);
    try contradiction;
    right; exists c, n; rewrite lookup_insert_eq; auto.
Qed.

Lemma raises_check_call cmd run : raises_only not_exit (check_call cmd run).
Proof.
  intros w e. unfold check_call. destruct (run w) as [code effect].
  destruct (code =? 0); cbn [fst]; intros H; [discriminate|].
  injection H as Heq; subst. exact Logic.I.
Qed.

Ltac raises_step :=
  first
    [ apply raises_ret | apply raises_unmodelled | apply raises_lift_re
    | apply raises_print | apply raises_mkdir | apply raises_isfile
    | apply raises_read_file | apply raises_open_write | apply raises_put
    | apply raises_chdir_parent | apply raises_rmtree | apply raises_move
    | apply raises_check_call
    | apply raises_raise; first [exact Logic.I | assumption]
    | apply raises_bind; [|intros ?]
    | apply raises_try_except; [|intros ? ?]
    | match goal with
      | |- raises_only _ (match ?x with _ => _ end) => destruct x
      | |- raises_only _ (if ?x then _ else _) => destruct x
      end ].

Section Tools.

Variable tmpdir : text.
Variable dpkg_extract : option node -> nat * list (text * node).
Variable dpkg_control : option node -> nat * list (text * node).
Variable dpkg_build : gmap text node -> text -> nat * option text.
Variable dch :
  list text -> list (text * text) -> option node -> nat * option text.
Variable gunzip : text -> option text.
Variable gzip : text -> text.
Variable md5_hex : text -> text.
Variable str_exn : exn -> text.
Variable os_rename : text -> text -> bool.
Variable copy2 : text -> text -> copy_result.

Hypothesis tmpdir_plain : plain_dir tmpdir.

Local Abbreviation pd := (tmpdir ++ sep :: s2l "package").
Local Abbreviation main :=
  (Script.main tmpdir dpkg_extract dpkg_control dpkg_build dch gunzip gzip
     md5_hex str_exn os_rename copy2).
Local Abbreviation body deb V :=
  (extract dpkg_extract dpkg_control deb ;;;
   edit dch gunzip gzip md5_hex str_exn V ;;;
   repack dpkg_build os_rename copy2 deb).

Lemma package_dir_eq : join tmpdir (s2l "package") = pd.
Proof. apply join_rel; [assumption|reflexivity]. Qed.

Lemma package_dir_plain : plain_dir pd.
Proof. apply plain_dir_sub; [assumption|discriminate|reflexivity]. Qed.

Lemma package_dir_parent : dirname pd = tmpdir.
Proof.
  apply dirname_sub; [assumption|].
  repeat constructor; discriminate.
Qed.

Lemma package_dir_neq : pd <> tmpdir.
Proof.
  intros H. apply (f_equal length) in H. rewrite length_app in H.
  simpl in H. lia.
Qed.

(** The run of a root process with both arguments, when the staging
    directory can be created. *)
Lemma main_root prog arg1 V rest w0 :
  w_euid w0 = 0 -> w_fs w0 !! pd = None ->
  main (prog :: arg1 :: V :: rest) w0 =
  let deb := abspath (w_cwd w0) arg1 in
  let '(o, w) := body deb V (staged tmpdir w0) in
  (conclude o, leave tmpdir (w_cwd w0) w).
Proof.
  intros He Hpd. unfold Script.main, argv_get.
  cbn [lookup list_lookup]. unfold bind at 1. cbn [ret].
  unfold bind at 1. unfold Script.abspath at 1. cbn [get].
  unfold bind at 1. cbn [ret]. unfold bind at 1. unfold geteuid, get.
  rewrite He. cbn [Nat.eqb negb].
  unfold bind at 1, with_temporary_directory, finally.
  unfold bind at 1. unfold modify. rewrite package_dir_eq.
  unfold bind at 1. unfold mkdir at 1. unfold resolve. cbn [record w_cwd set_fs w_fs].
  rewrite (join_abs _ pd) by apply package_dir_plain.
  rewrite lookup_insert_ne by (intros H; symmetry in H; revert H; apply package_dir_neq).
  rewrite Hpd. unfold with_chdir, finally. cbn [w_cwd].
  unfold bind at 1. unfold chdir at 1. unfold resolve. cbn [w_cwd].
  rewrite (join_abs _ pd) by apply package_dir_plain.
  unfold staged. rewrite package_dir_eq.
  match goal with
  | |- context [bind ?m ?f ?w] => destruct (bind m f w) as [[[]| e |] w']
  end; reflexivity.
Qed.

(** ** Repacking *)

Local Abbreviation built_deb := (tmpdir ++ sep :: s2l "package.deb").

Lemma under_package_dir k : under pd k -> under tmpdir k.
Proof.
  unfold under. intros [x ->]. exists (s2l "package/" ++ x).
  rewrite <- !app_assoc. reflexivity.
Qed.

Lemma inside_package_dir : inside tmpdir pd.
Proof.
  right. exists (s2l "package"). rewrite <- app_assoc. reflexivity.
Qed.

Lemma inside_built_deb : inside tmpdir built_deb.
Proof.
  right. exists (s2l "package.deb"). rewrite <- app_assoc. reflexivity.
Qed.

Lemma built_deb_eq : join tmpdir (s2l "package.deb") = built_deb.
Proof. apply join_rel; [assumption|reflexivity]. Qed.

(** What [repack] does from the package directory.  On success the
    last call was the move onto [deb], and [deb] holds what the build
    tool produced unless it was a directory.  On failure, when [deb]
    is not a directory, nothing else outside the staging tree has
    changed, and [deb] is as it was unless the move was reached, its
    rename failed and its copy stopped while writing. *)
Lemma repack_post deb w3 o w :
  w_cwd w3 = pd -> isabs deb = true -> ~ inside tmpdir deb ->
  repack dpkg_build os_rename copy2 deb w3 = (o, w) ->
  match o with
  | Val _ =>
      w_log w = EvMove built_deb deb
                :: EvRun [s2l "dpkg-deb"; s2l "-b"; s2l "package"]
                :: EvChdir tmpdir :: w_log w3
      /\ exists c,
           (w_fs w3 !! built_deb = None ->
            dpkg_build (w_fs w3) pd = (0, Some c))
           /\ (w_fs w3 !! deb <> Some Dir -> w_fs w !! deb = Some (File c))
  | _ =>
      (w_fs w3 !! deb <> Some Dir ->
       forall k : text, ~ inside tmpdir k -> k <> deb ->
                        w_fs w !! k = w_fs w3 !! k)
      /\ (w_fs w !! deb = w_fs w3 !! deb
          \/ exists c n,
               o = Exc (OSError deb)
               /\ w_log w = EvMove built_deb deb
                            :: EvRun [s2l "dpkg-deb"; s2l "-b"; s2l "package"]
                            :: EvChdir tmpdir :: w_log w3
               /\ os_rename built_deb deb = false
               /\ copy2 built_deb deb = WriteFailed n
               /\ w_fs w !! deb = Some (File (take n c)))
  end.
Proof.
  intros Hc Ha Hout. unfold repack, chdir_parent, run_build.
  unfold bind at 1. rewrite Hc, package_dir_parent.
  unfold bind at 1. unfold check_call, resolve.
  cbn [set_cwd record w_cwd w_fs set_fs].
  rewrite package_dir_eq, built_deb_eq.
  destruct (dpkg_build (w_fs w3) pd) as [code built] eqn:Eb.
  assert (Hne : built_deb <> deb).
  { intros <-. apply Hout, inside_built_deb. }
  assert (Hframe : forall k : text, ~ inside tmpdir k ->
            match built with
            | Some c => <[built_deb := File c]>
            | None => id
            end (w_fs w3) !! k = w_fs w3 !! k).
  { intros k Hk. destruct built as [c|]; [|reflexivity].
    apply lookup_insert_ne. intros <-. apply Hk, inside_built_deb. }
  destruct (code =? 0) eqn:Ecode.
  2:{ intros H. injection H as <- <-. split.
      - intros _ k Hk _. apply Hframe. assumption.
      - left. apply Hframe. assumption. }
  apply Nat.eqb_eq in Ecode. subst code.
  match goal with
  | |- move _ _ _ _ ?x = _ -> _ => set (w4 := x)
  end.
  intros Hm.
  pose proof (move_post os_rename copy2 (s2l "package.deb") deb w4 o w)
    as Hp.
  cbv zeta in Hp. unfold resolve in Hp.
  assert (Hcwd4 : w_cwd w4 = tmpdir) by reflexivity.
  rewrite Hcwd4, built_deb_eq, (join_abs _ deb Ha) in Hp.
  destruct (Hp Hne Hm) as (Hlog & Hfr & Hres). clear Hp.
  assert (Hfs4 : forall k : text, ~ inside tmpdir k ->
                   w_fs w4 !! k = w_fs w3 !! k) by exact Hframe.
  rewrite (Hfs4 deb Hout) in Hfr, Hres.
  assert (Hother : w_fs w3 !! deb <> Some Dir ->
            forall k : text, ~ inside tmpdir k -> k <> deb ->
                             w_fs w !! k = w_fs w3 !! k).
  { intros Hnd k Hk Hkd. rewrite Hfr; [apply Hfs4; assumption|assumption| |assumption].
    intros ->. apply Hk, inside_built_deb. }
  assert (Hbuilt : forall c, w_fs w4 !! built_deb = Some (File c) ->
            w_fs w3 !! built_deb = None -> (0, built) = (0, Some c)).
  { intros c. unfold w4. cbn [w_fs set_fs record set_cwd].
    destruct built as [c0|]; cbn [id].
    - rewrite lookup_insert_eq. intros H _. injection H as ->. reflexivity.
    - intros H H'. rewrite H in H'. discriminate. }
  destruct o as [[]|e|].
  - split; [exact Hlog|]. destruct Hres as (c & Hs & Hd).
    exists c. split; [apply Hbuilt; exact Hs|exact Hd].
  - split; [exact Hother|].
    destruct Hres as [Hsame|(c & n & He & _ & Hr & Hcp & Hd)];
      [left; exact Hsame|].
    right. exists c, n. split; [exact He|]. split; [exact Hlog|]. auto.
  - split; [exact Hother|].
    destruct Hres as [Hsame|(c & n & He & _)];
      [left; exact Hsame|discriminate He].
Qed.


Lemma raises_update_changelog items pkg V :
  raises_only not_exit
    (update_changelog dch gunzip gzip md5_hex str_exn items pkg V).
Proof.
  induction items as [|item items IH]; cbn [update_changelog].
  - apply raises_ret.
  - unfold _update_changelog_file, run_dch, advisory.
    repeat first [apply IH | raises_step].
Qed.

Lemma raises_body deb V : raises_only not_exit (body deb V).
Proof.
  unfold extract, edit, repack, change_version, run_extract, run_control,
    run_build.
  repeat first [apply raises_update_changelog | raises_step].
Qed.

(** ** The staging phase stays in the package directory *)

Lemma under_join_self (d p : text) :
  plain_dir d -> isabs p = false -> under d (join d p).
Proof.
  intros Hd Hp. rewrite join_rel by assumption.
  exists p. rewrite <- app_assoc. reflexivity.
Qed.

Lemma under_join (d p k : text) :
  plain_dir d -> isabs p = false -> under (join d p) k -> under d k.
Proof.
  intros Hd Hp. rewrite join_rel by assumption.
  intros [x ->]. exists (p ++ sep :: x).
  rewrite <- !app_assoc. reflexivity.
Qed.

Lemma built_deb_not_staged : ~ under pd built_deb.
Proof.
  intros [x Hx]. rewrite <- !app_assoc in Hx.
  apply app_inv_head in Hx. discriminate.
Qed.

Lemma preserves_stage deb V w1 :
  preserves (inv (under pd) pd w1)
    (extract dpkg_extract dpkg_control deb ;;;
     edit dch gunzip gzip md5_hex str_exn V).
Proof.
  pose proof package_dir_plain as Hpd.
  apply preserves_bind; [|intros _].
  - apply preserves_extract; [auto|].
    intros k. apply under_join; [assumption|reflexivity].
  - apply preserves_edit.
    + intros p Hp. apply under_join_self; assumption.
    + intros k. apply under_join; [assumption|reflexivity].
Qed.

Lemma staged_fs w0 (k : text) :
  ~ inside tmpdir k -> w_fs (staged tmpdir w0) !! k = w_fs w0 !! k.
Proof.
  intros Hk. unfold staged. rewrite package_dir_eq. cbn [w_fs set_fs record set_cwd].
  rewrite !lookup_insert_ne; [reflexivity|..].
  - intros <-. apply Hk. left. reflexivity.
  - intros <-. apply Hk, inside_package_dir.
Qed.

Lemma frame_staged w0 w :
  inv (under pd) pd (staged tmpdir w0) w -> frame tmpdir w0 w.
Proof.
  intros Hi k Hk. rewrite (inv_fs _ _ _ _ Hi).
  - apply staged_fs. assumption.
  - intros Hu. apply Hk. right. apply under_package_dir. assumption.
Qed.

Lemma frame_leave w0 old w :
  frame tmpdir w0 w -> frame tmpdir w0 (leave tmpdir old w).
Proof.
  intros Hf k Hk. unfold leave. cbn [w_fs set_fs record set_cwd].
  rewrite lookup_remove_tree.
  - apply Hf. assumption.
  - intros ->. apply Hk. left. reflexivity.
  - intros Hu. apply Hk. right. assumption.
Qed.

(** How the body of the [with] blocks can end. *)
Lemma body_post deb V w0 o w :
  isabs deb = true -> ~ inside tmpdir deb ->
  body deb V (staged tmpdir w0) = (o, w) ->
  match o with
  | Val _ =>
      exists c w3 new,
        (extract dpkg_extract dpkg_control deb ;;;
         edit dch gunzip gzip md5_hex str_exn V) (staged tmpdir w0)
        = (Val tt, w3)
        /\ w_log w = EvMove built_deb deb
                     :: EvRun [s2l "dpkg-deb"; s2l "-b"; s2l "package"]
                     :: EvChdir tmpdir :: new ++ w_log (staged tmpdir w0)
        /\ (w_fs w0 !! built_deb = None ->
            dpkg_build (w_fs w3) pd = (0, Some c))
        /\ (w_fs w0 !! deb <> Some Dir -> w_fs w !! deb = Some (File c))
  | _ =>
      (w_fs w0 !! deb <> Some Dir ->
       forall k : text, ~ inside tmpdir k -> k <> deb ->
                        w_fs w !! k = w_fs w0 !! k)
      /\ (w_fs w !! deb = w_fs w0 !! deb
          \/ exists c n rest,
               o = Exc (OSError deb)
               /\ w_log w = EvMove built_deb deb :: rest
               /\ os_rename built_deb deb = false
               /\ copy2 built_deb deb = WriteFailed n
               /\ w_fs w !! deb = Some (File (take n c)))
  end.
Proof.
  intros Ha Hout.
  pose proof (preserves_stage deb V (staged tmpdir w0) (staged tmpdir w0))
    as Hst.
  assert (forall w1, body deb V w1 =
          ((extract dpkg_extract dpkg_control deb ;;;
            edit dch gunzip gzip md5_hex str_exn V) ;;;
           repack dpkg_build os_rename copy2 deb) w1) as Hassoc.
  { intros w1. unfold bind.
    destruct (extract dpkg_extract dpkg_control deb w1) as [[[]|e|] w2];
      reflexivity. }
  rewrite Hassoc. unfold bind at 1.
  destruct ((extract dpkg_extract dpkg_control deb ;;;
             edit dch gunzip gzip md5_hex str_exn V) (staged tmpdir w0))
    as [[[]|e|] w3] eqn:Est; cbn [snd] in Hst.
  - assert (Hi : inv (under pd) pd (staged tmpdir w0) w3).
    { apply Hst. apply inv_refl. unfold staged. rewrite package_dir_eq.
      reflexivity. }
    intros Hr. pose proof (repack_post deb w3 o w (inv_cwd _ _ _ _ Hi)
                             Ha Hout Hr) as Hp.
    assert (Hfs : forall k : text, ~ inside tmpdir k ->
                    w_fs w3 !! k = w_fs w0 !! k)
      by (apply frame_staged; assumption).
    destruct o as [[]|e|].
    + destruct Hp as [Hlog (c & Hb & Hd)].
      destruct (inv_log _ _ _ _ Hi) as (new & Hnew & _).
      exists c, w3, new. split; [reflexivity|].
      split; [rewrite Hlog, Hnew; reflexivity|]. split.
      * intros Hn. apply Hb. rewrite (inv_fs _ _ _ _ Hi).
        -- unfold staged. rewrite package_dir_eq.
           cbn [w_fs set_fs record set_cwd].
           rewrite !lookup_insert_ne; [assumption|..].
           ++ intros H. apply (f_equal length) in H.
              rewrite !length_app in H. simpl in H. lia.
           ++ intros H. apply app_inv_head in H. discriminate.
        -- apply built_deb_not_staged.
      * intros Hnd. apply Hd. rewrite Hfs; assumption.
    + destruct Hp as [Hk Hd]. split.
      * intros Hnd k Hk1 Hk2. rewrite <- (Hfs deb Hout) in Hnd.
        rewrite Hk by assumption. apply Hfs. assumption.
      * rewrite <- (Hfs deb Hout).
        destruct Hd as [Hd|(c & n & He & Hl & Hrn & Hcp & Hd)];
          [left; exact Hd|].
        right. exists c, n. eexists. split; [exact He|].
        split; [exact Hl|]. auto.
    + destruct Hp as [Hk Hd]. split.
      * intros Hnd k Hk1 Hk2. rewrite <- (Hfs deb Hout) in Hnd.
        rewrite Hk by assumption. apply Hfs. assumption.
      * rewrite <- (Hfs deb Hout).
        destruct Hd as [Hd|(c & n & He & _)];
          [left; exact Hd|discriminate He].
  - intros H. injection H as <- <-.
    assert (Hf : frame tmpdir w0 w3).
    { apply frame_staged, Hst, inv_refl.
      unfold staged. rewrite package_dir_eq. reflexivity. }
    split; [intros _ k Hk _; apply Hf; assumption|left; apply Hf; assumption].
  - intros H. injection H as <- <-.
    assert (Hf : frame tmpdir w0 w3).
    { apply frame_staged, Hst, inv_refl.
      unfold staged. rewrite package_dir_eq. reflexivity. }
    split; [intros _ k Hk _; apply Hf; assumption|left; apply Hf; assumption].
Qed.

(** ** The whole run *)

Lemma main_short_argv argv w0 :
  argv !! 2 = None -> main argv w0 = (Exc IndexError, w0).
Proof.
  intros H. destruct argv as [|prog [|arg1 [|V rest]]]; try discriminate;
    reflexivity.
Qed.

Lemma main_not_root prog arg1 V rest w0 :
  w_euid w0 <> 0 ->
  main (prog :: arg1 :: V :: rest) w0
  = (Exc (SystemExit 77), emit root_message w0).
Proof.
  intros He. unfold Script.main, argv_get.
  cbn [lookup list_lookup]. unfold bind at 1. cbn [ret].
  unfold bind at 1. unfold Script.abspath at 1. cbn [get].
  unfold bind at 1. cbn [ret]. unfold bind at 1. unfold geteuid, get.
  destruct (w_euid w0) as [|n]; [contradiction|]. reflexivity.
Qed.

Lemma main_root_exists prog arg1 V rest w0 n :
  w_euid w0 = 0 -> w_fs w0 !! pd = Some n ->
  main (prog :: arg1 :: V :: rest) w0 =
  (Exc (FileExistsError pd),
   set_fs (remove_tree tmpdir)
     (record (EvCleanup tmpdir)
        (record (EvMkdir pd)
           (set_fs <[ tmpdir := Dir ]> (record (EvMkdtemp tmpdir) w0))))).
Proof.
  intros He Hpd. unfold Script.main, argv_get.
  cbn [lookup list_lookup]. unfold bind at 1. cbn [ret].
  unfold bind at 1. unfold Script.abspath at 1. cbn [get].
  unfold bind at 1. cbn [ret]. unfold bind at 1. unfold geteuid, get.
  rewrite He. cbn [Nat.eqb negb].
  unfold bind at 1, with_temporary_directory, finally.
  unfold bind at 1. unfold modify. rewrite package_dir_eq.
  unfold bind at 1. unfold mkdir at 1. unfold resolve.
  cbn [record w_cwd set_fs w_fs].
  rewrite (join_abs _ pd) by apply package_dir_plain.
  rewrite lookup_insert_ne
    by (intros H; symmetry in H; revert H; apply package_dir_neq).
  rewrite Hpd. reflexivity.
Qed.

(** Whatever the arguments and the tools.  A run that does not end
    with status 0 leaves everything outside the staging tree, other
    than the archive, as it was; and the archive too, unless the run
    reached the move, the rename failed and the copy stopped while
    writing.  A run that ends with status 0 did the move onto the
    archive last, before leaving the two [with] blocks. *)
Lemma main_post argv w0 out w' :
  isabs (w_cwd w0) = true ->
  (forall arg1, argv !! 1 = Some arg1 ->
                ~ inside tmpdir (abspath (w_cwd w0) arg1)) ->
  main argv w0 = (out, w') ->
  (out <> Exc (SystemExit 0) ->
   forall arg1, argv !! 1 = Some arg1 ->
     let deb := abspath (w_cwd w0) arg1 in
     (w_fs w0 !! deb <> Some Dir ->
      forall k : text, ~ inside tmpdir k -> k <> deb ->
                       w_fs w' !! k = w_fs w0 !! k)
     /\ (w_fs w' !! deb = w_fs w0 !! deb
         \/ exists c n rest,
              out = Exc (OSError deb)
              /\ w_log w' = EvCleanup tmpdir :: EvChdir (w_cwd w0)
                            :: EvMove built_deb deb :: rest
              /\ os_rename built_deb deb = false
              /\ copy2 built_deb deb = WriteFailed n
              /\ w_fs w' !! deb = Some (File (take n c))))
  /\ (out = Exc (SystemExit 0) ->
      exists arg1 V c w3 new,
        let deb := abspath (w_cwd w0) arg1 in
        argv !! 1 = Some arg1 /\ argv !! 2 = Some V
        /\ (extract dpkg_extract dpkg_control deb ;;;
            edit dch gunzip gzip md5_hex str_exn V) (staged tmpdir w0)
           = (Val tt, w3)
        /\ w_log w' = EvCleanup tmpdir :: EvChdir (w_cwd w0)
                      :: EvMove built_deb deb
                      :: EvRun [s2l "dpkg-deb"; s2l "-b"; s2l "package"]
                      :: EvChdir tmpdir :: new ++ w_log (staged tmpdir w0)
        /\ (w_fs w0 !! built_deb = None ->
            dpkg_build (w_fs w3) pd = (0, Some c))
        /\ (w_fs w0 !! deb <> Some Dir -> w_fs w' !! deb = Some (File c))).
Proof.
  intros Hcwd Hout Hrun.
  assert (Hsame : w_fs w' = w_fs w0 ->
            out <> Exc (SystemExit 0) ->
            forall arg1, argv !! 1 = Some arg1 ->
              let deb := abspath (w_cwd w0) arg1 in
              (w_fs w0 !! deb <> Some Dir ->
               forall k : text, ~ inside tmpdir k -> k <> deb ->
                                w_fs w' !! k = w_fs w0 !! k)
              /\ (w_fs w' !! deb = w_fs w0 !! deb
                  \/ exists c n rest,
                       out = Exc (OSError deb)
                       /\ w_log w' = EvCleanup tmpdir :: EvChdir (w_cwd w0)
                                     :: EvMove built_deb deb :: rest
                       /\ os_rename built_deb deb = false
                       /\ copy2 built_deb deb = WriteFailed n
                       /\ w_fs w' !! deb = Some (File (take n c)))).
  { intros Heq _ arg1 _ deb. rewrite Heq. split; [reflexivity|].
    left. reflexivity. }
  destruct (argv !! 2) as [V|] eqn:E2.
  2:{ rewrite main_short_argv in Hrun by assumption.
      injection Hrun as <- <-. split; [apply Hsame; reflexivity|].
      discriminate. }
  destruct argv as [|prog [|arg1 [|V' rest]]]; try discriminate.
  injection E2 as ->. specialize (Hout arg1 eq_refl).
  destruct (Nat.eq_dec (w_euid w0) 0) as [He|He].
  2:{ rewrite main_not_root in Hrun by assumption.
      injection Hrun as <- <-. split; [apply Hsame; reflexivity|].
      discriminate. }
  clear Hsame.
  destruct (w_fs w0 !! pd) as [n|] eqn:Epd.
  { rewrite (main_root_exists _ _ _ _ _ n) in Hrun by assumption.
    injection Hrun as <- <-. split; [|discriminate].
    intros _ a Ha. injection Ha as <-. intros deb.
    assert (Hf : forall k : text, ~ inside tmpdir k ->
              w_fs (set_fs (remove_tree tmpdir)
                      (record (EvCleanup tmpdir)
                         (record (EvMkdir pd)
                            (set_fs <[ tmpdir := Dir ]>
                               (record (EvMkdtemp tmpdir) w0))))) !! k
              = w_fs w0 !! k).
    { intros k Hk. cbn [w_fs set_fs record].
      rewrite lookup_remove_tree.
      - apply lookup_insert_ne. intros <-. apply Hk. left. reflexivity.
      - intros ->. apply Hk. left. reflexivity.
      - intros Hu. apply Hk. right. assumption. }
    split; [intros _ k Hk _; apply Hf; assumption
           |left; apply Hf; assumption]. }
  rewrite main_root in Hrun by assumption. cbv zeta in Hrun.
  destruct (body (abspath (w_cwd w0) arg1) V (staged tmpdir w0))
    as [o w] eqn:Eb.
  injection Hrun as <- <-.
  pose proof (body_post _ _ _ _ _ (isabs_abspath _ arg1 Hcwd) Hout Eb) as Hp.
  pose proof (raises_body (abspath (w_cwd w0) arg1) V (staged tmpdir w0))
    as Hne. rewrite Eb in Hne. cbn [fst] in Hne.
  assert (Hleave : forall k : text, ~ inside tmpdir k ->
            w_fs (leave tmpdir (w_cwd w0) w) !! k = w_fs w !! k).
  { intros k Hk. unfold leave. cbn [w_fs set_fs record set_cwd].
    apply lookup_remove_tree.
    - intros ->. apply Hk. left. reflexivity.
    - intros Hu. apply Hk. right. assumption. }
  destruct o as [[]|e|]; cbn [conclude].
  - split; [intros H; contradiction|]. intros _.
    destruct Hp as (c & w3 & new & Hst & Hlog & Hb & Hd).
    exists arg1, V, c, w3, new. cbv zeta.
    split; [reflexivity|]. split; [reflexivity|]. split; [assumption|].
    split; [|split; [assumption|]].
    + unfold leave. cbn [w_log set_fs record set_cwd].
      rewrite Hlog. reflexivity.
    + intros Hnd. rewrite Hleave by assumption. auto.
  - split.
    + intros _ a Ha. injection Ha as <-. cbv zeta.
      destruct Hp as [Hk Hd]. split.
      * intros Hnd k Hk1 Hk2. rewrite Hleave by assumption. auto.
      * rewrite Hleave by assumption.
        destruct Hd as [Hd|(c & n & rest' & He' & Hl & Hr & Hcp & Hd)];
          [left; exact Hd|].
        right. exists c, n, rest'. split; [exact He'|].
        split; [|auto].
        unfold leave. cbn [w_log set_fs record set_cwd].
        rewrite Hl. reflexivity.
    + intros H. injection H as ->. specialize (Hne _ eq_refl).
      contradiction.
  - split; [|discriminate].
    intros _ a Ha. injection Ha as <-. cbv zeta.
    destruct Hp as [Hk Hd]. split.
    + intros Hnd k Hk1 Hk2. rewrite Hleave by assumption. auto.
    + rewrite Hleave by assumption.
      destruct Hd as [Hd|(c & n & rest' & He' & _)];
        [left; exact Hd|discriminate He'].
Qed.

(** C4, as amended.  A process whose effective user id is not 0 and
    that was given both positional arguments, whatever their values,
    does no file-system work: it prints the remediation message and
    ends with status 77, and the file system, the working directory
    and the log of calls are as they were. *)
Theorem C4_not_root_exits_77 prog arg1 V rest w0 :
  w_euid w0 <> 0 ->
  exists w',
    main (prog :: arg1 :: V :: rest) w0 = (Exc (SystemExit 77), w')
    /\ exit_status (SystemExit 77) = 77
    /\ w_out w' = root_message :: w_out w0
    /\ w_fs w' = w_fs w0 /\ w_cwd w' = w_cwd w0 /\ w_log w' = w_log w0.
Proof.
  intros He. exists (emit root_message w0).
  rewrite main_not_root by assumption. repeat split.
Qed.


(** C9.  The archive path is made absolute against the working
    directory the process starts in.  In a run that ends with status
    0, the move, issued after the working directory became the package
    directory and then the staging directory, names exactly that path
    as its destination, and the file there then holds the archive the
    build tool produced. *)
Theorem C9_archive_path_resolved_first prog arg1 V rest w0 w' :
  isabs (w_cwd w0) = true ->
  ~ inside tmpdir (abspath (w_cwd w0) arg1) ->
  w_fs w0 !! abspath (w_cwd w0) arg1 <> Some Dir ->
  w_fs w0 !! built_deb = None ->
  main (prog :: arg1 :: V :: rest) w0 = (Exc (SystemExit 0), w') ->
  (isabs arg1 = false ->
   abspath (w_cwd w0) arg1 = normpath (join (w_cwd w0) arg1))
  /\ exists c new w3,
       w_log w' = EvCleanup tmpdir :: EvChdir (w_cwd w0)
                  :: EvMove built_deb (abspath (w_cwd w0) arg1)
                  :: EvRun [s2l "dpkg-deb"; s2l "-b"; s2l "package"]
                  :: EvChdir tmpdir
                  :: new ++ EvChdir pd :: EvMkdir pd :: EvMkdtemp tmpdir
                  :: w_log w0
       /\ dpkg_build (w_fs w3) pd = (0, Some c)
       /\ w_fs w' !! abspath (w_cwd w0) arg1 = Some (File c).
Proof.
  intros Hcwd Hout Hnd Hfresh Hrun. split.
  { intros Hrel. unfold abspath. rewrite Hrel. reflexivity. }
  destruct (main_post (prog :: arg1 :: V :: rest) w0
              (Exc (SystemExit 0)) w' Hcwd) as [_ Hok]; [|exact Hrun|].
  { intros a Ha. injection Ha as <-. assumption. }
  destruct (Hok eq_refl) as (a & V' & c & w3 & new & Ha & _ & _ & Hl & Hb & Hd).
  injection Ha as <-. exists c, new, w3. split; [|split].
  - rewrite Hl. unfold staged. rewrite package_dir_eq. reflexivity.
  - apply Hb. assumption.
  - apply Hd. assumption.
Qed.

End Tools.

(** C4 fails as stated: without the two arguments a process that is
    not root ends with [IndexError], status 1, and prints nothing. *)
Lemma C4_counterexample :
  Demo.main (s2l "foo") true [s2l "deb_reversion.py"] (Demo.world0 1000)
  = (Exc IndexError, Demo.world0 1000)
  /\ exit_status IndexError = 1
  /\ w_out (Demo.world0 1000) = [].
Proof. vm_compute. repeat split. Qed.

Lemma C4_not_root_exits_77_witness :
  exists w',
    Demo.main (s2l "foo") true Demo.argv0 (Demo.world0 1000)
    = (Exc (SystemExit 77), w')
    /\ exit_status (SystemExit 77) = 77
    /\ w_out w' = root_message :: w_out (Demo.world0 1000)
    /\ w_fs w' = w_fs (Demo.world0 1000)
    /\ w_cwd w' = w_cwd (Demo.world0 1000)
    /\ w_log w' = w_log (Demo.world0 1000).
Proof.
  apply (C4_not_root_exits_77 Demo.tmpdir (Demo.dpkg_extract (s2l "foo"))
           (Demo.dpkg_control (s2l "foo")) Demo.dpkg_build (Demo.dch true)
           Demo.gunzip Demo.gzip Demo.md5_hex Demo.str_exn Demo.os_rename
           Demo.copy2).
  simpl. discriminate.
Defined.

Lemma demo_tmpdir_plain : plain_dir Demo.tmpdir.
Proof. split; reflexivity. Defined.

Lemma demo_deb_outside :
  ~ inside Demo.tmpdir
      (abspath (w_cwd (Demo.world0 0)) (s2l "foo_1.0.deb")).
Proof. intros [H|[x H]]; vm_compute in H; discriminate. Defined.



Lemma C9_archive_path_resolved_first_witness :
  let w' := (Demo.main (s2l "foo") true Demo.argv0 (Demo.world0 0)).2 in
  let deb := abspath (w_cwd (Demo.world0 0)) (s2l "foo_1.0.deb") in
  let pd := Demo.tmpdir ++ sep :: s2l "package" in
  (isabs (s2l "foo_1.0.deb") = false ->
   deb = normpath (join (w_cwd (Demo.world0 0)) (s2l "foo_1.0.deb")))
  /\ exists c new w3,
       w_log w' = EvCleanup Demo.tmpdir :: EvChdir (w_cwd (Demo.world0 0))
                  :: EvMove (Demo.tmpdir ++ sep :: s2l "package.deb") deb
                  :: EvRun [s2l "dpkg-deb"; s2l "-b"; s2l "package"]
                  :: EvChdir Demo.tmpdir
                  :: new ++ EvChdir pd :: EvMkdir pd
                  :: EvMkdtemp Demo.tmpdir :: w_log (Demo.world0 0)
       /\ Demo.dpkg_build (w_fs w3) pd = (0, Some c)
       /\ w_fs w' !! deb = Some (File c).
Proof.
  apply (C9_archive_path_resolved_first Demo.tmpdir
           (Demo.dpkg_extract (s2l "foo"))
           (Demo.dpkg_control (s2l "foo")) Demo.dpkg_build (Demo.dch true)
           Demo.gunzip Demo.gzip Demo.md5_hex Demo.str_exn Demo.os_rename
           Demo.copy2
           demo_tmpdir_plain (s2l "deb_reversion.py") _ (s2l "2.0") []).
  - reflexivity.
  - exact demo_deb_outside.
  - vm_compute. discriminate.
  - vm_compute. reflexivity.
  - vm_compute. reflexivity.
Defined.

End RunFacts.

(* ================================================================== *)
(** * The changelog step and the package name *)
(* ================================================================== *)

Module ChangelogFacts.
Import Script Posix PosixFacts WorldFacts RunFacts.

Lemma join_rel_base d p : isabs p = false -> join d p = join_base d ++ p.
Proof.
  intros Hp. unfold join, join_base. rewrite Hp.
  destruct ((length d =? 0) || ends_with_sep d); [reflexivity|].
  rewrite <- app_assoc. reflexivity.
Qed.

Lemma join_rel_inj d p q :
  isabs p = false -> isabs q = false -> join d p = join d q -> p = q.
Proof.
  intros Hp Hq. rewrite !join_rel_base by assumption. apply app_inv_head.
Qed.

Lemma under_join_inv d p q :
  isabs p = false -> isabs q = false ->
  under (join d p) (join d q) -> (p ++ [sep]) `prefix_of` q.
Proof.
  intros Hp Hq. unfold under. rewrite !join_rel_base by assumption.
  rewrite <- app_assoc. apply prefix_app_inv.
Qed.

Lemma changelog_path_rel pkg item : isabs (changelog_path pkg item) = false.
Proof. reflexivity. Qed.

Lemma changelog_path_inj pkg a b :
  changelog_path pkg a = changelog_path pkg b -> a = b.
Proof.
  unfold changelog_path. intros H.
  apply app_inv_head in H. apply app_inv_head in H.
  apply app_inv_head in H. exact H.
Qed.

(** The changelog is none of the other files the script handles. *)
Lemma changelog_key_fresh d pkg item (p : string) :
  match s2l p with
  | c :: _ => negb (Ascii.eqb c "u")
  | [] => true
  end = true ->
  isabs (s2l p) = false ->
  join d (s2l p) <> join d (changelog_path pkg item)
  /\ ~ under (join d (s2l p)) (join d (changelog_path pkg item)).
Proof.
  intros Hc Hp. split.
  - intros H. apply join_rel_inj in H; [|assumption|reflexivity].
    unfold changelog_path in H. destruct (s2l p) as [|c r]; [discriminate|].
    injection H as -> _. discriminate.
  - intros H. apply under_join_inv in H; [|assumption|reflexivity].
    destruct H as [x Hx]. unfold changelog_path in Hx.
    destruct (s2l p) as [|c r]; [discriminate|].
    injection Hx as <- _. discriminate.
Qed.

Section Tools.

Variable tmpdir : text.
Variable dpkg_extract : option node -> nat * list (text * node).
Variable dpkg_control : option node -> nat * list (text * node).
Variable dpkg_build : gmap text node -> text -> nat * option text.
Variable dch :
  list text -> list (text * text) -> option node -> nat * option text.
Variable gunzip : text -> option text.
Variable gzip : text -> text.
Variable md5_hex : text -> text.
Variable str_exn : exn -> text.
Variable os_rename : text -> text -> bool.
Variable copy2 : text -> text -> copy_result.

Local Abbreviation update_changelog :=
  (Script.update_changelog dch gunzip gzip md5_hex str_exn).
Local Abbreviation update_file :=
  (_update_changelog_file dch gunzip gzip md5_hex).
Local Abbreviation edit := (Script.edit dch gunzip gzip md5_hex str_exn).
Local Abbreviation main :=
  (Script.main tmpdir dpkg_extract dpkg_control dpkg_build dch gunzip gzip
     md5_hex str_exn os_rename copy2).
Local Abbreviation pd := (tmpdir ++ sep :: s2l "package").

Lemma first_candidate_record e w pkg items :
  first_candidate (record e w) pkg items = first_candidate w pkg items.
Proof.
  induction items as [|item items IH]; [reflexivity|].
  cbn [first_candidate]. rewrite IH. reflexivity.
Qed.

(** The loop probes the candidates in order and runs the updater on
    the first one that is a file, and on that one only. *)
Lemma update_changelog_run items : forall pkg V w,
  update_changelog items pkg V w =
  match first_candidate w pkg items with
  | Some item =>
      try_except (update_file (changelog_path pkg item) V)
        (advisory str_exn) (probed w pkg items)
  | None => (Val tt, probed w pkg items)
  end.
Proof.
  induction items as [|item items IH]; intros pkg V w; [reflexivity|].
  cbn [Script.update_changelog first_candidate probed].
  unfold bind at 1. unfold isfile at 1. cbv zeta.
  destruct (w_fs w !! resolve w (changelog_path pkg item)) as [[c|]|];
    cbv iota beta; try reflexivity;
    rewrite IH, first_candidate_record; reflexivity.
Qed.



Lemma probed_same w pkg items :
  w_fs (probed w pkg items) = w_fs w
  /\ w_cwd (probed w pkg items) = w_cwd w
  /\ w_out (probed w pkg items) = w_out w.
Proof.
  revert w. induction items as [|item items IH]; intros w;
    [repeat split|].
  cbn [probed].
  destruct (w_fs w !! resolve w (changelog_path pkg item)) as [[c|]|];
    try (repeat split; fail); apply (IH (record _ w)).
Qed.

Lemma change_version_ok w V control control' pkg :
  w_fs w !! resolve w (s2l "DEBIAN/control") = Some (File control) ->
  package_name_of control = Some pkg ->
  set_version V control = Re.Ret control' ->
  change_version V w
  = (Val (pkg, control'),
     record (EvOpenRead (resolve w (s2l "DEBIAN/control"))) w).
Proof.
  intros Hctl Hpkg Hver. unfold change_version.
  unfold bind at 1. unfold read_file. cbn [w_fs record]. rewrite Hctl, Hpkg.
  unfold bind. rewrite Hver. reflexivity.
Qed.



Lemma preserves_advisory T d w0 exc :
  preserves (inv T d w0) (advisory str_exn exc).
Proof.
  destruct exc; first [apply preserves_raise | apply preserves_print].
Qed.

(** C6.  The loop probes [changelog.gz], then [changelog.Debian.gz].
    If the first is a file the updater runs on it, the second name is
    neither probed nor mentioned by any call, and what is stored under
    it does not change.  If only the second is a file the updater runs
    on that one.  If neither is a file the loop only probed the two
    names: nothing is written, nothing is raised. *)
Theorem C6_first_changelog_only pkg V w :
  let p1 := changelog_path pkg (s2l "changelog.gz") in
  let p2 := changelog_path pkg (s2l "changelog.Debian.gz") in
  let k1 := resolve w p1 in
  let k2 := resolve w p2 in
  let is_file (k : text) := exists c, w_fs w !! k = Some (File c) in
  let run := update_changelog changelog_names pkg V w in
  (is_file k1 ->
   run = try_except (update_file p1 V) (advisory str_exn)
           (record (EvIsFile k1) w)
   /\ w_fs run.2 !! k2 = w_fs w !! k2
   /\ exists new, w_log run.2 = new ++ w_log w
                  /\ Forall (touches (fun k => k <> k2)) new)
  /\ (~ is_file k1 -> is_file k2 ->
      run = try_except (update_file p2 V) (advisory str_exn)
              (record (EvIsFile k2) (record (EvIsFile k1) w)))
  /\ (~ is_file k1 -> ~ is_file k2 ->
      run = (Val tt, record (EvIsFile k2) (record (EvIsFile k1) w))
      /\ w_fs run.2 = w_fs w).
Proof.
  intros p1 p2 k1 k2 is_file run.
  assert (Hrun : run = _) by apply update_changelog_run.
  cbn [first_candidate probed changelog_names] in Hrun.
  fold p1 p2 in Hrun. fold k1 in Hrun.
  change (resolve (record (EvIsFile k1) w) p2) with k2 in Hrun.
  cbn [w_fs record] in Hrun. change (resolve w p2) with k2 in Hrun.
  split; [|split].
  - intros [c Hc]. rewrite Hc in Hrun. split; [exact Hrun|].
    assert (Hi : inv (fun k => k <> k2) (w_cwd w) w run.2).
    { rewrite Hrun.
      apply (preserves_try_except (inv (fun k => k <> k2) (w_cwd w) w)).
      - assert (Hf : forall p : string,
                  match s2l p with
                  | c :: _ => negb (Ascii.eqb c "u")
                  | [] => true
                  end = true ->
                  isabs (s2l p) = false ->
                  join (w_cwd w) (s2l p) <> k2).
        { intros q H1 H2.
          apply (changelog_key_fresh (w_cwd w) pkg
                   (s2l "changelog.Debian.gz") q H1 H2). }
        apply preserves_update_changelog_file.
        + apply (Hf "debian"%string); reflexivity.
        + intros H. apply join_rel_inj in H; [|reflexivity..].
          apply changelog_path_inj in H. discriminate.
        + apply (Hf "debian/changelog"%string); reflexivity.
        + apply (Hf "DEBIAN/md5sums"%string); reflexivity.
      - intros e. apply preserves_advisory.
      - apply inv_record; [apply inv_refl; reflexivity|].
        cbn [touches]. intros H. unfold k1, k2, resolve in H.
        apply join_rel_inj in H; [|reflexivity..].
        apply changelog_path_inj in H. discriminate. }
    split.
    + apply (inv_fs _ _ _ _ Hi). intros H. apply H. reflexivity.
    + apply (inv_log _ _ _ _ Hi).
  - intros Hn1 [c Hc].
    destruct (w_fs w !! k1) as [[c1|]|] eqn:E1;
      [exfalso; apply Hn1; exists c1; exact E1|..];
      rewrite Hc in Hrun; exact Hrun.
  - intros Hn1 Hn2.
    destruct (w_fs w !! k1) as [[c1|]|] eqn:E1;
      [exfalso; apply Hn1; exists c1; exact E1|..];
      (destruct (w_fs w !! k2) as [[c2|]|] eqn:E2;
       [exfalso; apply Hn2; exists c2; exact E2|..]);
      rewrite Hrun; split; reflexivity.
Qed.

Lemma change_version_no_package w V control :
  w_fs w !! resolve w (s2l "DEBIAN/control") = Some (File control) ->
  package_name_of control = None ->
  change_version V w
  = (Exc (RuntimeError no_package_message),
     record (EvOpenRead (resolve w (s2l "DEBIAN/control"))) w).
Proof.
  intros Hctl Hpkg. unfold change_version.
  unfold bind at 1. unfold read_file. cbn [w_fs record]. rewrite Hctl, Hpkg.
  reflexivity.
Qed.

(** C7, as amended.  The package name is what follows [Package: ] on
    the first line that is [Package: ] followed by at least one
    character.  When the control text has no such line,
    [change_version] raises the descriptive [RuntimeError] right after
    reading the file, and the run ends with that error and the archive
    as it was. *)
Theorem C7_package_name_required :
  (forall control,
     package_name_of control = Lines.first_package (Lines.lines control))
  /\ (forall w V control,
        w_fs w !! resolve w (s2l "DEBIAN/control") = Some (File control) ->
        Lines.first_package (Lines.lines control) = None ->
        change_version V w
        = (Exc (RuntimeError no_package_message),
           record (EvOpenRead (resolve w (s2l "DEBIAN/control"))) w))
  /\ (forall prog arg1 V rest w0 w1 control,
        let deb := abspath (w_cwd w0) arg1 in
        plain_dir tmpdir -> isabs (w_cwd w0) = true ->
        ~ inside tmpdir deb ->
        w_euid w0 = 0 -> w_fs w0 !! pd = None ->
        extract dpkg_extract dpkg_control deb (staged tmpdir w0)
        = (Val tt, w1) ->
        w_fs w1 !! resolve w1 (s2l "DEBIAN/control") = Some (File control) ->
        Lines.first_package (Lines.lines control) = None ->
        exists w',
          main (prog :: arg1 :: V :: rest) w0
          = (Exc (RuntimeError no_package_message), w')
          /\ w_fs w' !! deb = w_fs w0 !! deb).
Proof.
  split; [exact ControlFacts.package_name_lines|]. split.
  - intros w V control Hctl Hnone.
    apply (change_version_no_package w V control); [assumption|].
    rewrite ControlFacts.package_name_lines. assumption.
  - intros prog arg1 V rest w0 w1 control deb Hp Hcwd Hout He Hpd Hex Hctl
      Hnone.
    assert (Hrun : main (prog :: arg1 :: V :: rest) w0
                   = (Exc (RuntimeError no_package_message),
                      leave tmpdir (w_cwd w0)
                        (record (EvOpenRead
                                   (resolve w1 (s2l "DEBIAN/control"))) w1))).
    { rewrite main_root by assumption. cbv zeta. fold deb.
      rewrite (bind_val _ _ _ _ _ Hex). unfold Script.edit.
      unfold bind at 1. unfold bind at 1.
      rewrite (change_version_no_package _ _ control); [reflexivity|assumption|].
      rewrite ControlFacts.package_name_lines. assumption. }
    eexists. split; [exact Hrun|].
    assert (Hx : forall a, (prog :: arg1 :: V :: rest) !! 1 = Some a ->
                           ~ inside tmpdir (abspath (w_cwd w0) a)).
    { intros a Ha. injection Ha as <-. assumption. }
    destruct (main_post tmpdir dpkg_extract dpkg_control dpkg_build dch
                gunzip gzip md5_hex str_exn os_rename copy2 Hp _ _ _ _ Hcwd
                Hx Hrun)
      as [Hframe _].
    assert (Hfail : Exc (RuntimeError no_package_message)
                    <> @Exc unit (SystemExit 0)) by discriminate.
    destruct (Hframe Hfail arg1 eq_refl)
      as [_ [Hsame|(c & n & r & He' & _)]];
      [exact Hsame|discriminate He'].
Qed.

(** When [edit] returns, the control file holds the rewritten text. *)
Lemma edit_writes_control w V control w' :
  w_fs w !! resolve w (s2l "DEBIAN/control") = Some (File control) ->
  edit V w = (Val tt, w') ->
  exists pkg control',
    package_name_of control = Some pkg
    /\ set_version V control = Re.Ret control'
    /\ w_fs w' !! resolve w (s2l "DEBIAN/control") = Some (File control').
Proof.
  intros Hctl. unfold Script.edit. unfold bind at 1.
  unfold change_version. unfold bind at 1. unfold read_file.
  cbn [w_fs record]. rewrite Hctl.
  destruct (package_name_of control) as [pkg|]; [|discriminate].
  unfold bind at 1.
  destruct (set_version V control) as [control'| |]; cbn [lift_re];
    [|discriminate..].
  cbn [ret]. set (w1 := record _ w). unfold bind at 1.
  pose proof (preserves_update_changelog dch gunzip gzip md5_hex str_exn
                (fun _ => True) (w_cwd w) w1 changelog_names pkg V
                Logic.I) as Hpres.
  assert (Hi : inv (fun _ => True) (w_cwd w) w1
                 (update_changelog changelog_names pkg V w1).2).
  { apply Hpres; [|exact Logic.I..|apply inv_refl; reflexivity].
    repeat constructor. }
  destruct (update_changelog changelog_names pkg V w1) as [[[]| |] w2];
    [|discriminate..].
  cbn [snd] in Hi. pose proof (inv_cwd _ _ _ _ Hi) as Hcwd.
  unfold bind at 1. unfold open_write, resolve. cbn [w_fs record].
  rewrite Hcwd.
  assert (Hn : join (w_cwd w) (s2l "DEBIAN/control")
               <> join (w_cwd w) (s2l "debian")).
  { intros H. apply join_rel_inj in H; [discriminate|reflexivity..]. }
  assert (Hu : ~ under (join (w_cwd w) (s2l "debian"))
                       (join (w_cwd w) (s2l "DEBIAN/control"))).
  { intros H. apply under_join_inv in H; [|reflexivity..].
    destruct H as [x Hx]. discriminate. }
  destruct (w_fs w2 !! join (w_cwd w) (s2l "DEBIAN/control")) as [[c|]|];
    [|discriminate|];
    (unfold bind at 1; unfold put, resolve;
     cbn [w_fs w_cwd set_fs record]; rewrite Hcwd;
     unfold rmtree_ignore_missing, resolve;
     cbn [w_fs w_cwd set_fs record]; rewrite Hcwd;
     rewrite !(lookup_insert_ne _ _ _ _ Hn);
     destruct (w_fs w2 !! join (w_cwd w) (s2l "debian")) as [[c'|]|];
     [discriminate| |];
     intros H; injection H as <-; exists pkg, control';
     (split; [reflexivity|]); (split; [reflexivity|]);
     cbn [w_fs set_fs record];
     rewrite ?lookup_remove_tree by assumption;
     apply lookup_insert_eq).
Qed.

End Tools.

End ChangelogFacts.

(* ================================================================== *)
(** * The version line *)
(* ================================================================== *)

Module VersionFacts.
Import Re Lines ReFacts Script ControlFacts ChangelogFacts.

Section Tools.

Variable dch :
  list text -> list (text * text) -> option node -> nat * option text.
Variable gunzip : text -> option text.
Variable gzip : text -> text.
Variable md5_hex : text -> text.
Variable str_exn : exn -> text.

Local Abbreviation edit := (Script.edit dch gunzip gzip md5_hex str_exn).

(** C2, as amended.  For a new version [V] without backslash and
    without line feed, the substitution of [main] rewrites the control
    text line by line: a line beginning [Version: ] becomes
    [Version: V], any other line is kept.  So the result has as many
    lines [Version: V] as the text had lines beginning [Version: ], a
    [Package: ] line is unchanged, and a text without such a line is
    returned as it is.  When the editing step of a run returns, the
    control file holds that text. *)
Theorem C2_version_lines_rewritten (V control : text) :
  ~ In backslash V -> one_line V ->
  set_version V control = Ret (rewrite_version_lines V control)
  /\ lines (rewrite_version_lines V control)
     = map (rewrite_version_line V) (lines control)
  /\ count_lines (text_eqb (s2l "Version: " ++ V))
       (rewrite_version_lines V control)
     = count_lines (begins_with (s2l "Version: ")) control
  /\ (forall l, begins_with (s2l "Package: ") l = true ->
                rewrite_version_line V l = l)
  /\ (count_lines (begins_with (s2l "Version: ")) control = 0 ->
      rewrite_version_lines V control = control)
  /\ (forall w w',
        w_fs w !! resolve w (s2l "DEBIAN/control") = Some (File control) ->
        edit V w = (Val tt, w') ->
        w_fs w' !! resolve w (s2l "DEBIAN/control")
        = Some (File (rewrite_version_lines V control))).
Proof.
  intros Hb HV. split; [apply set_version_lines; assumption|].
  split; [apply lines_rewrite; assumption|].
  split; [|split; [|split]].
  - unfold count_lines. rewrite lines_rewrite by assumption.
    apply count_filter_map. apply rewritten_is_target.
  - apply package_line_kept.
  - unfold count_lines, rewrite_version_lines. intros H0.
    rewrite rewrite_no_version_lines by assumption. apply unlines_lines.
  - intros w w' Hctl Hedit.
    destruct (edit_writes_control _ _ _ _ _ _ _ _ _ Hctl Hedit)
      as (pkg & control' & _ & Hset & Hfs).
    rewrite set_version_lines in Hset by assumption.
    injection Hset as <-. exact Hfs.
Qed.

End Tools.

Lemma C2_version_lines_rewritten_witness :
  let V := s2l "2.0" in
  let control := Demo.control_of (s2l "foo") in
  let control' :=
    unlines [s2l "Package: foo"; s2l "Version: 2.0";
             s2l "Architecture: all"; []] in
  set_version V control = Ret control'
  /\ count_lines (text_eqb (s2l "Version: 2.0")) control' = 1
  /\ exists w',
       Demo.edit true V (Demo.extracted (s2l "foo")) = (Val tt, w')
       /\ w_fs w' !! s2l "/tmp/tmpq1/package/DEBIAN/control"
          = Some (File control').
Proof.
  cbv zeta.
  destruct (C2_version_lines_rewritten (Demo.dch true) Demo.gunzip Demo.gzip
              Demo.md5_hex Demo.str_exn (s2l "2.0")
              (Demo.control_of (s2l "foo")))
    as (Hset & _ & Hcount & _ & _ & Hrun).
  - apply (no_backslash_literal "2.0"). reflexivity.
  - repeat constructor; discriminate.
  - split; [rewrite Hset; vm_compute; reflexivity|].
    split; [vm_compute in Hcount |- *; exact Hcount|].
    exists (Demo.edit true (s2l "2.0") (Demo.extracted (s2l "foo"))).2.
    split; [vm_compute; reflexivity|].
    assert (H := Hrun (Demo.extracted (s2l "foo"))
                   (Demo.edit true (s2l "2.0")
                      (Demo.extracted (s2l "foo"))).2).
    vm_compute in H |- *. apply H; reflexivity.
Defined.

(** C2 fails as stated: with two lines beginning [Version: ] the
    result holds two lines [Version: 2.0]; a backslash in the new
    version is read as an escape, so the string is not inserted
    verbatim; a bad escape raises even when no line matches; and with
    a line feed in the new version no line of the result is
    [Version: V]. *)
Lemma C2_counterexample :
  set_version (s2l "2.0")
    (unlines [s2l "Package: foo"; s2l "Version: 1.0"; s2l "Version: 1.1"; []])
  = Ret (unlines [s2l "Package: foo"; s2l "Version: 2.0";
                  s2l "Version: 2.0"; []])
  /\ count_lines (text_eqb (s2l "Version: 2.0"))
       (unlines [s2l "Package: foo"; s2l "Version: 2.0";
                 s2l "Version: 2.0"; []]) = 2
  /\ set_version (s2l "1\n") (s2l "Version: 0")
     = Ret (s2l "Version: 1" ++ [newline])
  /\ set_version (s2l "1\q") (s2l "Package: foo") = Raise BadEscape
  /\ (let V := s2l "1" ++ newline :: s2l "2" in
      set_version V (s2l "Version: 0") = Ret (s2l "Version: " ++ V)
      /\ count_lines (text_eqb (s2l "Version: " ++ V))
           (s2l "Version: " ++ V) = 0).
Proof. vm_compute. repeat split. Qed.

(** C8, as amended.  For a new version [V] without backslash and
    without line feed, a second substitution with the same [V] returns
    the text the first one produced, in which every line beginning
    [Version: ] is exactly [Version: V]. *)
Theorem C8_second_run_fixed (V control out : text) :
  ~ In backslash V -> one_line V ->
  set_version V control = Ret out ->
  set_version V out = Ret out
  /\ forall l, In l (lines out) ->
               begins_with (s2l "Version: ") l = true ->
               l = s2l "Version: " ++ V.
Proof.
  intros Hb HV H1. rewrite set_version_lines in H1 by assumption.
  injection H1 as <-. split.
  - rewrite set_version_lines by assumption. f_equal.
    unfold rewrite_version_lines at 1. rewrite lines_rewrite by assumption.
    rewrite map_map. unfold rewrite_version_lines. f_equal.
    apply map_ext. intros l. apply rewrite_version_line_idem.
  - intros l Hin Hl. rewrite lines_rewrite in Hin by assumption.
    apply in_map_iff in Hin as (l0 & <- & _).
    revert Hl. unfold rewrite_version_line, rewrite_line.
    destruct (begins_with (s2l "Version: ") l0) eqn:E; [reflexivity|].
    rewrite E. discriminate.
Qed.

Lemma C8_second_run_fixed_witness :
  let V := s2l "2.0" in
  let out := unlines [s2l "Package: foo"; s2l "Version: 2.0"; []] in
  set_version V out = Ret out
  /\ forall l, In l (lines out) ->
               begins_with (s2l "Version: ") l = true ->
               l = s2l "Version: " ++ V.
Proof.
  apply (C8_second_run_fixed (s2l "2.0")
           (unlines [s2l "Package: foo"; s2l "Version: 1.0"; []])).
  - apply (no_backslash_literal "2.0"). reflexivity.
  - repeat constructor; discriminate.
  - reflexivity.
Defined.

(** C8 fails as stated: the text already has the line [Version: V]
    for [V] the four characters [1\\2], and the substitution with
    that [V] turns it into the line [Version: 1\2]. *)
Lemma C8_counterexample :
  set_version (s2l "1\\2") (s2l "Version: 1\\2") = Ret (s2l "Version: 1\2")
  /\ s2l "Version: 1\2" <> s2l "Version: 1\\2".
Proof. vm_compute. split; [reflexivity|discriminate]. Qed.

End VersionFacts.

(* ================================================================== *)
(** * Runs in the small world *)
(* ================================================================== *)

Module Runs.
Import Script Posix PosixFacts WorldFacts RunFacts ChangelogFacts Lines.

Local Abbreviation foo := (s2l "foo").
Local Abbreviation foo_changelog :=
  (s2l "/tmp/tmpq1/package/usr/share/doc/foo/changelog.gz").


Lemma C6_first_changelog_only_witness :
  let w := Demo.extracted foo in
  let k2 := s2l "/tmp/tmpq1/package/usr/share/doc/foo/changelog.Debian.gz" in
  let run := Demo.update_changelog true foo (s2l "2.0") w in
  run = try_except
          (_update_changelog_file (Demo.dch true) Demo.gunzip Demo.gzip
             Demo.md5_hex (changelog_path foo (s2l "changelog.gz"))
             (s2l "2.0"))
          (advisory Demo.str_exn) (record (EvIsFile foo_changelog) w)
  /\ w_fs run.2 !! k2 = w_fs w !! k2
  /\ exists new, w_log run.2 = new ++ w_log w
                 /\ Forall (touches (fun k => k <> k2)) new.
Proof.
  apply (C6_first_changelog_only (Demo.dch true) Demo.gunzip Demo.gzip
           Demo.md5_hex Demo.str_exn foo (s2l "2.0") (Demo.extracted foo)).
  exists (s2l "GZ:pkg (1.0) stable; urgency=low"). vm_compute. reflexivity.
Defined.

(** C7 fails as stated: the first line beginning [Package: ] has
    nothing after the prefix, and the name returned comes from the
    next line; and a text whose only line is [Package: ] has a line
    with that beginning but no package name. *)
Lemma C7_counterexample :
  let control := unlines [s2l "Package: "; s2l "Package: foo"; []] in
  first_after (s2l "Package: ") (lines control) = Some []
  /\ package_name_of control = Some (s2l "foo")
  /\ begins_with (s2l "Package: ") (s2l "Package: ") = true
  /\ package_name_of (s2l "Package: ") = None.
Proof. vm_compute. repeat split. Qed.

Lemma C7_package_name_required_witness :
  exists w',
    Demo.main [] true Demo.argv0 (Demo.world0 0)
    = (Exc (RuntimeError no_package_message), w')
    /\ w_fs w' !! Demo.deb_path = w_fs (Demo.world0 0) !! Demo.deb_path.
Proof.
  destruct (C7_package_name_required Demo.tmpdir
              (Demo.dpkg_extract []) (Demo.dpkg_control [])
              Demo.dpkg_build (Demo.dch true) Demo.gunzip Demo.gzip
              Demo.md5_hex Demo.str_exn Demo.os_rename Demo.copy2)
    as (_ & _ & H).
  apply (H (s2l "deb_reversion.py") (s2l "foo_1.0.deb") (s2l "2.0") []
           (Demo.world0 0) (Demo.extracted []) (Demo.control_of [])).
  - exact demo_tmpdir_plain.
  - reflexivity.
  - exact demo_deb_outside.
  - reflexivity.
  - vm_compute. reflexivity.
  - vm_compute. reflexivity.
  - vm_compute. reflexivity.
  - vm_compute. reflexivity.
Defined.

(** C1: the code does not do what the claim says.  On a manifest
    with a line for the changelog, the checksum field is replaced and
    the other line is kept, but the two spaces between checksum and
    path are replaced by the character U+0001; the archive rebuilt by
    a whole run carries that manifest. *)
Theorem C1_separator_not_preserved :
  let path := changelog_path foo (s2l "changelog.gz") in
  let md5 := s2l "0123456789abcdef0123456789abcdef" in
  let new_manifest :=
    unlines [s2l "d41d8cd98f00b204e9800998ecf8427e  usr/bin/tool";
             md5 ++ "001" :: path; []] in
  Demo.manifest_of foo
  = unlines [s2l "d41d8cd98f00b204e9800998ecf8427e  usr/bin/tool";
             s2l "9e107d9d372bb6826bd81d3542a419d6  " ++ path; []]
  /\ update_md5sums path md5 (Demo.manifest_of foo) = Re.Ret new_manifest
  /\ new_manifest
     <> unlines [s2l "d41d8cd98f00b204e9800998ecf8427e  usr/bin/tool";
                 md5 ++ s2l "  " ++ path; []]
  /\ Demo.main foo true Demo.argv0 (Demo.world0 0)
     = (Exc (SystemExit 0),
        (Demo.main foo true Demo.argv0 (Demo.world0 0)).2)
  /\ w_fs (Demo.main foo true Demo.argv0 (Demo.world0 0)).2 !! Demo.deb_path
     = Some (File (s2l "control:" ++ newline
                   :: rewrite_version_lines (s2l "2.0") (Demo.control_of foo)
                   ++ s2l "md5sums:" ++ newline :: new_manifest)).
Proof. vm_compute. repeat split. discriminate. Qed.

(** C10.  The changelog path is spliced into the pattern as it is.
    A dot in it matches any character, so a line for another path is
    rewritten.  For the package name [libstdc++6] the pattern does not
    match the line that names the changelog, and the manifest is
    returned unchanged.  For the package name [a+++] compiling the
    pattern raises; the handler of the changelog step re-raises
    whatever is not [CalledProcessError], so the run ends with that
    error and the archive is not replaced. *)
Theorem C10_path_read_as_pattern :
  let md5 := s2l "0123456789abcdef0123456789abcdef" in
  let gz := s2l "changelog.gz" in
  (update_md5sums (changelog_path foo gz) md5
     (s2l "9e107d9d372bb6826bd81d3542a419d6  usr/share/doc/foo/changelog-gz")
   = Re.Ret (md5 ++ "001" :: changelog_path foo gz))
  /\ (debian_package_name (s2l "libstdc++6") = true
      /\ In (s2l "9e107d9d372bb6826bd81d3542a419d6  "
             ++ changelog_path (s2l "libstdc++6") gz)
           (lines (Demo.manifest_of (s2l "libstdc++6")))
      /\ update_md5sums (changelog_path (s2l "libstdc++6") gz) md5
           (Demo.manifest_of (s2l "libstdc++6"))
         = Re.Ret (Demo.manifest_of (s2l "libstdc++6")))
  /\ (debian_package_name (s2l "a+++") = true
      /\ update_md5sums (changelog_path (s2l "a+++") gz) md5
           (Demo.manifest_of (s2l "a+++"))
         = Re.Raise Re.MultipleRepeat
      /\ (Demo.main (s2l "a+++") true Demo.argv0 (Demo.world0 0)).1
         = Exc (ReError Re.MultipleRepeat)
      /\ w_fs (Demo.main (s2l "a+++") true Demo.argv0 (Demo.world0 0)).2
           !! Demo.deb_path
         = w_fs (Demo.world0 0) !! Demo.deb_path)
  /\ (forall str_exn e w,
        advisory str_exn (ReError e) w = (Exc (ReError e), w)).
Proof.
  cbv zeta. split; [vm_compute; reflexivity|].
  split; [split; [reflexivity|split; [|vm_compute; reflexivity]]|].
  { right. left. reflexivity. }
  split; [repeat split; vm_compute; reflexivity|].
  reflexivity.
Qed.

End Runs.

(* ================================================================== *)
(** * The substitution on the manifest, line by line *)
(* ================================================================== *)

Module ManifestFacts.
Import Re Lines ReFacts Script ControlFacts Manifest.

(** ** Backtracking of a greedy repeat *)

Lemma first_down_cases {R} (f : nat -> option R) (Q : R -> Prop)
    (P : nat -> Prop) : forall n,
  (forall i, i <= n ->
     match f i with Some r => Q r /\ P i | None => ~ P i end) ->
  match first_down f 0 n with
  | Some r => Q r /\ exists i, i <= n /\ P i
  | None => forall i, i <= n -> ~ P i
  end.
Proof.
  induction n as [|n IH]; intros H; cbn [first_down Nat.ltb Nat.leb].
  - specialize (H 0 (le_n 0)). destruct (f 0) as [r|].
    + destruct H as [HQ HP]. split; [assumption|]. exists 0. auto.
    + intros i Hi. replace i with 0 by lia. assumption.
  - pose proof (H (S n) (le_n _)) as Htop. destruct (f (S n)) as [r|].
    + destruct Htop as [HQ HP]. split; [assumption|]. exists (S n). auto.
    + assert (Hlow : forall i, i <= n ->
                match f i with Some r => Q r /\ P i | None => ~ P i end)
        by (intros i Hi; apply H; lia).
      specialize (IH Hlow). destruct (first_down f 0 n) as [r|].
      * destruct IH as [HQ (i & Hi & HP)]. split; [assumption|].
        exists i. split; [lia|assumption].
      * intros i Hi. destruct (Nat.eq_dec i (S n)) as [->|Hne];
          [assumption|apply IH; lia].
Qed.

(** The run a repeat reads. *)
Lemma count_run cs a : forall rest,
  Forall (fun c => cset_match cs c = true) a ->
  match rest with c :: _ => cset_match cs c = false | [] => True end ->
  count cs None (a ++ rest) = length a.
Proof.
  induction a as [|c a IH]; intros rest Ha Hr.
  - destruct rest as [|d rest]; [reflexivity|]. cbn. rewrite Hr. reflexivity.
  - inversion Ha as [|? ? Hc Ha']; subst.
    cbn [app count fmap option_fmap option_map].
    rewrite Hc. cbn [length]. f_equal. apply IH; assumption.
Qed.

Lemma exec_repeat_max cs ops' prev rest ms :
  exec (Repeat MaxRepeat 0 None cs :: ops') None prev rest ms =
  first_down
    (fun i => let '(p, r) := advance i prev rest in exec ops' None p r ms)
    0 (count cs None rest).
Proof. reflexivity. Qed.

Lemma exec_mark i ops' prev rest ms :
  exec (Mark i :: ops') None prev rest ms
  = exec ops' None prev rest ((i, rest) :: ms).
Proof. reflexivity. Qed.

Lemma exec_bol ops' prev rest ms :
  at_beginning_line prev = true ->
  exec (AtBeginningLine :: ops') None prev rest ms
  = exec ops' None prev rest ms.
Proof. intros H. cbn [exec]. rewrite H. reflexivity. Qed.

(** ** Compiling the pattern *)

Lemma path_char_inv c :
  path_char c = true ->
  (c = "." \/ is_special c = false) /\ c <> space /\ c <> newline.
Proof.
  unfold path_char. intros H.
  apply andb_prop in H as [H H3]. apply andb_prop in H as [H1 H2].
  apply negb_true_iff in H2, H3. apply Ascii.eqb_neq in H2, H3.
  split; [|auto]. apply orb_prop in H1 as [H1|H1].
  - left. apply Ascii.eqb_eq. assumption.
  - right. apply negb_true_iff. assumption.
Qed.

Lemma is_special_false c :
  is_special c = false ->
  Ascii.eqb c backslash = false /\ Ascii.eqb c "|" = false
  /\ Ascii.eqb c "{" = false /\ Ascii.eqb c "." = false.
Proof.
  intros H. repeat split.
  - destruct (Ascii.eqb c backslash) eqn:E; [|reflexivity].
    apply Ascii.eqb_eq in E. subst c. discriminate H.
  - destruct (Ascii.eqb c "|") eqn:E; [|reflexivity].
    apply Ascii.eqb_eq in E. subst c. discriminate H.
  - destruct (Ascii.eqb c "{") eqn:E; [|reflexivity].
    apply Ascii.eqb_eq in E. subst c. discriminate H.
  - destruct (Ascii.eqb c ".") eqn:E; [|reflexivity].
    apply Ascii.eqb_eq in E. subst c. discriminate H.
Qed.

(** A run of path characters is parsed one character at a time. *)
Lemma parse_path ml p : forall rest acc g opened,
  forallb path_char p = true ->
  parse ml (p ++ rest) Normal acc g opened
  = parse ml rest Normal (rev (path_ops p) ++ acc) g opened.
Proof.
  induction p as [|c p IH]; intros rest acc g opened Hp; [reflexivity|].
  cbn [forallb] in Hp. apply andb_prop in Hp as [Hc Hp].
  apply path_char_inv in Hc as ([->|Hs] & _ & _).
  - cbn [app]. 
    transitivity (parse ml (p ++ rest) Normal (One AnyChar :: acc) g opened);
      [reflexivity|].
    rewrite IH by assumption. cbn [path_ops map rev].
    rewrite <- app_assoc. reflexivity.
  - destruct (is_special_false c Hs) as (H1 & H2 & H3 & H4).
    cbn [app parse]. rewrite H1, H2, H3, Hs. cbn [negb].
    rewrite IH by assumption. cbn [path_ops map rev]. rewrite H4.
    rewrite <- app_assoc. reflexivity.
Qed.

Section Path.

Variable path : text.
Hypothesis path_ok : forallb path_char path = true.
Hypothesis path_nonempty : path <> [].

Local Abbreviation tail_ops :=
  (Repeat MaxRepeat 0 None (Literal space) :: Mark 1
   :: path_ops path ++ [AtEndLine]).
Local Abbreviation ops :=
  (Repeat MaxRepeat 0 None (NotLiteral space) :: Mark 0 :: tail_ops).

Lemma compile_manifest_pattern :
  compile true (s2l "^[^ ]*( *)" ++ path ++ s2l "$")
  = Ret {| p_ops := AtBeginningLine :: ops; p_groups := 1 |}.
Proof.
  unfold compile.
  transitivity
    (parse true (path ++ s2l "$") Normal
       [Mark 1; Repeat MaxRepeat 0 None (Literal space); Mark 0;
        Repeat MaxRepeat 0 None (NotLiteral space); AtBeginningLine] 1 []);
    [reflexivity|].
  rewrite parse_path by assumption.
  cbn. rewrite rev_app_distr, rev_involutive.
  rewrite <- !app_assoc. reflexivity.
Qed.


(** ** Reading the path at the end of a line *)

Lemma path_chars_inv : forall p,
  forallb path_char p = true ->
  Forall (fun c => c <> space /\ c <> newline) p.
Proof.
  induction p as [|c p IH]; intros H; [constructor|].
  cbn [forallb] in H. apply andb_prop in H as [Hc Hp].
  apply path_char_inv in Hc as (_ & H1 & H2).
  constructor; [auto|apply IH; assumption].
Qed.

Lemma path_no_backslash : ~ In backslash path.
Proof.
  clear path_nonempty. induction path as [|c p IH]; [intros []|].
  cbn [forallb] in path_ok. apply andb_prop in path_ok as [Hc Hp].
  apply path_char_inv in Hc as ([->|Hs] & _ & _).
  - intros [H|Hin]; [discriminate H|]. exact (IH Hp Hin).
  - intros [->|Hin]; [discriminate Hs|]. exact (IH Hp Hin).
Qed.

Lemma cset_match_reads a b :
  cset_match (if Ascii.eqb a "." then AnyChar else Literal a) b = reads a b.
Proof. unfold reads. destruct (Ascii.eqb a "."); reflexivity. Qed.

Lemma reads_newline a : a <> newline -> reads a newline = false.
Proof.
  intros Ha. unfold reads. destruct (Ascii.eqb a "."); [reflexivity|].
  apply Ascii.eqb_neq. congruence.
Qed.

Lemma reads_as_length : forall p u,
  reads_as p u = true -> length u = length p.
Proof.
  induction p as [|a p IH]; intros [|b u] H; try discriminate;
    [reflexivity|].
  cbn [reads_as] in H. apply andb_prop in H as [_ H].
  cbn [length]. f_equal. apply IH. assumption.
Qed.

Lemma reads_as_one_line : forall p u,
  forallb path_char p = true -> reads_as p u = true -> one_line u.
Proof.
  induction p as [|a p IH]; intros [|b u] Hp H; try discriminate;
    [constructor|].
  cbn [forallb] in Hp. apply andb_prop in Hp as [Ha Hp].
  apply path_char_inv in Ha as (_ & _ & Ha).
  cbn [reads_as] in H. apply andb_prop in H as [Hb H].
  constructor; [|apply (IH u); assumption].
  intros ->. rewrite reads_newline in Hb by assumption. discriminate.
Qed.

Lemma reads_as_no_space : forall p u,
  forallb path_char p = true -> reads_as p u = true ->
  has_space u = true -> exists a, In a p /\ a = ".".
Proof.
  induction p as [|a p IH]; intros [|b u] Hp H Hs; try discriminate.
  cbn [forallb] in Hp. apply andb_prop in Hp as [Ha Hp].
  cbn [reads_as] in H. apply andb_prop in H as [Hb H].
  destruct (Ascii.eqb a ".") eqn:E.
  - apply Ascii.eqb_eq in E. exists a. split; [left; reflexivity|assumption].
  - change (has_space (b :: u)) with (Ascii.eqb space b || has_space u) in Hs.
    unfold reads in Hb. rewrite E in Hb. apply Ascii.eqb_eq in Hb. subst b.
    apply path_char_inv in Ha as (_ & Ha & _).
    assert (Ascii.eqb space a = false) as Hf
      by (apply Ascii.eqb_neq; congruence).
    rewrite Hf in Hs. cbn [orb] in Hs.
    destruct (IH u Hp H Hs) as (x & Hin & Hx).
    exists x. split; [right; assumption|assumption].
Qed.

Lemma exec_path_end : forall p prev u tl ms,
  forallb path_char p = true -> one_line u -> at_end_line tl = true ->
  exec (path_ops p ++ [AtEndLine]) None prev (u ++ tl) ms =
  if reads_as p u
  then Some {| r_prev := prev_after prev u; r_rest := tl; r_marks := ms |}
  else None.
Proof.
  induction p as [|a p IH]; intros prev u tl ms Hp Hu Htl.
  - cbn [path_ops map app exec]. destruct u as [|c u].
    + cbn [app reads_as]. rewrite Htl. reflexivity.
    + inversion Hu as [|? ? Hc _]; subst. cbn [app at_end_line reads_as].
      rewrite (eqb_newline_false c Hc). reflexivity.
  - cbn [forallb] in Hp. apply andb_prop in Hp as [Ha Hp].
    apply path_char_inv in Ha as (_ & _ & Ha).
    cbn [path_ops map app exec]. fold (path_ops p).
    destruct u as [|b u].
    + cbn [app reads_as]. destruct tl as [|d tl]; [reflexivity|].
      cbn in Htl. apply Ascii.eqb_eq in Htl. subst d.
      rewrite cset_match_reads, reads_newline by assumption. reflexivity.
    + inversion Hu as [|? ? Hb Hu']; subst.
      cbn [app reads_as]. rewrite cset_match_reads.
      destruct (reads a b); [|reflexivity]. cbn [andb].
      rewrite IH by assumption. rewrite (prev_after_cons prev). reflexivity.
Qed.

Lemma reads_as_nonempty u : reads_as path u = true -> u <> [].
Proof.
  intros H ->. destruct path; [contradiction|discriminate].
Qed.

Lemma exec_path_end_cases prev u tl ms :
  one_line u -> at_end_line tl = true ->
  match exec (path_ops path ++ [AtEndLine]) None prev (u ++ tl) ms with
  | Some res => ends_line tl res /\ reads_as path u = true
  | None => reads_as path u = false
  end.
Proof.
  intros Hu Htl. rewrite exec_path_end by assumption.
  destruct (reads_as path u) eqn:E; [|reflexivity].
  split; [|reflexivity]. split; [reflexivity|]. cbn [r_prev].
  apply prev_after_not_bol; [assumption|apply reads_as_nonempty; assumption].
Qed.

Lemma one_line_spaces m : one_line (replicate m space).
Proof. induction m; constructor; [discriminate|assumption]. Qed.

Lemma has_space_app a b : has_space (a ++ b) = has_space a || has_space b.
Proof. apply existsb_app. Qed.

Lemma stops_spaces r tl :
  starts_plain r -> at_end_line tl = true ->
  match r ++ tl with
  | c :: _ => cset_match (Literal space) c = false
  | [] => True
  end.
Proof.
  intros Hr Htl. destruct r as [|c r]; cbn [app].
  - destruct tl as [|d tl]; [exact Logic.I|]. cbn in Htl.
    apply Ascii.eqb_eq in Htl. subst d. reflexivity.
  - cbn. apply Ascii.eqb_neq. exact Hr.
Qed.

Lemma replicate_split (m j : nat) (c : ascii) :
  j <= m -> replicate m c = replicate j c ++ replicate (m - j) c.
Proof. intros H. rewrite <- replicate_add. f_equal. lia. Qed.

Lemma spaces_run m :
  Forall (fun c => cset_match (Literal space) c = true) (replicate m space).
Proof.
  apply Forall_forall. intros c Hc.
  apply elem_of_replicate in Hc as [-> _]. reflexivity.
Qed.

Lemma advance_spaces i prev rest :
  advance i prev (replicate i space ++ rest)
  = (prev_after prev (replicate i space), rest).
Proof.
  pose proof (advance_app (replicate i space) prev rest) as H.
  rewrite length_replicate in H. exact H.
Qed.

(** The part of the pattern after the checksum field, at a run of [m]
    spaces followed by [r]. *)
Lemma exec_spaces prev m r tl ms :
  starts_plain r -> one_line r -> at_end_line tl = true ->
  match exec tail_ops None prev (replicate m space ++ r ++ tl) ms with
  | Some res =>
      ends_line tl res
      /\ exists j, j <= m /\ reads_as path (replicate j space ++ r) = true
  | None =>
      forall j, j <= m -> reads_as path (replicate j space ++ r) = false
  end.
Proof.
  intros Hr Hl Htl. rewrite exec_repeat_max.
  rewrite count_run; [|apply spaces_run|apply stops_spaces; assumption].
  rewrite length_replicate.
  match goal with
  | |- match first_down ?f 0 m with _ => _ end =>
      pose proof (first_down_cases f (ends_line tl)
                    (fun i => reads_as path (replicate (m - i) space ++ r)
                              = true) m) as H
  end.
  match type of H with
  | ?A -> _ => assert (Hall : A); [|specialize (H Hall); clear Hall]
  end.
  { intros i Hi. cbv beta. rewrite (replicate_split m i) by lia.
    rewrite <- app_assoc, advance_spaces, exec_mark, app_assoc.
    pose proof (exec_path_end_cases
                  (prev_after prev (replicate i space))
                  (replicate (m - i) space ++ r) tl
                  ((1, (replicate (m - i) space ++ r) ++ tl) :: ms)) as Hc.
    match type of Hc with
    | _ -> _ -> match ?e with _ => _ end =>
        destruct e as [res|]
    end.
    - apply Hc; [|assumption].
      apply Forall_app. split; [apply one_line_spaces|assumption].
    - rewrite Hc; [discriminate| |assumption].
      apply Forall_app. split; [apply one_line_spaces|assumption]. }
  cbv beta in H.
  match type of H with
  | match ?e with _ => _ end => destruct e as [res|]
  end.
  - destruct H as [HQ (i & Hi & HP)]. split; [assumption|].
    exists (m - i). split; [lia|assumption].
  - intros j Hj. specialize (H (m - j)).
    replace (m - (m - j)) with j in H by lia.
    destruct (reads_as path (replicate j space ++ r)); [|reflexivity].
    exfalso. apply H; [lia|reflexivity].
Qed.


Lemma exec_spaces0 prev u tl ms :
  starts_plain u -> one_line u -> at_end_line tl = true ->
  match exec tail_ops None prev (u ++ tl) ms with
  | Some res => ends_line tl res /\ reads_as path u = true
  | None => reads_as path u = false
  end.
Proof.
  intros Hr Hl Htl. pose proof (exec_spaces prev 0 u tl ms Hr Hl Htl) as H.
  change (replicate 0 space ++ u ++ tl) with (u ++ tl) in H.
  destruct (exec tail_ops None prev (u ++ tl) ms) as [res|].
  - destruct H as [HQ (j & Hj & HR)]. split; [assumption|].
    replace j with 0 in HR by lia. exact HR.
  - apply (H 0). lia.
Qed.

(** ** The two fields of a line that holds a space *)

Lemma no_space_run h :
  has_space h = false ->
  Forall (fun c => cset_match (NotLiteral space) c = true) h.
Proof.
  induction h as [|c h IH]; intros H; [constructor|].
  change (has_space (c :: h)) with (Ascii.eqb space c || has_space h) in H.
  apply orb_false_elim in H as [Hc Hh].
  constructor; [|apply IH; assumption].
  cbn. rewrite Ascii.eqb_sym, Hc. reflexivity.
Qed.

Lemma spaces_spec l :
  exists m r, l = replicate m space ++ r /\ starts_plain r.
Proof.
  induction l as [|c l (m & r & Hl & Hr)].
  - exists 0, []. split; [reflexivity|exact Logic.I].
  - destruct (Ascii.eqb c space) eqn:E.
    + apply Ascii.eqb_eq in E. subst c. exists (S m), r.
      split; [cbn [replicate app]; f_equal; assumption|assumption].
    + apply Ascii.eqb_neq in E. exists 0, (c :: l).
      split; [reflexivity|exact E].
Qed.

Lemma split_entry l :
  has_space l = true ->
  exists h m r,
    l = h ++ replicate (S m) space ++ r /\ has_space h = false
    /\ starts_plain r.
Proof.
  induction l as [|c l IH]; intros H; [discriminate|].
  change (has_space (c :: l)) with (Ascii.eqb space c || has_space l) in H.
  destruct (Ascii.eqb space c) eqn:E.
  - apply Ascii.eqb_eq in E. subst c.
    destruct (spaces_spec l) as (m & r & Hl & Hr).
    exists [], m, r. subst l. auto.
  - cbn [orb] in H. destruct (IH H) as (h & m & r & Hl & Hh & Hr).
    exists (c :: h), m, r.
    split; [cbn [app]; f_equal; assumption|].
    split; [|assumption].
    change (has_space (c :: h)) with (Ascii.eqb space c || has_space h).
    rewrite E, Hh. reflexivity.
Qed.

Lemma fas_spaces j : field_and_spaces (replicate j space) = true.
Proof.
  destruct j as [|j]; [reflexivity|]. cbn [replicate field_and_spaces].
  rewrite Ascii.eqb_refl. induction j as [|j IH]; [reflexivity|].
  cbn [replicate forallb]. rewrite Ascii.eqb_refl. exact IH.
Qed.

Lemma fas_prefix h n : forall k,
  has_space h = false ->
  field_and_spaces (take k (h ++ replicate n space)) = true.
Proof.
  induction h as [|c h IH]; intros k Hh.
  - cbn [app]. rewrite take_replicate. apply fas_spaces.
  - change (has_space (c :: h)) with (Ascii.eqb space c || has_space h) in Hh.
    apply orb_false_elim in Hh as [Hc Hh].
    destruct k as [|k]; [reflexivity|].
    cbn [app take field_and_spaces]. rewrite Ascii.eqb_sym, Hc.
    apply IH. assumption.
Qed.

Lemma fas_false h m c x :
  has_space h = false -> c <> space ->
  field_and_spaces (h ++ replicate (S m) space ++ c :: x) = false.
Proof.
  intros Hh Hc. induction h as [|d h IH].
  - cbn [app replicate field_and_spaces]. rewrite Ascii.eqb_refl.
    rewrite forallb_app. cbn [forallb].
    assert (Ascii.eqb space c = false) as ->
      by (apply Ascii.eqb_neq; congruence).
    cbn [andb]. apply andb_false_r.
  - change (has_space (d :: h)) with (Ascii.eqb space d || has_space h) in Hh.
    apply orb_false_elim in Hh as [Hd Hh].
    cbn [app field_and_spaces]. rewrite Ascii.eqb_sym, Hd.
    apply IH. assumption.
Qed.

(** Where the name of an entry can begin: in the checksum field or in
    the run of spaces after it. *)
Lemma entry_for_iff h m r :
  has_space h = false -> starts_plain r ->
  let l := h ++ replicate (S m) space ++ r in
  entry_for path l = true <->
  exists k, k <= length h + S m /\ reads_as path (drop k l) = true.
Proof.
  intros Hh Hr l. unfold entry_for. cbv zeta.
  assert (Hlen : length l = length h + S m + length r).
  { unfold l. rewrite !length_app, length_replicate. lia. }
  split.
  - intros H. apply andb_prop in H as [Hf Hp].
    exists (length l - length path). split; [|assumption].
    destruct (le_gt_dec (length l - length path) (length h + S m))
      as [Hle|Hgt]; [assumption|exfalso].
    set (k := length l - length path) in *.
    assert (Hk : k = length (h ++ replicate (S m) space) + (k - (length h + S m))).
    { rewrite length_app, length_replicate. lia. }
    unfold l in Hf. rewrite app_assoc, Hk, take_app_add in Hf.
    destruct r as [|c r]; [cbn [length] in Hlen; lia|].
    destruct (k - (length h + S m)) as [|j] eqn:E; [lia|].
    cbn [take] in Hf. rewrite <- app_assoc in Hf.
    rewrite fas_false in Hf by assumption. discriminate.
  - intros (k & Hk & Hp).
    pose proof (reads_as_length _ _ Hp) as Hl. rewrite length_drop in Hl.
    assert (length l - length path = k) as -> by lia.
    rewrite Hp, andb_true_r. unfold l.
    rewrite app_assoc, take_app_le
      by (rewrite length_app, length_replicate; lia).
    apply fas_prefix. assumption.
Qed.

Lemma split_length (h : text) i :
  i <= length h -> exists a b, h = a ++ b /\ length a = i.
Proof.
  intros H. exists (take i h), (drop i h).
  split; [symmetry; apply take_drop|]. rewrite length_take. lia.
Qed.

Lemma drop_in_spaces h m r k :
  length h <= k -> k <= length h + S m ->
  drop k (h ++ replicate (S m) space ++ r)
  = replicate (length h + S m - k) space ++ r.
Proof.
  intros H1 H2. rewrite drop_app_ge by assumption.
  rewrite drop_app_le by (rewrite length_replicate; lia).
  rewrite drop_replicate. f_equal. f_equal. lia.
Qed.

(** ** One line of the manifest *)

Lemma exec_line prev l tl :
  at_beginning_line prev = true -> one_line l -> has_space l = true ->
  at_end_line tl = true ->
  match exec (AtBeginningLine :: ops) None prev (l ++ tl) [] with
  | Some res => ends_line tl res /\ entry_for path l = true
  | None => entry_for path l = false
  end.
Proof.
  intros Hb Hl Hs Htl.
  destruct (split_entry l Hs) as (h & m & r & -> & Hh & Hr).
  pose proof (entry_for_iff h m r Hh Hr) as Hiff. cbv zeta in Hiff.
  set (l := h ++ replicate (S m) space ++ r) in *.
  rewrite exec_bol by assumption. rewrite exec_repeat_max.
  unfold l at 2. rewrite <- !app_assoc.
  rewrite count_run; [|apply no_space_run; assumption|reflexivity].
  match goal with
  | |- match first_down ?f 0 _ with _ => _ end =>
      pose proof (first_down_cases f (ends_line tl)
        (fun i => exists k, k <= length h + S m
                            /\ reads_as path (drop k l) = true
                            /\ (i < length h -> k = i)
                            /\ (i = length h -> length h <= k))
        (length h)) as H
  end.
  match type of H with
  | ?A -> _ => assert (Hall : A); [|specialize (H Hall); clear Hall]
  end.
  { intros i Hi. cbv beta.
    destruct (split_length h i Hi) as (a & b & Hab & Hlen).
    assert (Hadv : advance i prev (l ++ tl)
                   = (prev_after prev a,
                      b ++ replicate (S m) space ++ r ++ tl)).
    { unfold l. rewrite Hab, <- Hlen, <- !app_assoc. apply advance_app. }
    rewrite Hadv, exec_mark.
    apply Forall_app in Hl as [Hlh Hlr]. apply Forall_app in Hlr as [_ Hlr].
    destruct b as [|c b].
    - rewrite app_nil_r in Hab. subst a. cbn [app].
      pose proof (exec_spaces (prev_after prev h) (S m) r tl
                    [(0, replicate (S m) space ++ r ++ tl)] Hr Hlr Htl) as Hc.
      match type of Hc with
      | match ?e with _ => _ end => destruct e as [res|]
      end.
      + destruct Hc as [HQ (j & Hj & HR)]. split; [assumption|].
        exists (length h + (S m - j)). split; [lia|].
        split; [|split; intros; lia].
        unfold l. rewrite drop_in_spaces by lia.
        replace (length h + S m - (length h + (S m - j))) with j by lia.
        exact HR.
      + intros (k & Hk & HR & _ & Hge). specialize (Hge (eq_sym Hlen)).
        unfold l in HR. rewrite drop_in_spaces in HR by lia.
        rewrite Hc in HR by lia. discriminate.
    - assert (Hi' : i < length h).
      { rewrite Hab, length_app. cbn [length]. lia. }
      assert (Hd : drop i l = (c :: b) ++ replicate (S m) space ++ r).
      { unfold l. rewrite Hab, <- app_assoc, <- Hlen.
        apply drop_app_length. }
      assert (Hu : one_line ((c :: b) ++ replicate (S m) space ++ r)).
      { rewrite Hab in Hlh. apply Forall_app in Hlh as [_ Hlb].
        apply Forall_app. split; [assumption|].
        apply Forall_app. split; [apply one_line_spaces|assumption]. }
      assert (Hc0 : starts_plain ((c :: b) ++ replicate (S m) space ++ r)).
      { rewrite Hab, has_space_app in Hh.
        apply orb_false_elim in Hh as [_ Hh].
        change (has_space (c :: b)) with (Ascii.eqb space c || has_space b)
          in Hh.
        apply orb_false_elim in Hh as [Hc _]. apply Ascii.eqb_neq in Hc.
        cbn. congruence. }
      pose proof (exec_spaces0 (prev_after prev a)
                    ((c :: b) ++ replicate (S m) space ++ r) tl
                    [(0, (c :: b) ++ replicate (S m) space ++ r ++ tl)]
                    Hc0 Hu Htl) as Hc.
      rewrite <- !app_assoc in Hc.
      match type of Hc with
      | match ?e with _ => _ end => destruct e as [res|]
      end.
      + destruct Hc as [HQ HR]. split; [assumption|].
        exists i. split; [lia|]. rewrite Hd.
        split; [rewrite <- ?app_assoc; assumption|]. split; intros; lia.
      + intros (k & Hk & HR & Hlt & _). rewrite (Hlt Hi'), Hd in HR.
        rewrite <- ?app_assoc in HR. congruence. }
  cbv beta in H.
  match type of H with
  | match ?e with _ => _ end => destruct e as [res|]
  end.
  - destruct H as [HQ (i & Hi & k & Hk & HR & _)]. split; [assumption|].
    apply Hiff. exists k. auto.
  - destruct (entry_for path l) eqn:E; [|reflexivity]. exfalso.
    destruct (proj1 Hiff eq_refl) as (k & Hk & HR).
    destruct (le_gt_dec (length h) k) as [Hge|Hlt].
    + apply (H (length h)); [lia|]. exists k. repeat split; auto; lia.
    + apply (H k); [lia|]. exists k. repeat split; auto; lia.
Qed.


Lemma exec_empty prev : exec (AtBeginningLine :: ops) None prev [] [] = None.
Proof.
  cbn [exec]. destruct (at_beginning_line prev); [|reflexivity].
  change (exec ops None prev [] [] = None).
  rewrite exec_repeat_max. cbn [count first_down Nat.ltb Nat.leb advance].
  rewrite exec_mark.
  pose proof (exec_spaces0 prev [] [] [(0, [])] Logic.I
                (List.Forall_nil _) eq_refl) as H.
  cbn [app] in H.
  destruct (exec tail_ops None prev [] [(0, [])]) as [res|]; [|reflexivity].
  destruct H as [_ H]. apply reads_as_nonempty in H. contradiction.
Qed.

(** An entry after space-free text, which may span lines: the match
    begins where that text begins. *)
Lemma exec_entry_hit prev h m name tl :
  at_beginning_line prev = true -> has_space h = false ->
  starts_plain name -> reads_as path name = true ->
  at_end_line tl = true ->
  exists res,
    exec (AtBeginningLine :: ops) None prev
      (h ++ replicate (S m) space ++ name ++ tl) [] = Some res
    /\ ends_line tl res.
Proof.
  intros Hb Hh Hn Hp Htl.
  pose proof (reads_as_one_line _ _ path_ok Hp) as Hl.
  rewrite exec_bol by assumption. rewrite exec_repeat_max.
  rewrite count_run; [|apply no_space_run; assumption|reflexivity].
  eexists. split.
  - apply first_down_top; [lia|]. rewrite advance_app, exec_mark.
    rewrite exec_repeat_max.
    rewrite count_run; [|apply spaces_run|apply stops_spaces; assumption].
    rewrite length_replicate.
    apply first_down_top; [lia|]. rewrite advance_spaces, exec_mark.
    rewrite exec_path_end by assumption. rewrite Hp. reflexivity.
  - split; [reflexivity|]. cbn [r_prev].
    apply prev_after_not_bol;
      [assumption|apply reads_as_nonempty; assumption].
Qed.

(** ** The whole manifest *)

Variable md5sum : text.

Local Abbreviation repl := (md5sum ++ "001" :: path).
Local Abbreviation tpl := (map TLit repl).

Lemma spaced_cons l ls :
  ls <> [] -> spaced (l :: ls) = has_space l && spaced ls.
Proof. destruct ls; [contradiction|reflexivity]. Qed.

Lemma has_space_nonempty l : has_space l = true -> l <> [].
Proof. intros H ->. discriminate. Qed.

(** What is left to do after a match that ended at the end of a
    line. *)
Lemma sub_loop_rest fuel prev tl :
  at_beginning_line prev = false -> at_end_line tl = true ->
  sub_loop fuel (AtBeginningLine :: ops) tpl false prev tl =
  match tl with
  | _ :: tl' =>
      newline :: sub_loop fuel (AtBeginningLine :: ops) tpl false
                   (Some newline) tl'
  | [] => []
  end.
Proof.
  intros Hb Htl. destruct tl as [|c tl].
  - apply (sub_skip_last _ _ []); [constructor|apply exec_empty].
  - cbn in Htl. apply Ascii.eqb_eq in Htl. subst c.
    apply sub_skip_newline. assumption.
Qed.

(** One round of the loop at a match that ends a line. *)
Lemma sub_loop_hit fuel prev t res tl :
  exec (AtBeginningLine :: ops) None prev t [] = Some res ->
  ends_line tl res -> at_end_line tl = true -> length tl < length t ->
  sub_loop (S fuel) (AtBeginningLine :: ops) tpl false prev t =
  repl ++ match tl with
          | _ :: tl' =>
              newline :: sub_loop fuel (AtBeginningLine :: ops) tpl false
                           (Some newline) tl'
          | [] => []
          end.
Proof.
  intros Hex [Hrest Hnb] Htl Hlen. cbn [sub_loop].
  rewrite search_at_eq, Hex. cbn [m_res m_pre m_start app].
  rewrite expand_literal, Hrest.
  assert ((length tl =? length t) = false) as -> by (apply Nat.eqb_neq; lia).
  rewrite sub_loop_rest by assumption. reflexivity.
Qed.

(** On a manifest in which every line holds a space, the substitution
    works line by line. *)
Lemma sub_loop_entries : forall n t fuel prev,
  length t < n -> length t < fuel ->
  at_beginning_line prev = true -> spaced (lines t) = true ->
  sub_loop fuel (AtBeginningLine :: ops) tpl false prev t
  = rewrite_entries md5sum path t.
Proof.
  induction n as [|n IH]; intros t fuel prev Hn Hf Hb Hsp; [lia|].
  unfold rewrite_entries.
  destruct (first_line_split t) as (l & Hl & [->|[tl ->]]).
  - (* the last line *)
    rewrite lines_one_line in Hsp |- * by assumption.
    cbn [map unlines]. cbn [spaced] in Hsp. unfold rewrite_entry.
    destruct (has_space l) eqn:Hs.
    + pose proof (exec_line prev l [] Hb Hl Hs eq_refl) as Hex.
      rewrite app_nil_r in Hex.
      destruct (exec (AtBeginningLine :: ops) None prev l []) as [res|] eqn:E.
      * destruct Hex as [Hend ->].
        destruct fuel as [|fuel]; [lia|].
        rewrite (sub_loop_hit fuel prev l res []);
          [apply app_nil_r|assumption|assumption|reflexivity|].
        apply has_space_nonempty in Hs. destruct l; [contradiction|].
        cbn [length]. lia.
      * rewrite Hex. apply sub_skip_last; assumption.
    + cbn [orb] in Hsp. apply Nat.eqb_eq in Hsp.
      destruct l; [|discriminate].
      change (entry_for path []) with (reads_as path []).
      destruct (reads_as path []) eqn:E;
        [apply reads_as_nonempty in E; contradiction|].
      apply (sub_skip_last _ _ []); [constructor|apply exec_empty].
  - (* a line followed by others *)
    rewrite lines_app_newline in Hsp |- * by assumption.
    rewrite spaced_cons in Hsp by apply lines_nonempty.
    apply andb_prop in Hsp as [Hs Hsp].
    cbn [map]. rewrite unlines_cons
      by (intros H; apply map_eq_nil in H; revert H; apply lines_nonempty).
    rewrite length_app in Hn, Hf. cbn [length] in Hn, Hf.
    unfold rewrite_entry at 1.
    pose proof (exec_line prev l (newline :: tl) Hb Hl Hs (Ascii.eqb_refl _))
      as Hex.
    destruct (exec (AtBeginningLine :: ops) None prev (l ++ newline :: tl) [])
      as [res|] eqn:E.
    + destruct Hex as [Hend ->].
      destruct fuel as [|fuel]; [lia|].
      rewrite (sub_loop_hit fuel prev _ res (newline :: tl));
        [|assumption|assumption|apply Ascii.eqb_refl
         |apply has_space_nonempty in Hs; destruct l; [contradiction|];
          rewrite length_app; cbn [length]; lia].
      rewrite (IH tl fuel (Some newline));
        [|lia|lia|reflexivity|assumption].
      reflexivity.
    + rewrite Hex. rewrite sub_skip_line by assumption.
      rewrite (IH tl fuel (Some newline));
        [reflexivity|lia|lia|reflexivity|assumption].
Qed.

Lemma repl_no_backslash : ~ In backslash md5sum -> ~ In backslash repl.
Proof.
  intros H Hin. apply in_app_or in Hin as [Hin|[Hin|Hin]].
  - exact (H Hin).
  - discriminate Hin.
  - exact (path_no_backslash Hin).
Qed.

Lemma update_md5sums_sub_loop t :
  ~ In backslash md5sum ->
  update_md5sums path md5sum t
  = Ret (sub_loop (2 * length t + 2) (AtBeginningLine :: ops) tpl false
           None t).
Proof.
  intros Hm. unfold update_md5sums, re_sub.
  rewrite compile_manifest_pattern. unfold sub. cbn [p_groups p_ops].
  rewrite template_literal by (apply repl_no_backslash; assumption).
  reflexivity.
Qed.

Lemma update_md5sums_lines t :
  ~ In backslash md5sum -> spaced (lines t) = true ->
  update_md5sums path md5sum t = Ret (rewrite_entries md5sum path t).
Proof.
  intros Hm Hsp. rewrite update_md5sums_sub_loop by assumption. f_equal.
  apply (sub_loop_entries (S (length t))); first [lia|reflexivity|assumption].
Qed.

Lemma update_md5sums_swallow junk m name t :
  ~ In backslash md5sum -> has_space junk = false ->
  has_space (take 1 name) = false -> reads_as path name = true ->
  spaced (lines t) = true ->
  update_md5sums path md5sum
    (junk ++ replicate (S m) space ++ name ++ newline :: t)
  = Ret (repl ++ newline :: rewrite_entries md5sum path t).
Proof.
  intros Hm Hj Hn Hp Hsp. rewrite update_md5sums_sub_loop by assumption.
  f_equal.
  assert (Hn' : starts_plain name).
  { destruct name as [|c name]; [exact Logic.I|].
    change (has_space (take 1 (c :: name)))
      with (Ascii.eqb space c || false) in Hn.
    rewrite orb_false_r in Hn. apply Ascii.eqb_neq in Hn.
    cbn. congruence. }
  destruct (exec_entry_hit None junk m name (newline :: t) eq_refl Hj Hn' Hp
              (Ascii.eqb_refl _)) as (res & Hex & Hend).
  set (whole := junk ++ replicate (S m) space ++ name ++ newline :: t) in *.
  assert (Hw : S (length t) < length whole).
  { unfold whole. rewrite !length_app, length_replicate. cbn [length]. lia. }
  replace (2 * length whole + 2) with (S (2 * length whole + 1)) by lia.
  rewrite (sub_loop_hit _ None whole res (newline :: t));
    [|assumption|assumption|apply Ascii.eqb_refl|exact Hw].
  rewrite (sub_loop_entries (S (length t)));
    first [reflexivity|lia|assumption].
Qed.

End Path.

(** X1.  The substitution of [_update_changelog_file] on the
    checksum manifest, for a changelog path whose characters are dots
    or stand for themselves in a pattern, and a checksum without
    backslash.  The call raises on no manifest.  On a manifest in
    which every line holds a space (the last line may be empty) it
    works line by line: a line that is a space-free field, spaces,
    and a name the path reads as (a dot of the path standing for any
    character) becomes the checksum, the character U+0001 and the
    path; every other line is kept. *)
Theorem X1_manifest_rewritten_by_line (path md5sum : text) :
  forallb path_char path = true -> path <> [] -> ~ In backslash md5sum ->
  (forall t, exists out, update_md5sums path md5sum t = Ret out)
  /\ (forall t, spaced (lines t) = true ->
                update_md5sums path md5sum t
                = Ret (rewrite_entries md5sum path t)).
Proof.
  intros Hp Hne Hm. split.
  - intros t. eexists. apply update_md5sums_sub_loop; assumption.
  - intros t Hsp. apply update_md5sums_lines; assumption.
Qed.

Lemma X1_manifest_rewritten_by_line_witness :
  let path := changelog_path (s2l "foo") (s2l "changelog.gz") in
  let md5sum := s2l "0123456789abcdef0123456789abcdef" in
  update_md5sums path md5sum
    (unlines [s2l "d41d8cd98f00b204e9800998ecf8427e  usr/bin/tool";
              s2l "9e107d9d372bb6826bd81d3542a419d6  " ++ path;
              s2l "0cc175b9c0f1b6a831c399e269772661 usr/share/doc/foo/changelog-gz";
              s2l "92eb5ffee6ae2fec3ad71c777531578f  usr/share/doc/foo/changelog.gz.bak";
              []])
  = Ret (unlines [s2l "d41d8cd98f00b204e9800998ecf8427e  usr/bin/tool";
                  md5sum ++ "001" :: path;
                  md5sum ++ "001" :: path;
                  s2l "92eb5ffee6ae2fec3ad71c777531578f  usr/share/doc/foo/changelog.gz.bak";
                  []]).
Proof.
  cbv zeta.
  destruct (X1_manifest_rewritten_by_line
              (changelog_path (s2l "foo") (s2l "changelog.gz"))
              (s2l "0123456789abcdef0123456789abcdef")) as [_ H].
  - reflexivity.
  - discriminate.
  - apply (no_backslash_literal "0123456789abcdef0123456789abcdef").
    reflexivity.
  - rewrite H by reflexivity. vm_compute. reflexivity.
Defined.

(** X2.  The first field of the pattern also reads line feeds.  When
    the text before an entry for the path holds no space, whatever
    lines it spans, the match begins where that text begins: all of
    it, up to and including the entry, is replaced by the checksum,
    U+0001 and the path, and those lines are lost. *)
Theorem X2_space_free_lines_swallowed
    (path md5sum junk name t : text) (m : nat) :
  forallb path_char path = true -> path <> [] -> ~ In backslash md5sum ->
  has_space junk = false ->
  has_space (take 1 name) = false -> reads_as path name = true ->
  spaced (lines t) = true ->
  update_md5sums path md5sum
    (junk ++ replicate (S m) space ++ name ++ newline :: t)
  = Ret (md5sum ++ "001" :: path ++ newline :: rewrite_entries md5sum path t).
Proof.
  intros Hp Hne Hm Hj Hn Hr Hsp.
  rewrite (update_md5sums_swallow path Hp Hne md5sum junk m name t)
    by assumption.
  rewrite <- app_assoc. reflexivity.
Qed.

Lemma X2_space_free_lines_swallowed_witness :
  let path := changelog_path (s2l "foo") (s2l "changelog.gz") in
  let md5sum := s2l "0123456789abcdef0123456789abcdef" in
  update_md5sums path md5sum
    (unlines [s2l "#checksums"; [];
              s2l "9e107d9d372bb6826bd81d3542a419d6  " ++ path;
              s2l "d41d8cd98f00b204e9800998ecf8427e  usr/bin/tool"])
  = Ret (unlines [md5sum ++ "001" :: path;
                  s2l "d41d8cd98f00b204e9800998ecf8427e  usr/bin/tool"]).
Proof.
  cbv zeta.
  pose proof (X2_space_free_lines_swallowed
                (changelog_path (s2l "foo") (s2l "changelog.gz"))
                (s2l "0123456789abcdef0123456789abcdef")
                (s2l "#checksums" ++ newline :: newline
                 :: s2l "9e107d9d372bb6826bd81d3542a419d6")
                (changelog_path (s2l "foo") (s2l "changelog.gz"))
                (s2l "d41d8cd98f00b204e9800998ecf8427e  usr/bin/tool") 1)
    as H.
  etransitivity; [|etransitivity; [apply H|]].
  - vm_compute. reflexivity.
  - reflexivity.
  - discriminate.
  - apply (no_backslash_literal "0123456789abcdef0123456789abcdef").
    reflexivity.
  - reflexivity.
  - reflexivity.
  - reflexivity.
  - reflexivity.
  - vm_compute. reflexivity.
Defined.

End ManifestFacts.

(* ================================================================== *)
(** * The changelog updater and the editing step *)
(* ================================================================== *)

Module UpdaterFacts.
Import Script Posix PosixFacts WorldFacts RunFacts ChangelogFacts Footprint.

Lemma lookup_remove_tree_inside (dir : text) (fs : gmap text node) (k : text) :
  inside dir k -> remove_tree dir fs !! k = None.
Proof.
  intros Hk. unfold remove_tree. apply map_lookup_filter_None.
  right. intros n _ [Hne Hu]. cbn in Hne, Hu.
  destruct Hk as [->|Hk]; [apply Hne; reflexivity|apply Hu; assumption].
Qed.

(** The four paths the updater writes are distinct. *)
Lemma updater_keys d pkg item :
  let kd := join d (s2l "debian") in
  let kc := join d (s2l "debian/changelog") in
  let kp := join d (changelog_path pkg item) in
  let km := join d (s2l "DEBIAN/md5sums") in
  kd <> kc /\ kd <> kp /\ kd <> km /\ kc <> kp /\ kc <> km /\ km <> kp.
Proof.
  cbv zeta.
  destruct (changelog_key_fresh d pkg item "debian" eq_refl eq_refl) as [H1 _].
  destruct (changelog_key_fresh d pkg item "debian/changelog" eq_refl eq_refl)
    as [H2 _].
  destruct (changelog_key_fresh d pkg item "DEBIAN/md5sums" eq_refl eq_refl)
    as [H3 _].
  repeat split; try assumption;
    intros H; apply join_rel_inj in H; try reflexivity; discriminate.
Qed.

Section Tools.

Variable tmpdir : text.
Variable dpkg_extract : option node -> nat * list (text * node).
Variable dpkg_control : option node -> nat * list (text * node).
Variable dpkg_build : gmap text node -> text -> nat * option text.
Variable dch :
  list text -> list (text * text) -> option node -> nat * option text.
Variable gunzip : text -> option text.
Variable gzip : text -> text.
Variable md5_hex : text -> text.
Variable str_exn : exn -> text.
Variable os_rename : text -> text -> bool.
Variable copy2 : text -> text -> copy_result.

Local Abbreviation update_changelog :=
  (Script.update_changelog dch gunzip gzip md5_hex str_exn).
Local Abbreviation update_file :=
  (_update_changelog_file dch gunzip gzip md5_hex).
Local Abbreviation edit := (Script.edit dch gunzip gzip md5_hex str_exn).
Local Abbreviation main :=
  (Script.main tmpdir dpkg_extract dpkg_control dpkg_build dch gunzip gzip
     md5_hex str_exn os_rename copy2).
Local Abbreviation pd := (tmpdir ++ sep :: s2l "package").

(** The updater when every step succeeds. *)
Lemma update_file_ok w pkg item V gz plain edited md5sums md5sums' :
  let p := changelog_path pkg item in
  let cmd := [s2l "dch"; s2l "-v"; V; s2l "--"; dch_message] in
  let final := default plain edited in
  let kd := resolve w (s2l "debian") in
  let kc := resolve w (s2l "debian/changelog") in
  let kp := resolve w p in
  let km := resolve w (s2l "DEBIAN/md5sums") in
  w_fs w !! kp = Some (File gz) ->
  w_fs w !! kd = None ->
  w_fs w !! kc = None ->
  gunzip gz = Some plain ->
  dch cmd dch_env (Some (File plain)) = (0, edited) ->
  w_fs w !! km = Some (File md5sums) ->
  update_md5sums p (md5_hex (gzip final)) md5sums = Re.Ret md5sums' ->
  exists w',
    update_file p V w = (Val tt, w')
    /\ w_cwd w' = w_cwd w /\ w_out w' = w_out w
    /\ w_fs w' = <[km := File md5sums']>
                   (<[kp := File (gzip final)]>
                      (<[kc := File final]> (<[kd := Dir]> (w_fs w)))).
Proof.
  intros p cmd final kd kc kp km Hgz Hd Hc Hgun Hdch Hm Hre.
  destruct (updater_keys (w_cwd w) pkg item)
    as (N1 & N2 & N3 & N4 & N5 & N6).
  unfold kd, kc, kp, km, resolve in *. fold p in N2, N4, N6.
  unfold _update_changelog_file.
  unfold bind at 1. unfold mkdir at 1. unfold resolve.
  cbn [w_fs w_cwd set_fs record id]. rewrite Hd.
  unfold bind at 1. unfold read_file at 1. unfold resolve.
  cbn [w_fs w_cwd set_fs record id].
  rewrite (lookup_insert_ne _ _ _ _ N2), Hgz.
  unfold bind at 1. unfold open_write at 1. unfold resolve.
  cbn [w_fs w_cwd set_fs record id].
  rewrite (lookup_insert_ne _ _ _ _ N1), Hc.
  unfold bind at 1. rewrite Hgun. cbn [ret].
  unfold bind at 1. unfold put at 1. unfold resolve.
  cbn [w_fs w_cwd set_fs record id].
  unfold bind at 1. unfold run_dch at 1, check_call. unfold resolve.
  cbn [w_fs w_cwd set_fs record id].
  rewrite lookup_insert_eq. fold cmd. rewrite Hdch. cbn [Nat.eqb].
  unfold bind at 1. unfold open_write at 1. unfold resolve.
  cbn [w_fs w_cwd set_fs record id].
  assert (Hp4 : forall (f : gmap text node -> gmap text node),
            (forall m, f m !! join (w_cwd w) p = m !! join (w_cwd w) p) ->
            f (<[join (w_cwd w) (s2l "debian/changelog") := File plain]>
                 (<[join (w_cwd w) (s2l "debian/changelog") := File []]>
                    (<[join (w_cwd w) (s2l "debian") := Dir]> (w_fs w))))
            !! join (w_cwd w) p = Some (File gz)).
  { intros f Hf. rewrite Hf.
    rewrite !(lookup_insert_ne _ _ _ _ N4), (lookup_insert_ne _ _ _ _ N2).
    exact Hgz. }
  destruct edited as [c|]; cbn [id default] in *.
  - rewrite (Hp4 (fun m => <[_ := File c]> m))
      by (intros m; apply lookup_insert_ne; exact N4).
    unfold bind at 1. unfold read_file at 1. unfold resolve.
    cbn [w_fs w_cwd set_fs record id].
    rewrite (lookup_insert_ne _ _ _ _ (not_eq_sym N4)), lookup_insert_eq.
    unfold bind at 1. unfold put at 1. unfold resolve.
    cbn [w_fs w_cwd set_fs record id].
    unfold bind at 1. unfold read_file at 1. unfold resolve.
    cbn [w_fs w_cwd set_fs record id]. rewrite lookup_insert_eq.
    unfold bind at 1. unfold read_file at 1. unfold resolve.
    cbn [w_fs w_cwd set_fs record id].
    rewrite !(lookup_insert_ne _ _ _ _ (not_eq_sym N6)),
      !(lookup_insert_ne _ _ _ _ N5), (lookup_insert_ne _ _ _ _ N3), Hm.
    unfold bind at 1. fold final. rewrite Hre. cbn [lift_re ret].
    unfold bind at 1. unfold open_write at 1. unfold resolve.
    cbn [w_fs w_cwd set_fs record id].
    rewrite !(lookup_insert_ne _ _ _ _ (not_eq_sym N6)),
      !(lookup_insert_ne _ _ _ _ N5), (lookup_insert_ne _ _ _ _ N3), Hm.
    unfold put, resolve. cbn [w_fs w_cwd set_fs record id].
    eexists. split; [reflexivity|]. cbn [w_fs w_cwd w_out set_fs record id].
    split; [reflexivity|]. split; [reflexivity|].
    apply map_eq. intros k.
    destruct (decide (k = join (w_cwd w) (s2l "DEBIAN/md5sums"))) as [->|K1];
      [rewrite !lookup_insert_eq; reflexivity|].
    rewrite !(lookup_insert_ne _ _ _ _ (not_eq_sym K1)).
    destruct (decide (k = join (w_cwd w) p)) as [->|K2];
      [rewrite !lookup_insert_eq; reflexivity|].
    rewrite !(lookup_insert_ne _ _ _ _ (not_eq_sym K2)).
    destruct (decide (k = join (w_cwd w) (s2l "debian/changelog"))) as [->|K3];
      [rewrite !lookup_insert_eq; reflexivity|].
    rewrite !(lookup_insert_ne _ _ _ _ (not_eq_sym K3)). reflexivity.
  - rewrite (Hp4 (fun m => m)) by reflexivity.
    unfold bind at 1. unfold read_file at 1. unfold resolve.
    cbn [w_fs w_cwd set_fs record id].
    rewrite (lookup_insert_ne _ _ _ _ (not_eq_sym N4)), lookup_insert_eq.
    unfold bind at 1. unfold put at 1. unfold resolve.
    cbn [w_fs w_cwd set_fs record id].
    unfold bind at 1. unfold read_file at 1. unfold resolve.
    cbn [w_fs w_cwd set_fs record id]. rewrite lookup_insert_eq.
    unfold bind at 1. unfold read_file at 1. unfold resolve.
    cbn [w_fs w_cwd set_fs record id].
    rewrite !(lookup_insert_ne _ _ _ _ (not_eq_sym N6)),
      !(lookup_insert_ne _ _ _ _ N5), (lookup_insert_ne _ _ _ _ N3), Hm.
    unfold bind at 1. fold final. rewrite Hre. cbn [lift_re ret].
    unfold bind at 1. unfold open_write at 1. unfold resolve.
    cbn [w_fs w_cwd set_fs record id].
    rewrite !(lookup_insert_ne _ _ _ _ (not_eq_sym N6)),
      !(lookup_insert_ne _ _ _ _ N5), (lookup_insert_ne _ _ _ _ N3), Hm.
    unfold put, resolve. cbn [w_fs w_cwd set_fs record id].
    eexists. split; [reflexivity|]. cbn [w_fs w_cwd w_out set_fs record id].
    split; [reflexivity|]. split; [reflexivity|].
    apply map_eq. intros k.
    destruct (decide (k = join (w_cwd w) (s2l "DEBIAN/md5sums"))) as [->|K1];
      [rewrite !lookup_insert_eq; reflexivity|].
    rewrite !(lookup_insert_ne _ _ _ _ (not_eq_sym K1)).
    destruct (decide (k = join (w_cwd w) p)) as [->|K2];
      [rewrite !lookup_insert_eq; reflexivity|].
    rewrite !(lookup_insert_ne _ _ _ _ (not_eq_sym K2)).
    destruct (decide (k = join (w_cwd w) (s2l "debian/changelog"))) as [->|K3];
      [rewrite !lookup_insert_eq; reflexivity|].
    rewrite !(lookup_insert_ne _ _ _ _ (not_eq_sym K3)). reflexivity.
Qed.


(** The control file is neither the scratch directory nor in it, and
    so for the manifest and the changelog. *)
Lemma outside_scratch d pkg item :
  let kd := join d (s2l "debian") in
  ~ inside kd (join d (s2l "DEBIAN/control"))
  /\ ~ inside kd (join d (s2l "DEBIAN/md5sums"))
  /\ ~ inside kd (join d (changelog_path pkg item)).
Proof.
  cbv zeta.
  destruct (changelog_key_fresh d pkg item "debian" eq_refl eq_refl)
    as [H1 H2].
  repeat split.
  - intros [H|H].
    + apply join_rel_inj in H; [discriminate|reflexivity..].
    + apply under_join_inv in H; [|reflexivity..].
      destruct H as [x Hx]. discriminate.
  - intros [H|H].
    + apply join_rel_inj in H; [discriminate|reflexivity..].
    + apply under_join_inv in H; [|reflexivity..].
      destruct H as [x Hx]. discriminate.
  - intros [H|H]; [apply H1; symmetry; assumption|apply H2; assumption].
Qed.

Lemma control_key_fresh d pkg item :
  let kctl := join d (s2l "DEBIAN/control") in
  kctl <> join d (s2l "debian") /\ kctl <> join d (s2l "debian/changelog")
  /\ kctl <> join d (s2l "DEBIAN/md5sums")
  /\ kctl <> join d (changelog_path pkg item).
Proof.
  cbv zeta.
  destruct (changelog_key_fresh d pkg item "DEBIAN/control" eq_refl eq_refl)
    as [H1 _].
  repeat split; try assumption;
    intros H; apply join_rel_inj in H; try reflexivity; discriminate.
Qed.

(** The editing step up to the loop over the changelog names. *)
Lemma edit_run w V control control' pkg :
  w_fs w !! resolve w (s2l "DEBIAN/control") = Some (File control) ->
  package_name_of control = Some pkg ->
  set_version V control = Re.Ret control' ->
  edit V w =
  (update_changelog changelog_names pkg V ;;;
   open_write (s2l "DEBIAN/control") ;;;
   put (s2l "DEBIAN/control") control' ;;;
   rmtree_ignore_missing (s2l "debian"))
    (record (EvOpenRead (resolve w (s2l "DEBIAN/control"))) w).
Proof.
  intros Hctl Hpkg Hver. unfold Script.edit. unfold bind at 1.
  rewrite (change_version_ok _ _ _ _ _ Hctl Hpkg Hver). reflexivity.
Qed.

(** The loop when the first candidate that is a file is [item]. *)
Lemma update_changelog_at w e V pkg item :
  first_candidate w pkg changelog_names = Some item ->
  update_changelog changelog_names pkg V (record e w) =
  try_except (update_file (changelog_path pkg item) V) (advisory str_exn)
    (probed (record e w) pkg changelog_names).
Proof.
  intros H. rewrite update_changelog_run, first_candidate_record, H.
  reflexivity.
Qed.

(** X4.  The editing step when the changelog is there and the updater
    succeeds: it returns without printing; the control file holds the
    rewritten text, the changelog the packed edited changelog, the
    manifest the substituted text; nothing is left of the scratch
    directory; every other path is as it was. *)
Theorem X4_edit_success
    w V control control' pkg item gz plain edited md5sums md5sums' :
  let p := changelog_path pkg item in
  let cmd := [s2l "dch"; s2l "-v"; V; s2l "--"; dch_message] in
  let final := default plain edited in
  let kd := resolve w (s2l "debian") in
  let kp := resolve w p in
  let km := resolve w (s2l "DEBIAN/md5sums") in
  let kctl := resolve w (s2l "DEBIAN/control") in
  w_fs w !! kctl = Some (File control) ->
  package_name_of control = Some pkg ->
  set_version V control = Re.Ret control' ->
  first_candidate w pkg changelog_names = Some item ->
  w_fs w !! kp = Some (File gz) ->
  w_fs w !! kd = None ->
  w_fs w !! resolve w (s2l "debian/changelog") = None ->
  gunzip gz = Some plain ->
  dch cmd dch_env (Some (File plain)) = (0, edited) ->
  w_fs w !! km = Some (File md5sums) ->
  update_md5sums p (md5_hex (gzip final)) md5sums = Re.Ret md5sums' ->
  exists w',
    edit V w = (Val tt, w')
    /\ w_out w' = w_out w
    /\ w_fs w' !! kctl = Some (File control')
    /\ w_fs w' !! kp = Some (File (gzip final))
    /\ w_fs w' !! km = Some (File md5sums')
    /\ (forall k, inside kd k -> w_fs w' !! k = None)
    /\ (forall k, ~ inside kd k -> k <> kctl -> k <> kp -> k <> km ->
                  w_fs w' !! k = w_fs w !! k).
Proof.
  intros p cmd final kd kp km kctl Hctl Hpkg Hver Hfirst Hgz Hd Hc Hgun Hdch
    Hm Hre.
  set (w1 := record (EvOpenRead kctl) w).
  destruct (probed_same w1 pkg changelog_names) as (Pfs & Pcwd & Pout).
  change (w_fs w1) with (w_fs w) in Pfs.
  change (w_cwd w1) with (w_cwd w) in Pcwd.
  change (w_out w1) with (w_out w) in Pout.
  destruct (update_file_ok (probed w1 pkg changelog_names) pkg item V gz plain
              edited md5sums md5sums')
    as (w2 & Hup & Hcwd2 & Hout2 & Hfs2);
    try assumption;
    try (unfold resolve; rewrite Pfs, Pcwd; assumption).
  unfold resolve in Hfs2. rewrite Pcwd, Pfs in Hfs2.
  rewrite Pcwd in Hcwd2. rewrite Pout in Hout2.
  destruct (updater_keys (w_cwd w) pkg item)
    as (N1 & N2 & N3 & N4 & N5 & N6).
  destruct (control_key_fresh (w_cwd w) pkg item) as (C1 & C2 & C3 & C4).
  destruct (outside_scratch (w_cwd w) pkg item) as (O1 & O2 & O3).
  fold p in N2, N4, N6, C4, O3. unfold kd, kp, km, kctl, resolve in *.
  rewrite (edit_run _ _ _ _ _ Hctl Hpkg Hver).
  unfold bind at 1. rewrite (update_changelog_at _ _ _ _ _ Hfirst).
  fold p. unfold resolve. fold w1. unfold try_except. fold p in Hup.
  rewrite Hup.
  unfold bind at 1. unfold open_write at 1. unfold resolve.
  cbn [w_fs w_cwd set_fs record]. rewrite Hcwd2, Hfs2.
  rewrite (lookup_insert_ne _ _ _ _ (not_eq_sym C3)),
    (lookup_insert_ne _ _ _ _ (not_eq_sym C4)),
    (lookup_insert_ne _ _ _ _ (not_eq_sym C2)),
    (lookup_insert_ne _ _ _ _ (not_eq_sym C1)), Hctl.
  unfold bind at 1. unfold put at 1. unfold resolve.
  cbn [w_fs w_cwd set_fs record]. rewrite Hcwd2.
  unfold rmtree_ignore_missing, resolve.
  cbn [w_fs w_cwd set_fs record]. rewrite Hcwd2, Hfs2.
  rewrite !(lookup_insert_ne _ _ _ _ C1),
    (lookup_insert_ne _ _ _ _ (not_eq_sym N3)),
    (lookup_insert_ne _ _ _ _ (not_eq_sym N2)),
    (lookup_insert_ne _ _ _ _ (not_eq_sym N1)), lookup_insert_eq.
  eexists. split; [reflexivity|]. cbn [w_fs w_out set_fs record].
  split; [assumption|]. rewrite Hfs2.
  split; [|split; [|split; [|split]]].
  - rewrite lookup_remove_tree;
      [|intros H; apply O1; left; assumption
       |intros H; apply O1; right; assumption].
    apply lookup_insert_eq.
  - rewrite lookup_remove_tree;
      [|intros H; apply O3; left; assumption
       |intros H; apply O3; right; assumption].
    rewrite !(lookup_insert_ne _ _ _ _ C4), (lookup_insert_ne _ _ _ _ N6).
    apply lookup_insert_eq.
  - rewrite lookup_remove_tree;
      [|intros H; apply O2; left; assumption
       |intros H; apply O2; right; assumption].
    rewrite !(lookup_insert_ne _ _ _ _ C3). apply lookup_insert_eq.
  - intros k Hk. apply lookup_remove_tree_inside. assumption.
  - intros k Hk K1 K2 K3.
    rewrite lookup_remove_tree;
      [|intros H; apply Hk; left; assumption
       |intros H; apply Hk; right; assumption].
    rewrite !(lookup_insert_ne _ _ _ _ (not_eq_sym K1)),
      (lookup_insert_ne _ _ _ _ (not_eq_sym K3)),
      (lookup_insert_ne _ _ _ _ (not_eq_sym K2)).
    rewrite !lookup_insert_ne; [reflexivity|..].
    + intros <-. apply Hk. left. reflexivity.
    + intros <-. apply Hk. right.
      exists (s2l "changelog"). unfold join.
      change (isabs (s2l "debian")) with false.
      change (isabs (s2l "debian/changelog")) with false. cbv iota.
      destruct ((length (w_cwd w) =? 0) || ends_with_sep (w_cwd w));
        rewrite <- !app_assoc; reflexivity.
Qed.


(** ** Failures of the updater *)

Lemma update_file_exists w p V n :
  w_fs w !! resolve w (s2l "debian") = Some n ->
  update_file p V w
  = (Exc (FileExistsError (resolve w (s2l "debian"))),
     record (EvMkdir (resolve w (s2l "debian"))) w).
Proof.
  intros Hd. unfold _update_changelog_file.
  unfold bind at 1. unfold mkdir at 1. cbn [w_fs record]. rewrite Hd.
  reflexivity.
Qed.

Lemma update_file_bad_gzip w pkg item V gz :
  let p := changelog_path pkg item in
  let kd := resolve w (s2l "debian") in
  let kc := resolve w (s2l "debian/changelog") in
  w_fs w !! resolve w p = Some (File gz) ->
  w_fs w !! kd = None -> w_fs w !! kc = None ->
  gunzip gz = None ->
  exists w',
    update_file p V w = (Exc BadGzipFile, w')
    /\ w_cwd w' = w_cwd w /\ w_out w' = w_out w
    /\ w_fs w' = <[kc := File []]> (<[kd := Dir]> (w_fs w)).
Proof.
  intros p kd kc Hgz Hd Hc Hgun.
  destruct (updater_keys (w_cwd w) pkg item)
    as (N1 & N2 & N3 & N4 & N5 & N6).
  unfold kd, kc, resolve in *. fold p in N2, N4, N6.
  unfold _update_changelog_file.
  unfold bind at 1. unfold mkdir at 1. unfold resolve.
  cbn [w_fs w_cwd set_fs record]. rewrite Hd.
  unfold bind at 1. unfold read_file at 1. unfold resolve.
  cbn [w_fs w_cwd set_fs record].
  rewrite (lookup_insert_ne _ _ _ _ N2), Hgz.
  unfold bind at 1. unfold open_write at 1. unfold resolve.
  cbn [w_fs w_cwd set_fs record].
  rewrite (lookup_insert_ne _ _ _ _ N1), Hc.
  unfold bind at 1. rewrite Hgun. cbn [raise].
  eexists. split; [reflexivity|]. repeat split.
Qed.

Lemma update_file_no_manifest w pkg item V gz plain edited :
  let p := changelog_path pkg item in
  let cmd := [s2l "dch"; s2l "-v"; V; s2l "--"; dch_message] in
  let final := default plain edited in
  let kd := resolve w (s2l "debian") in
  let kc := resolve w (s2l "debian/changelog") in
  let kp := resolve w p in
  let km := resolve w (s2l "DEBIAN/md5sums") in
  w_fs w !! kp = Some (File gz) ->
  w_fs w !! kd = None -> w_fs w !! kc = None ->
  gunzip gz = Some plain ->
  dch cmd dch_env (Some (File plain)) = (0, edited) ->
  w_fs w !! km = None ->
  exists w',
    update_file p V w = (Exc (FileNotFoundError km), w')
    /\ w_cwd w' = w_cwd w /\ w_out w' = w_out w
    /\ w_fs w' = <[kp := File (gzip final)]>
                   (<[kc := File final]> (<[kd := Dir]> (w_fs w))).
Proof.
  intros p cmd final kd kc kp km Hgz Hd Hc Hgun Hdch Hm.
  destruct (updater_keys (w_cwd w) pkg item)
    as (N1 & N2 & N3 & N4 & N5 & N6).
  unfold kd, kc, kp, km, resolve in *. fold p in N2, N4, N6.
  unfold _update_changelog_file.
  unfold bind at 1. unfold mkdir at 1. unfold resolve.
  cbn [w_fs w_cwd set_fs record id]. rewrite Hd.
  unfold bind at 1. unfold read_file at 1. unfold resolve.
  cbn [w_fs w_cwd set_fs record id].
  rewrite (lookup_insert_ne _ _ _ _ N2), Hgz.
  unfold bind at 1. unfold open_write at 1. unfold resolve.
  cbn [w_fs w_cwd set_fs record id].
  rewrite (lookup_insert_ne _ _ _ _ N1), Hc.
  unfold bind at 1. rewrite Hgun. cbn [ret].
  unfold bind at 1. unfold put at 1. unfold resolve.
  cbn [w_fs w_cwd set_fs record id].
  unfold bind at 1. unfold run_dch at 1, check_call. unfold resolve.
  cbn [w_fs w_cwd set_fs record id].
  rewrite lookup_insert_eq. fold cmd. rewrite Hdch. cbn [Nat.eqb].
  unfold bind at 1. unfold open_write at 1. unfold resolve.
  cbn [w_fs w_cwd set_fs record id].
  destruct edited as [c|]; cbn [id default] in *;
    rewrite ?(lookup_insert_ne _ _ _ _ N4), (lookup_insert_ne _ _ _ _ N2), Hgz;
    (unfold bind at 1; unfold read_file at 1; unfold resolve;
     cbn [w_fs w_cwd set_fs record id];
     rewrite (lookup_insert_ne _ _ _ _ (not_eq_sym N4)), lookup_insert_eq;
     unfold bind at 1; unfold put at 1; unfold resolve;
     cbn [w_fs w_cwd set_fs record id];
     unfold bind at 1; unfold read_file at 1; unfold resolve;
     cbn [w_fs w_cwd set_fs record id]; rewrite lookup_insert_eq;
     unfold bind at 1; unfold read_file at 1; unfold resolve;
     cbn [w_fs w_cwd set_fs record id];
     rewrite !(lookup_insert_ne _ _ _ _ (not_eq_sym N6)),
       !(lookup_insert_ne _ _ _ _ N5), (lookup_insert_ne _ _ _ _ N3), Hm;
     eexists; split; [reflexivity|]; cbn [w_fs w_cwd w_out set_fs record id];
     split; [reflexivity|]; split; [reflexivity|];
     apply map_eq; intros k;
     destruct (decide (k = join (w_cwd w) p)) as [->|K2];
       [rewrite !lookup_insert_eq; reflexivity|];
     rewrite !(lookup_insert_ne _ _ _ _ (not_eq_sym K2));
     destruct (decide (k = join (w_cwd w) (s2l "debian/changelog")))
       as [->|K3];
       [rewrite !lookup_insert_eq; reflexivity|];
     rewrite !(lookup_insert_ne _ _ _ _ (not_eq_sym K3)); reflexivity).
Qed.

(** The handler lets through what is not [CalledProcessError]. *)
Lemma edit_updater_raises w V control control' pkg item e w2 :
  w_fs w !! resolve w (s2l "DEBIAN/control") = Some (File control) ->
  package_name_of control = Some pkg ->
  set_version V control = Re.Ret control' ->
  first_candidate w pkg changelog_names = Some item ->
  update_file (changelog_path pkg item) V
    (probed (record (EvOpenRead (resolve w (s2l "DEBIAN/control"))) w)
       pkg changelog_names) = (Exc e, w2) ->
  (forall code cmd, e <> CalledProcessError code cmd) ->
  edit V w = (Exc e, w2).
Proof.
  intros Hctl Hpkg Hver Hfirst Hup He.
  rewrite (edit_run _ _ _ _ _ Hctl Hpkg Hver).
  unfold bind at 1. rewrite (update_changelog_at _ _ _ _ _ Hfirst).
  unfold try_except. rewrite Hup.
  destruct e; try reflexivity. exfalso. eapply He. reflexivity.
Qed.

(** An exception of the editing step ends the run, after the two
    [with] blocks are left. *)
Lemma main_edit_raises prog arg1 V rest w0 w1 e w2 :
  plain_dir tmpdir -> w_euid w0 = 0 -> w_fs w0 !! pd = None ->
  extract dpkg_extract dpkg_control (abspath (w_cwd w0) arg1)
    (staged tmpdir w0) = (Val tt, w1) ->
  edit V w1 = (Exc e, w2) ->
  main (prog :: arg1 :: V :: rest) w0
  = (Exc e, leave tmpdir (w_cwd w0) w2).
Proof.
  intros Hp He Hpd H1 H2. rewrite main_root by assumption. cbv zeta.
  rewrite (bind_val _ _ _ _ _ H1). unfold bind at 1. rewrite H2. reflexivity.
Qed.


(** ** The editing step: failures of the updater are fatal *)

Lemma edit_updater_errors w V control control' pkg item gz :
  let p := changelog_path pkg item in
  let cmd := [s2l "dch"; s2l "-v"; V; s2l "--"; dch_message] in
  let kd := resolve w (s2l "debian") in
  let kc := resolve w (s2l "debian/changelog") in
  let kp := resolve w p in
  let km := resolve w (s2l "DEBIAN/md5sums") in
  w_fs w !! resolve w (s2l "DEBIAN/control") = Some (File control) ->
  package_name_of control = Some pkg ->
  set_version V control = Re.Ret control' ->
  first_candidate w pkg changelog_names = Some item ->
  w_fs w !! kp = Some (File gz) ->
  (forall n, w_fs w !! kd = Some n ->
     exists w', edit V w = (Exc (FileExistsError kd), w')
                /\ w_out w' = w_out w /\ w_fs w' = w_fs w)
  /\ (w_fs w !! kd = None -> w_fs w !! kc = None -> gunzip gz = None ->
      exists w', edit V w = (Exc BadGzipFile, w')
                 /\ w_out w' = w_out w
                 /\ w_fs w' = <[kc := File []]> (<[kd := Dir]> (w_fs w)))
  /\ (forall plain edited,
        w_fs w !! kd = None -> w_fs w !! kc = None ->
        gunzip gz = Some plain ->
        dch cmd dch_env (Some (File plain)) = (0, edited) ->
        w_fs w !! km = None ->
        exists w', edit V w = (Exc (FileNotFoundError km), w')
                   /\ w_out w' = w_out w
                   /\ w_fs w' = <[kp := File (gzip (default plain edited))]>
                                  (<[kc := File (default plain edited)]>
                                     (<[kd := Dir]> (w_fs w)))).
Proof.
  intros p cmd kd kc kp km Hctl Hpkg Hver Hfirst Hgz.
  subst kd kc kp km.
  set (w1 := record (EvOpenRead (resolve w (s2l "DEBIAN/control"))) w).
  destruct (probed_same w1 pkg changelog_names) as (Pfs & Pcwd & Pout).
  change (w_fs w1) with (w_fs w) in Pfs.
  change (w_cwd w1) with (w_cwd w) in Pcwd.
  change (w_out w1) with (w_out w) in Pout.
  set (wp := probed w1 pkg changelog_names) in *.
  assert (Hres : forall q, resolve wp q = resolve w q)
    by (intros q; unfold resolve; rewrite Pcwd; reflexivity).
  split; [|split].
  - intros n Hd. eexists. split.
    + apply (edit_updater_raises w V control control' pkg item _ _
               Hctl Hpkg Hver Hfirst).
      * fold w1 wp. rewrite <- (Hres (s2l "debian")).
        apply (update_file_exists wp _ V n). rewrite Hres, Pfs. exact Hd.
      * discriminate.
    + cbn [w_out w_fs record]. auto.
  - intros Hd Hc Hgun.
    destruct (update_file_bad_gzip wp pkg item V gz)
      as (w2 & Hup & _ & Hout2 & Hfs2);
      try (rewrite ?Hres, Pfs; assumption); [assumption|].
    exists w2. split.
    + apply (edit_updater_raises w V control control' pkg item _ _
               Hctl Hpkg Hver Hfirst); [exact Hup|discriminate].
    + rewrite Hout2, Hfs2, !Hres, Pfs, Pout. auto.
  - intros plain edited Hd Hc Hgun Hdch Hm.
    destruct (update_file_no_manifest wp pkg item V gz plain edited)
      as (w2 & Hup & _ & Hout2 & Hfs2);
      try (rewrite ?Hres, Pfs; assumption); try assumption.
    exists w2. split.
    + rewrite <- (Hres (s2l "DEBIAN/md5sums")).
      apply (edit_updater_raises w V control control' pkg item _ _
               Hctl Hpkg Hver Hfirst); [exact Hup|discriminate].
    + rewrite Hout2, Hfs2, !Hres, Pfs, Pout. auto.
Qed.

(** ** The editing step without a changelog *)

Lemma edit_no_changelog w V control control' pkg :
  let kd := resolve w (s2l "debian") in
  let kctl := resolve w (s2l "DEBIAN/control") in
  w_fs w !! kctl = Some (File control) ->
  package_name_of control = Some pkg ->
  set_version V control = Re.Ret control' ->
  first_candidate w pkg changelog_names = None ->
  exists w',
    (edit V w).2 = w' /\ w_out w' = w_out w
    /\ match w_fs w !! kd with
       | None =>
           (edit V w).1 = Val tt
           /\ w_fs w' = <[kctl := File control']> (w_fs w)
       | Some Dir =>
           (edit V w).1 = Val tt
           /\ w_fs w' = remove_tree kd (<[kctl := File control']> (w_fs w))
       | Some (File _) =>
           (edit V w).1 = Exc (NotADirectoryError kd)
           /\ w_fs w' = <[kctl := File control']> (w_fs w)
       end.
Proof.
  intros kd kctl Hctl Hpkg Hver Hfirst.
  set (w1 := record (EvOpenRead kctl) w).
  destruct (probed_same w1 pkg changelog_names) as (Pfs & Pcwd & Pout).
  change (w_fs w1) with (w_fs w) in Pfs.
  change (w_cwd w1) with (w_cwd w) in Pcwd.
  change (w_out w1) with (w_out w) in Pout.
  destruct (control_key_fresh (w_cwd w) pkg []) as (C1 & _).
  unfold kd, kctl, resolve in *.
  assert (Hrun : edit V w =
    rmtree_ignore_missing (s2l "debian")
      (set_fs <[join (w_cwd w) (s2l "DEBIAN/control") := File control']>
         (set_fs <[join (w_cwd w) (s2l "DEBIAN/control") := File []]>
            (record (EvOpenWrite (join (w_cwd w) (s2l "DEBIAN/control")))
               (probed w1 pkg changelog_names))))).
  { rewrite (edit_run _ _ _ _ _ Hctl Hpkg Hver).
    unfold bind at 1. rewrite update_changelog_run, first_candidate_record,
      Hfirst. unfold resolve. fold w1.
    unfold bind at 1. unfold open_write at 1. unfold resolve.
    cbn [w_fs w_cwd set_fs record]. rewrite Pcwd, Pfs, Hctl.
    unfold bind at 1. unfold put at 1. unfold resolve.
    cbn [w_fs w_cwd set_fs record]. rewrite Pcwd. reflexivity. }
  rewrite Hrun. unfold rmtree_ignore_missing, resolve.
  cbn [w_fs w_cwd set_fs record]. rewrite Pcwd, Pfs.
  rewrite !(lookup_insert_ne _ _ _ _ C1).
  eexists. split; [reflexivity|].
  destruct (w_fs w !! join (w_cwd w) (s2l "debian")) as [[c|]|];
    cbn [fst snd w_out w_fs set_fs record]; rewrite ?Pfs, ?Pout,
      insert_insert_eq; auto.
Qed.

(** ** The scratch directory *)

(** Once [os.mkdir] has made the scratch directory, the updater leaves
    it in place, however it ends. *)
Lemma scratch_created w pkg item V :
  let kd := resolve w (s2l "debian") in
  w_fs w !! kd = None ->
  w_cwd (update_file (changelog_path pkg item) V w).2 = w_cwd w
  /\ w_fs (update_file (changelog_path pkg item) V w).2 !! kd = Some Dir.
Proof.
  intros kd Hd.
  destruct (updater_keys (w_cwd w) pkg item)
    as (N1 & N2 & N3 & N4 & N5 & N6).
  unfold kd, resolve in *.
  unfold _update_changelog_file.
  match goal with
  | |- w_cwd (bind ?a ?f w).2 = _ /\ _ =>
      assert (Hb : bind a f w
                   = f tt (set_fs <[join (w_cwd w) (s2l "debian") := Dir]>
                             (record (EvMkdir (join (w_cwd w) (s2l "debian")))
                                w)))
  end.
  { unfold bind at 1. unfold mkdir at 1. unfold resolve.
    cbn [w_fs w_cwd set_fs record]. rewrite Hd. reflexivity. }
  rewrite Hb. cbv beta.
  match goal with
  | |- w_cwd (?m ?wm).2 = _ /\ _ =>
      assert (Hp : preserves
                     (inv (fun k => k <> join (w_cwd w) (s2l "debian"))
                        (w_cwd w) wm) m);
      [|pose proof (Hp wm (inv_refl _ (w_cwd w) wm eq_refl)) as Hi]
  end.
  { repeat first [apply preserves_run_dch | pres_step];
      first [exact (not_eq_sym N1) | exact (not_eq_sym N2)
            | exact (not_eq_sym N3)]. }
  split; [exact (inv_cwd _ _ _ _ Hi)|].
  etransitivity;
    [apply (inv_fs _ _ _ _ Hi); intros H; apply H; reflexivity|].
  cbn [w_fs set_fs record]. apply lookup_insert_eq.
Qed.

Lemma change_version_world V w :
  (change_version V w).2
  = record (EvOpenRead (resolve w (s2l "DEBIAN/control"))) w.
Proof.
  unfold change_version. unfold bind at 1. unfold read_file.
  cbn [w_fs record].
  destruct (w_fs w !! resolve w (s2l "DEBIAN/control")) as [[c|]|];
    try reflexivity.
  destruct (package_name_of c); [|reflexivity].
  unfold bind. destruct (set_version V c); reflexivity.
Qed.

Lemma advisory_world e w2 :
  w_cwd (advisory str_exn e w2).2 = w_cwd w2
  /\ w_fs (advisory str_exn e w2).2 = w_fs w2.
Proof. destruct e; split; reflexivity. Qed.

(** X7.  Whenever the editing step returns, nothing is left at or
    under [debian] in the package directory, so the scratch directory
    of the updater is never packed; this holds for a file system in
    which nothing lies under a missing [debian]. *)
Theorem X7_scratch_directory_removed w V w' :
  let kd := resolve w (s2l "debian") in
  (w_fs w !! kd = None -> forall k, under kd k -> w_fs w !! k = None) ->
  edit V w = (Val tt, w') ->
  forall k, inside kd k -> w_fs w' !! k = None.
Proof.
  intros kd Hwf Hrun k Hk. revert Hrun.
  unfold Script.edit. unfold bind at 1.
  pose proof (change_version_world V w) as Hw1.
  destruct (change_version V w) as [[[pkg control']| |] w1];
    [|discriminate..].
  cbn [snd] in Hw1. subst w1.
  unfold bind at 1. rewrite update_changelog_run, first_candidate_record.
  set (w1 := record (EvOpenRead (resolve w (s2l "DEBIAN/control"))) w).
  destruct (probed_same w1 pkg changelog_names) as (Pfs & Pcwd & Pout).
  change (w_fs w1) with (w_fs w) in Pfs.
  change (w_cwd w1) with (w_cwd w) in Pcwd.
  destruct (control_key_fresh (w_cwd w) pkg []) as (C1 & _).
  destruct (outside_scratch (w_cwd w) pkg []) as (O1 & _).
  assert (Hw2 : forall (o : outcome unit) w2,
            match first_candidate w pkg changelog_names with
            | Some item =>
                try_except (update_file (changelog_path pkg item) V)
                  (advisory str_exn) (probed w1 pkg changelog_names)
            | None => (Val tt, probed w1 pkg changelog_names)
            end = (o, w2) ->
            o = Val tt ->
            w_cwd w2 = w_cwd w
            /\ (w_fs w2 !! kd = Some Dir \/ w_fs w2 = w_fs w)).
  { intros o w2 H Ho. subst o.
    destruct (first_candidate w pkg changelog_names) as [item|].
    - destruct (w_fs w !! kd) as [n|] eqn:Ed.
      + unfold try_except in H.
        rewrite (update_file_exists _ _ _ n) in H
          by (unfold resolve; rewrite Pcwd, Pfs; exact Ed).
        discriminate H.
      + destruct (scratch_created (probed w1 pkg changelog_names) pkg item V)
          as [Hc Hd].
        { unfold resolve. rewrite Pcwd, Pfs. exact Ed. }
        unfold resolve in Hd. rewrite Pcwd in Hd, Hc.
        unfold try_except in H.
        destruct (update_file (changelog_path pkg item) V
                    (probed w1 pkg changelog_names)) as [[[]|e|] w3];
          cbn [snd] in Hc, Hd.
        * injection H as Heq. rewrite <- Heq. auto.
        * destruct (advisory_world e w3) as [A1 A2]. rewrite H in A1, A2.
          cbn [snd] in A1, A2. rewrite A1, A2. auto.
        * discriminate H.
    - injection H as Heq. rewrite <- Heq. auto. }
  destruct (match first_candidate w pkg changelog_names with
            | Some item =>
                try_except (update_file (changelog_path pkg item) V)
                  (advisory str_exn) (probed w1 pkg changelog_names)
            | None => (Val tt, probed w1 pkg changelog_names)
            end) as [o w2] eqn:E2.
  destruct o as [[]| |]; [|discriminate..].
  destruct (Hw2 _ _ eq_refl eq_refl) as [Hcwd2 Hfs2].
  unfold bind at 1. unfold open_write at 1. unfold resolve.
  cbn [w_fs w_cwd set_fs record]. rewrite Hcwd2.
  destruct (w_fs w2 !! join (w_cwd w) (s2l "DEBIAN/control")) as [[c|]|];
    [|discriminate|];
    (unfold bind at 1; unfold put at 1; unfold resolve;
     cbn [w_fs w_cwd set_fs record]; rewrite Hcwd2;
     unfold rmtree_ignore_missing, resolve;
     cbn [w_fs w_cwd set_fs record]; rewrite Hcwd2;
     rewrite !(lookup_insert_ne _ _ _ _ C1);
     fold (resolve w (s2l "debian")); fold kd;
     destruct Hfs2 as [Hd|Hsame];
     [rewrite Hd; intros H; injection H as <-;
      cbn [w_fs set_fs record]; apply lookup_remove_tree_inside; exact Hk
     |rewrite Hsame;
      destruct (w_fs w !! kd) as [[c'|]|] eqn:Ed; intros H;
      [discriminate H
      |injection H as <-; cbn [w_fs set_fs record];
       apply lookup_remove_tree_inside; exact Hk
      |injection H as <-; cbn [w_fs set_fs record];
       rewrite !lookup_insert_ne
         by (intros <-; apply O1; exact Hk);
       rewrite Hsame;
       destruct Hk as [->|Hu]; [exact Ed|apply Hwf; [reflexivity|exact Hu]]]]).
Qed.

(** ** What the editing step touches *)

Lemma edit_stays_in_footprint w V control pkg :
  w_fs w !! resolve w (s2l "DEBIAN/control") = Some (File control) ->
  package_name_of control = Some pkg ->
  inv (edit_footprint (w_cwd w) pkg) (w_cwd w) w (edit V w).2.
Proof.
  intros Hctl Hpkg.
  set (T := edit_footprint (w_cwd w) pkg).
  assert (T1 : T (join (w_cwd w) (s2l "DEBIAN/control"))) by (left; reflexivity).
  assert (T2 : T (join (w_cwd w) (s2l "DEBIAN/md5sums")))
    by (right; left; reflexivity).
  assert (T3 : T (join (w_cwd w) (changelog_path pkg (s2l "changelog.gz"))))
    by (right; right; left; reflexivity).
  assert (T4 : T (join (w_cwd w)
                    (changelog_path pkg (s2l "changelog.Debian.gz"))))
    by (right; right; right; left; reflexivity).
  assert (T5 : forall k, inside (join (w_cwd w) (s2l "debian")) k -> T k)
    by (intros k Hk; right; right; right; right; exact Hk).
  assert (T6 : T (join (w_cwd w) (s2l "debian/changelog"))).
  { apply T5. right. exists (s2l "changelog"). unfold join.
    change (isabs (s2l "debian")) with false.
    change (isabs (s2l "debian/changelog")) with false. cbv iota.
    destruct ((length (w_cwd w) =? 0) || ends_with_sep (w_cwd w));
      rewrite <- !app_assoc; reflexivity. }
  assert (Hi1 : inv T (w_cwd w) w
                  (record (EvOpenRead (resolve w (s2l "DEBIAN/control"))) w)).
  { apply inv_record; [apply inv_refl; reflexivity|exact T1]. }
  destruct (set_version V control) as [control'| |] eqn:Hver.
  - rewrite (edit_run _ _ _ _ _ Hctl Hpkg Hver).
    match goal with
    | |- inv _ _ _ (?m ?w1).2 =>
        assert (Hp : preserves (inv T (w_cwd w) w) m); [|exact (Hp w1 Hi1)]
    end.
    apply preserves_bind.
    + apply preserves_update_changelog;
        [apply T5; left; reflexivity| |exact T6|exact T2].
      unfold changelog_names. repeat constructor; assumption.
    + intros _. repeat first [apply preserves_rmtree | pres_step];
        first [exact T1 | apply T5; left; reflexivity
              | intros k Hk; apply T5; right; exact Hk].
  - unfold Script.edit. unfold bind at 1.
    unfold change_version. unfold bind at 1. unfold read_file.
    cbn [w_fs record]. rewrite Hctl, Hpkg. unfold bind at 1. rewrite Hver.
    exact Hi1.
  - unfold Script.edit. unfold bind at 1.
    unfold change_version. unfold bind at 1. unfold read_file.
    cbn [w_fs record]. rewrite Hctl, Hpkg. unfold bind at 1. rewrite Hver.
    exact Hi1.
Qed.


(** X3.  [_update_changelog_file] when every step succeeds: the
    changelog is unpacked into [debian/changelog], [dch] edits it,
    the result is packed over the changelog, and the manifest is
    replaced by what the substitution returns for the checksum of the
    packed file.  Nothing is printed, and no path but the scratch
    directory, the scratch changelog, the changelog and the manifest
    is changed. *)
Theorem X3_updater_success
    w pkg item V gz plain edited md5sums md5sums' :
  let p := changelog_path pkg item in
  let cmd := [s2l "dch"; s2l "-v"; V; s2l "--"; dch_message] in
  let final := default plain edited in
  let kd := resolve w (s2l "debian") in
  let kc := resolve w (s2l "debian/changelog") in
  let kp := resolve w p in
  let km := resolve w (s2l "DEBIAN/md5sums") in
  w_fs w !! kp = Some (File gz) ->
  w_fs w !! kd = None ->
  w_fs w !! kc = None ->
  gunzip gz = Some plain ->
  dch cmd dch_env (Some (File plain)) = (0, edited) ->
  w_fs w !! km = Some (File md5sums) ->
  update_md5sums p (md5_hex (gzip final)) md5sums = Re.Ret md5sums' ->
  exists w',
    update_file p V w = (Val tt, w')
    /\ w_cwd w' = w_cwd w /\ w_out w' = w_out w
    /\ w_fs w' = <[km := File md5sums']>
                   (<[kp := File (gzip final)]>
                      (<[kc := File final]> (<[kd := Dir]> (w_fs w)))).
Proof. apply update_file_ok. Qed.

(** X5.  Failures of the updater other than a failing [dch] are not
    caught.  With the changelog in place: if [debian] exists already,
    [os.mkdir] raises [FileExistsError] and nothing is written; if
    the changelog does not unpack, the error is raised with the
    scratch changelog created empty and the changelog untouched; if
    the manifest is missing, [FileNotFoundError] is raised after the
    changelog has been packed anew.  In each case the editing step
    raises that exception, prints no warning and leaves the control
    file as it was, and an exception of the editing step ends the run
    with that exception. *)
Theorem X5_updater_failures_fatal w V control control' pkg item gz :
  let p := changelog_path pkg item in
  let cmd := [s2l "dch"; s2l "-v"; V; s2l "--"; dch_message] in
  let kd := resolve w (s2l "debian") in
  let kc := resolve w (s2l "debian/changelog") in
  let kp := resolve w p in
  let km := resolve w (s2l "DEBIAN/md5sums") in
  w_fs w !! resolve w (s2l "DEBIAN/control") = Some (File control) ->
  package_name_of control = Some pkg ->
  set_version V control = Re.Ret control' ->
  first_candidate w pkg changelog_names = Some item ->
  w_fs w !! kp = Some (File gz) ->
  (forall n, w_fs w !! kd = Some n ->
     exists w', edit V w = (Exc (FileExistsError kd), w')
                /\ w_out w' = w_out w /\ w_fs w' = w_fs w)
  /\ (w_fs w !! kd = None -> w_fs w !! kc = None -> gunzip gz = None ->
      exists w', edit V w = (Exc BadGzipFile, w')
                 /\ w_out w' = w_out w
                 /\ w_fs w' = <[kc := File []]> (<[kd := Dir]> (w_fs w)))
  /\ (forall plain edited,
        w_fs w !! kd = None -> w_fs w !! kc = None ->
        gunzip gz = Some plain ->
        dch cmd dch_env (Some (File plain)) = (0, edited) ->
        w_fs w !! km = None ->
        exists w', edit V w = (Exc (FileNotFoundError km), w')
                   /\ w_out w' = w_out w
                   /\ w_fs w' = <[kp := File (gzip (default plain edited))]>
                                  (<[kc := File (default plain edited)]>
                                     (<[kd := Dir]> (w_fs w))))
  /\ (forall e w' prog arg1 rest w0,
        edit V w = (Exc e, w') ->
        plain_dir tmpdir -> w_euid w0 = 0 -> w_fs w0 !! pd = None ->
        extract dpkg_extract dpkg_control (abspath (w_cwd w0) arg1)
          (staged tmpdir w0) = (Val tt, w) ->
        main (prog :: arg1 :: V :: rest) w0
        = (Exc e, leave tmpdir (w_cwd w0) w')).
Proof.
  intros p cmd kd kc kp km Hctl Hpkg Hver Hfirst Hgz.
  destruct (edit_updater_errors w V control control' pkg item gz
              Hctl Hpkg Hver Hfirst Hgz) as (H1 & H2 & H3).
  split; [exact H1|]. split; [exact H2|]. split; [exact H3|].
  intros e w' prog arg1 rest w0 He Hp Hu Hpd Hex.
  apply (main_edit_raises prog arg1 V rest w0 w e w'); assumption.
Qed.

(** X6.  The editing step when no changelog candidate is a file, so
    that [shutil.rmtree] meets [debian] as the archive shipped it.
    If there is no such entry the error is ignored and only the
    control file has changed; if it is a directory it is removed with
    all it holds; if it is a regular file the handler re-raises
    [NotADirectoryError], after the control file was written. *)
Theorem X6_edit_without_changelog w V control control' pkg :
  let kd := resolve w (s2l "debian") in
  let kctl := resolve w (s2l "DEBIAN/control") in
  w_fs w !! kctl = Some (File control) ->
  package_name_of control = Some pkg ->
  set_version V control = Re.Ret control' ->
  first_candidate w pkg changelog_names = None ->
  (w_fs w !! kd = None ->
   exists w', edit V w = (Val tt, w') /\ w_out w' = w_out w
              /\ w_fs w' = <[kctl := File control']> (w_fs w))
  /\ (w_fs w !! kd = Some Dir ->
      exists w', edit V w = (Val tt, w') /\ w_out w' = w_out w
                 /\ w_fs w' = remove_tree kd
                                (<[kctl := File control']> (w_fs w)))
  /\ (forall c, w_fs w !! kd = Some (File c) ->
      exists w', edit V w = (Exc (NotADirectoryError kd), w')
                 /\ w_out w' = w_out w
                 /\ w_fs w' = <[kctl := File control']> (w_fs w)).
Proof.
  intros kd kctl Hctl Hpkg Hver Hfirst.
  destruct (edit_no_changelog w V control control' pkg Hctl Hpkg Hver Hfirst)
    as (w' & Hw & Hout & H).
  fold kd kctl in H.
  split; [|split].
  - intros Hd. rewrite Hd in H. destruct H as [Ho Hfs].
    exists w'. split; [|auto]. rewrite <- Hw, <- Ho. apply surjective_pairing.
  - intros Hd. rewrite Hd in H. destruct H as [Ho Hfs].
    exists w'. split; [|auto]. rewrite <- Hw, <- Ho. apply surjective_pairing.
  - intros c Hd. rewrite Hd in H. destruct H as [Ho Hfs].
    exists w'. split; [|auto]. rewrite <- Hw, <- Ho. apply surjective_pairing.
Qed.

(** X8.  However the editing step ends, it stays in the working
    directory and reads, writes and names only the control file, the
    manifest, the two changelog candidates of the package the control
    file names, and the scratch directory with what is in it; every
    other path holds what it held. *)
Theorem X8_edit_footprint w V control pkg :
  w_fs w !! resolve w (s2l "DEBIAN/control") = Some (File control) ->
  package_name_of control = Some pkg ->
  let w' := (edit V w).2 in
  let T := edit_footprint (w_cwd w) pkg in
  w_cwd w' = w_cwd w
  /\ (forall k, ~ T k -> w_fs w' !! k = w_fs w !! k)
  /\ exists new, w_log w' = new ++ w_log w /\ Forall (touches T) new.
Proof.
  intros Hctl Hpkg w' T.
  destruct (edit_stays_in_footprint w V control pkg Hctl Hpkg)
    as [Hc Hf _ Hl].
  split; [exact Hc|]. split; [exact Hf|exact Hl].
Qed.

End Tools.

End UpdaterFacts.

(* ================================================================== *)
(** * How a run ends *)
(* ================================================================== *)

Module ExitFacts.
Import Script Posix PosixFacts WorldFacts RunFacts ChangelogFacts UpdaterFacts.

Lemma raises_finally {A} P (m : M A) cleanup :
  raises_only P m -> raises_only P (finally m cleanup).
Proof.
  intros Hm w e. unfold finally. specialize (Hm w e).
  destruct (m w) as [o w1]. exact Hm.
Qed.

Lemma raises_with_chdir {A} P d (body : M A) :
  raises_only P body -> raises_only P (with_chdir d body).
Proof.
  intros Hb w e. unfold with_chdir, finally, bind, chdir.
  specialize (Hb (set_cwd (resolve w d) (record (EvChdir (resolve w d)) w)) e).
  destruct (body _) as [o w1]. exact Hb.
Qed.

Section Tools.

Variable tmpdir : text.
Variable dpkg_extract : option node -> nat * list (text * node).
Variable dpkg_control : option node -> nat * list (text * node).
Variable dpkg_build : gmap text node -> text -> nat * option text.
Variable dch :
  list text -> list (text * text) -> option node -> nat * option text.
Variable gunzip : text -> option text.
Variable gzip : text -> text.
Variable md5_hex : text -> text.
Variable str_exn : exn -> text.
Variable os_rename : text -> text -> bool.
Variable copy2 : text -> text -> copy_result.

Local Abbreviation edit := (Script.edit dch gunzip gzip md5_hex str_exn).
Local Abbreviation main :=
  (Script.main tmpdir dpkg_extract dpkg_control dpkg_build dch gunzip gzip
     md5_hex str_exn os_rename copy2).
Local Abbreviation pd := (tmpdir ++ sep :: s2l "package").
Local Abbreviation built_deb := (tmpdir ++ sep :: s2l "package.deb").

(** The two [with] blocks raise no [SystemExit]. *)
Lemma raises_staging deb V :
  raises_only not_exit
    (with_temporary_directory tmpdir (fun tmpdir =>
       let package_dir := Posix.join tmpdir (s2l "package") in
       mkdir package_dir ;;;
       with_chdir package_dir
         (extract dpkg_extract dpkg_control deb ;;;
          edit V ;;;
          repack dpkg_build os_rename copy2 deb))).
Proof.
  unfold with_temporary_directory. apply raises_finally.
  apply raises_bind; [intros w e H; discriminate|intros _].
  cbv zeta. apply raises_bind; [apply raises_mkdir|intros _].
  apply raises_with_chdir. apply raises_body.
Qed.

(** How a run can end. *)
Lemma main_outcome argv w0 :
  (main argv w0).1 <> Val tt
  /\ forall code,
       (main argv w0).1 = Exc (SystemExit code) ->
       (code = 77 /\ w_euid w0 <> 0) \/ (code = 0 /\ w_euid w0 = 0).
Proof.
  destruct (argv !! 2) as [V|] eqn:E2.
  2:{ rewrite (main_short_argv tmpdir) by assumption.
      split; [discriminate|]. intros code H. discriminate H. }
  destruct argv as [|prog [|arg1 [|V' rest]]]; try discriminate.
  injection E2 as ->.
  destruct (Nat.eq_dec (w_euid w0) 0) as [He|He].
  2:{ rewrite (main_not_root tmpdir) by assumption. cbn [fst].
      split; [discriminate|]. intros code H.
      change (@Exc unit (SystemExit 77) = Exc (SystemExit code)) in H.
      injection H as <-. auto. }
  assert (Hm : main (prog :: arg1 :: V :: rest) w0 =
    (with_temporary_directory tmpdir (fun tmpdir =>
       let package_dir := Posix.join tmpdir (s2l "package") in
       mkdir package_dir ;;;
       with_chdir package_dir
         (extract dpkg_extract dpkg_control (abspath (w_cwd w0) arg1) ;;;
          edit V ;;;
          repack dpkg_build os_rename copy2 (abspath (w_cwd w0) arg1))) ;;;
     raise (SystemExit 0)) w0).
  { unfold Script.main, argv_get.
    cbn [lookup list_lookup]. unfold bind at 1. cbn [ret].
    unfold bind at 1. unfold Script.abspath at 1. cbn [get].
    unfold bind at 1. cbn [ret]. unfold bind at 1. unfold geteuid, get.
    rewrite He. reflexivity. }
  rewrite Hm.
  pose proof (raises_staging (abspath (w_cwd w0) arg1) V w0) as Hr.
  match goal with
  | |- context [bind ?m _ w0] => set (inner := m) in *
  end.
  unfold bind. destruct (inner w0) as [[[]|e|] w1]; cbn [fst raise] in *.
  - split; [discriminate|]. intros code H. injection H as <-. auto.
  - specialize (Hr e eq_refl). split; [discriminate|].
    intros code H. injection H as ->. contradiction.
  - split; [discriminate|]. intros code H. discriminate H.
Qed.

(** X9.  The exit statuses of the script.  [main] never returns
    normally.  When a run ends with an exception, the status of the
    process is 0, 77 or 1: it is 0 only for [SystemExit(0)], which
    needs effective user id 0; it is 77 only for [SystemExit(77)],
    which needs an effective user id other than 0; every other
    exception is uncaught and gives status 1. *)
Theorem X9_exit_statuses argv w0 :
  (main argv w0).1 <> Val tt
  /\ forall e,
       (main argv w0).1 = Exc e ->
       (e = SystemExit 0 /\ exit_status e = 0 /\ w_euid w0 = 0)
       \/ (e = SystemExit 77 /\ exit_status e = 77 /\ w_euid w0 <> 0)
       \/ (not_exit e /\ exit_status e = 1).
Proof.
  destruct (main_outcome argv w0) as [Hv Hc]. split; [exact Hv|].
  intros e He. destruct e as [code| | | | | | | | | | | |];
    try (right; right; split; [exact I|reflexivity]).
  destruct (Hc code He) as [[-> Hu]|[-> Hu]]; auto.
Qed.

(** X10.  However a run as root ends, with status 0 or with any
    exception of any step, the two [with] blocks have been left: the
    working directory is the one the run started in, and nothing is
    left at or under the temporary directory. *)
Theorem X10_cleanup_on_every_path prog arg1 V rest w0 :
  plain_dir tmpdir -> w_euid w0 = 0 ->
  let w' := (main (prog :: arg1 :: V :: rest) w0).2 in
  w_cwd w' = w_cwd w0
  /\ (forall k, inside tmpdir k -> w_fs w' !! k = None).
Proof.
  intros Hp He. cbv zeta.
  destruct (w_fs w0 !! pd) as [n|] eqn:Epd.
  - rewrite (main_root_exists tmpdir dpkg_extract dpkg_control dpkg_build dch
               gunzip gzip md5_hex str_exn os_rename copy2 Hp _ _ _ _ _ n)
      by assumption.
    cbn [snd w_cwd w_fs w_log set_fs record]. split; [reflexivity|].
    intros k Hk. apply lookup_remove_tree_inside. exact Hk.
  - rewrite (main_root tmpdir) by assumption. cbv zeta.
    match goal with
    | |- context [let '(o, w) := ?b in _] => destruct b as [o w] eqn:Eb
    end.
    cbn [snd]. unfold leave. cbn [w_cwd w_fs w_log set_fs set_cwd record].
    split; [reflexivity|].
    intros k Hk. apply lookup_remove_tree_inside. exact Hk.
Qed.


(** What a successful [repack] changes outside the staging tree: the
    archive only. *)
Lemma repack_frame deb w3 w :
  plain_dir tmpdir ->
  w_cwd w3 = pd -> isabs deb = true -> ~ inside tmpdir deb ->
  w_fs w3 !! deb <> Some Dir ->
  repack dpkg_build os_rename copy2 deb w3 = (Val tt, w) ->
  forall k : text, ~ inside tmpdir k -> k <> deb ->
                   w_fs w !! k = w_fs w3 !! k.
Proof.
  intros Hp Hc Ha Hout Hnd. unfold repack, chdir_parent, run_build.
  unfold bind at 1. rewrite Hc, (package_dir_parent tmpdir Hp).
  unfold bind at 1. unfold check_call, resolve.
  cbn [set_cwd record w_cwd w_fs set_fs].
  rewrite (package_dir_eq tmpdir Hp), (built_deb_eq tmpdir Hp).
  destruct (dpkg_build (w_fs w3) pd) as [code built] eqn:Eb.
  assert (Hne : built_deb <> deb).
  { intros <-. apply Hout, inside_built_deb. }
  destruct (code =? 0) eqn:Ecode; [|discriminate].
  match goal with
  | |- move _ _ _ _ ?x = _ -> _ => set (w4 := x)
  end.
  assert (Hb : forall k' : text, ~ inside tmpdir k' ->
            w_fs w4 !! k' = w_fs w3 !! k').
  { intros k' Hk'. unfold w4. cbn [w_fs set_fs record set_cwd].
    destruct built as [c|]; [|reflexivity].
    apply lookup_insert_ne. intros <-. apply Hk', inside_built_deb. }
  intros Hm k Hk Hkd.
  pose proof (move_post os_rename copy2 (s2l "package.deb") deb w4
                (Val tt) w) as Hmp.
  cbv zeta in Hmp. unfold resolve in Hmp.
  assert (Hcwd4 : w_cwd w4 = tmpdir) by reflexivity.
  rewrite Hcwd4, (built_deb_eq tmpdir Hp), (join_abs _ deb Ha) in Hmp.
  destruct (Hmp Hne Hm) as (_ & Hfr & _).
  rewrite Hfr; [apply Hb; assumption|rewrite Hb; assumption| |assumption].
  intros ->. apply Hk, inside_built_deb.
Qed.

(** X11.  A run that ends with status 0 has changed nothing but the
    archive: every path outside the temporary directory, other than
    the absolute path of the archive, holds what it held before the
    run.  The archive is taken not to lie in the fresh temporary
    directory and not to be a directory. *)
Theorem X11_success_changes_archive_only prog arg1 V rest w0 w' :
  let deb := abspath (w_cwd w0) arg1 in
  plain_dir tmpdir -> isabs (w_cwd w0) = true ->
  ~ inside tmpdir deb -> w_fs w0 !! deb <> Some Dir ->
  main (prog :: arg1 :: V :: rest) w0 = (Exc (SystemExit 0), w') ->
  forall k : text, ~ inside tmpdir k -> k <> deb ->
                   w_fs w' !! k = w_fs w0 !! k.
Proof.
  intros deb Hp Hcwd Hout Hnd Hrun k Hk Hkd.
  destruct (Nat.eq_dec (w_euid w0) 0) as [He|He].
  2:{ rewrite (main_not_root tmpdir) in Hrun by assumption. discriminate. }
  destruct (w_fs w0 !! pd) as [n|] eqn:Epd.
  { rewrite (main_root_exists tmpdir dpkg_extract dpkg_control dpkg_build dch
               gunzip gzip md5_hex str_exn os_rename copy2 Hp _ _ _ _ _ n)
      in Hrun
      by assumption.
    discriminate. }
  rewrite (main_root tmpdir) in Hrun by assumption. cbv zeta in Hrun.
  fold deb in Hrun.
  pose proof (raises_body dpkg_extract dpkg_control dpkg_build dch gunzip
                gzip md5_hex str_exn os_rename copy2 deb V
                (staged tmpdir w0)) as Hne.
  pose proof (preserves_stage tmpdir dpkg_extract dpkg_control dch gunzip
                gzip md5_hex str_exn Hp deb V (staged tmpdir w0)
                (staged tmpdir w0)) as Hst.
  assert (Hassoc :
    (extract dpkg_extract dpkg_control deb ;;;
     edit V ;;; repack dpkg_build os_rename copy2 deb) (staged tmpdir w0) =
    ((extract dpkg_extract dpkg_control deb ;;; edit V) ;;;
     repack dpkg_build os_rename copy2 deb) (staged tmpdir w0)).
  { unfold bind.
    destruct (extract dpkg_extract dpkg_control deb (staged tmpdir w0))
      as [[[]|e|] w2]; reflexivity. }
  rewrite Hassoc in Hrun, Hne. clear Hassoc.
  unfold bind at 1 in Hrun. unfold bind at 1 in Hne.
  destruct ((extract dpkg_extract dpkg_control deb ;;; edit V)
              (staged tmpdir w0)) as [[[]|e|] w3] eqn:Est;
    cbn [snd] in Hst.
  - assert (Hi : inv (under pd) pd (staged tmpdir w0) w3).
    { apply Hst. apply inv_refl. unfold staged.
      rewrite (package_dir_eq tmpdir Hp). reflexivity. }
    destruct (repack dpkg_build os_rename copy2 deb w3) as [o w] eqn:Er.
    injection Hrun as Ho <-.
    destruct o as [[]|e|]; cbn [conclude fst] in *.
    + unfold leave. cbn [w_fs set_fs record set_cwd].
      rewrite lookup_remove_tree;
        [|intros ->; apply Hk; left; reflexivity
         |intros Hu; apply Hk; right; exact Hu].
      pose proof (frame_staged tmpdir Hp w0 w3 Hi) as Hf.
      rewrite (repack_frame deb w3 w Hp (inv_cwd _ _ _ _ Hi)
                 (isabs_abspath _ arg1 Hcwd) Hout) by
        (first [assumption | rewrite (Hf deb Hout); assumption]).
      apply Hf. assumption.
    + injection Ho as ->. specialize (Hne _ eq_refl). contradiction.
    + discriminate Ho.
  - cbn [conclude] in Hrun. injection Hrun as Ho _. subst e.
    specialize (Hne _ eq_refl). contradiction.
  - cbn [conclude] in Hrun. discriminate Hrun.
Qed.


(** A failing [dpkg-deb --extract] or [dpkg-deb --control] ends the
    run before the next step is begun. *)
Lemma main_extract_fails prog arg1 V rest w0 code entries :
  let deb := abspath (w_cwd w0) arg1 in
  let cmd := [s2l "dpkg-deb"; s2l "--extract"; deb; s2l "."] in
  plain_dir tmpdir -> w_euid w0 = 0 -> w_fs w0 !! pd = None ->
  ~ inside tmpdir deb ->
  dpkg_extract (w_fs w0 !! deb) = (code, entries) -> code <> 0 ->
  main (prog :: arg1 :: V :: rest) w0
  = (Exc (CalledProcessError code cmd),
     leave tmpdir (w_cwd w0)
       (set_fs (place pd entries) (record (EvRun cmd) (staged tmpdir w0)))).
Proof.
  intros deb cmd Hp He Hpd Hout Hex Hcode.
  rewrite (main_root tmpdir) by assumption. cbv zeta. fold deb.
  unfold bind at 1. unfold extract. unfold bind at 1.
  unfold run_extract, check_call.
  rewrite (staged_fs tmpdir Hp w0 deb Hout), Hex.
  assert (w_cwd (staged tmpdir w0) = pd) as ->
    by (unfold staged; rewrite (package_dir_eq tmpdir Hp); reflexivity).
  destruct (code =? 0) eqn:E; [apply Nat.eqb_eq in E; contradiction|].
  reflexivity.
Qed.

Lemma main_control_fails prog arg1 V rest w0 entries code entries' :
  let deb := abspath (w_cwd w0) arg1 in
  let cmd1 := [s2l "dpkg-deb"; s2l "--extract"; deb; s2l "."] in
  let cmd2 := [s2l "dpkg-deb"; s2l "--control"; deb; s2l "DEBIAN"] in
  plain_dir tmpdir -> w_euid w0 = 0 -> w_fs w0 !! pd = None ->
  ~ inside tmpdir deb ->
  dpkg_extract (w_fs w0 !! deb) = (0, entries) ->
  dpkg_control (w_fs w0 !! deb) = (code, entries') -> code <> 0 ->
  main (prog :: arg1 :: V :: rest) w0
  = (Exc (CalledProcessError code cmd2),
     leave tmpdir (w_cwd w0)
       (set_fs (place (pd ++ sep :: s2l "DEBIAN") entries')
          (record (EvRun cmd2)
             (set_fs (place pd entries)
                (record (EvRun cmd1) (staged tmpdir w0)))))).
Proof.
  intros deb cmd1 cmd2 Hp He Hpd Hout Hex Hctl Hcode.
  rewrite (main_root tmpdir) by assumption. cbv zeta. fold deb.
  unfold bind at 1. unfold extract. unfold bind at 1.
  unfold run_extract at 1. unfold check_call at 1.
  rewrite (staged_fs tmpdir Hp w0 deb Hout), Hex.
  assert (Hc : w_cwd (staged tmpdir w0) = pd)
    by (unfold staged; rewrite (package_dir_eq tmpdir Hp); reflexivity).
  rewrite Hc. cbn [Nat.eqb].
  unfold run_control, check_call, resolve.
  cbn [w_fs w_cwd set_fs record]. rewrite Hc.
  rewrite lookup_place
    by (intros Hu; apply Hout; right;
        apply (under_package_dir tmpdir); exact Hu).
  rewrite (staged_fs tmpdir Hp w0 deb Hout), Hctl.
  rewrite (join_rel pd (s2l "DEBIAN"))
    by (first [apply (package_dir_plain tmpdir Hp) | reflexivity]).
  destruct (code =? 0) eqn:E; [apply Nat.eqb_eq in E; contradiction|].
  reflexivity.
Qed.

(** X12.  The two extraction commands are checked calls outside any
    [try]: when [dpkg-deb --extract] exits with a non-zero status the
    run ends with [CalledProcessError] for that command and status,
    and [dpkg-deb --control] is not run; when the first succeeds and
    [dpkg-deb --control] exits non-zero, the run ends with
    [CalledProcessError] for the second command.  In both cases the
    two [with] blocks are left and no later step is begun. *)
Theorem X12_tool_failure_stops_run prog arg1 V rest w0 :
  let deb := abspath (w_cwd w0) arg1 in
  let cmd1 := [s2l "dpkg-deb"; s2l "--extract"; deb; s2l "."] in
  let cmd2 := [s2l "dpkg-deb"; s2l "--control"; deb; s2l "DEBIAN"] in
  plain_dir tmpdir -> w_euid w0 = 0 -> w_fs w0 !! pd = None ->
  ~ inside tmpdir deb ->
  (forall code entries,
     dpkg_extract (w_fs w0 !! deb) = (code, entries) -> code <> 0 ->
     main (prog :: arg1 :: V :: rest) w0
     = (Exc (CalledProcessError code cmd1),
        leave tmpdir (w_cwd w0)
          (set_fs (place pd entries)
             (record (EvRun cmd1) (staged tmpdir w0)))))
  /\ (forall entries code entries',
        dpkg_extract (w_fs w0 !! deb) = (0, entries) ->
        dpkg_control (w_fs w0 !! deb) = (code, entries') -> code <> 0 ->
        main (prog :: arg1 :: V :: rest) w0
        = (Exc (CalledProcessError code cmd2),
           leave tmpdir (w_cwd w0)
             (set_fs (place (pd ++ sep :: s2l "DEBIAN") entries')
                (record (EvRun cmd2)
                   (set_fs (place pd entries)
                      (record (EvRun cmd1) (staged tmpdir w0))))))).
Proof.
  intros deb cmd1 cmd2 Hp He Hpd Hout. split.
  - intros code entries Hex Hcode.
    apply main_extract_fails; assumption.
  - intros entries code entries' Hex Hctl Hcode.
    apply main_control_fails; assumption.
Qed.

End Tools.

End ExitFacts.

(* ================================================================== *)
(** * The two patterns of the control file *)
(* ================================================================== *)

Module NameFacts.
Import Re Lines ReFacts Script ControlFacts.

Lemma first_capture_rewrite V ls :
  first_capture (s2l "Package: ") (map (rewrite_version_line V) ls)
  = first_capture (s2l "Package: ") ls.
Proof.
  induction ls as [|l ls IH]; [reflexivity|].
  cbn [map first_capture]. rewrite IH.
  unfold rewrite_version_line, rewrite_line, begins_with.
  destruct (after_prefix (s2l "Version: ") l) as [x|] eqn:E; [|reflexivity].
  apply after_prefix_Some in E. subst l. reflexivity.
Qed.

(** X13.  The two patterns of the control file do not interfere:
    for a version without backslash and line feed, the package name
    that [PACKAGE_RE] finds in the rewritten control text is the one
    it found in the original, so the control file written names the
    package whose changelog was looked for. *)
Theorem X13_package_name_kept V control control' :
  ~ In backslash V -> one_line V ->
  set_version V control = Ret control' ->
  package_name_of control' = package_name_of control.
Proof.
  intros Hb HV Hset. rewrite set_version_lines in Hset by assumption.
  injection Hset as <-. rewrite !package_name_lines.
  rewrite lines_rewrite by assumption. apply first_capture_rewrite.
Qed.

End NameFacts.

(* ================================================================== *)
(** * More runs in the small world *)
(* ================================================================== *)

Module UpdaterRuns.
Import Script Posix PosixFacts WorldFacts RunFacts ChangelogFacts Lines.
Import Manifest Footprint UpdaterFacts.

Local Abbreviation foo := (s2l "foo").
Local Abbreviation foo_gz := (changelog_path (s2l "foo") (s2l "changelog.gz")).
Local Abbreviation old_gz := (s2l "GZ:pkg (1.0) stable; urgency=low").
Local Abbreviation old_plain := (s2l "pkg (1.0) stable; urgency=low").
Local Abbreviation new_plain :=
  (s2l "pkg (2.0) " ++ dch_message ++ newline :: old_plain).
Local Abbreviation k_debian := (s2l "/tmp/tmpq1/package/debian").
Local Abbreviation k_changelog := (s2l "/tmp/tmpq1/package/debian/changelog").
Local Abbreviation k_gz :=
  (s2l "/tmp/tmpq1/package/usr/share/doc/foo/changelog.gz").
Local Abbreviation k_md5sums := (s2l "/tmp/tmpq1/package/DEBIAN/md5sums").
Local Abbreviation k_control := (s2l "/tmp/tmpq1/package/DEBIAN/control").
Local Abbreviation new_manifest :=
  (rewrite_entries (Demo.md5_hex (Demo.gzip new_plain)) foo_gz
     (Demo.manifest_of foo)).
Local Abbreviation new_control :=
  (unlines [s2l "Package: foo"; s2l "Version: 2.0";
            s2l "Architecture: all"; []]).

Lemma X3_updater_success_witness :
  let w := Demo.extracted foo in
  exists w',
    _update_changelog_file (Demo.dch true) Demo.gunzip Demo.gzip Demo.md5_hex
      foo_gz (s2l "2.0") w = (Val tt, w')
    /\ w_cwd w' = w_cwd w /\ w_out w' = w_out w
    /\ w_fs w' = <[k_md5sums := File new_manifest]>
                   (<[k_gz := File (Demo.gzip new_plain)]>
                      (<[k_changelog := File new_plain]>
                         (<[k_debian := Dir]> (w_fs w)))).
Proof.
  cbv zeta.
  apply (X3_updater_success (Demo.dch true) Demo.gunzip Demo.gzip Demo.md5_hex
           (Demo.extracted foo) foo (s2l "changelog.gz") (s2l "2.0")
           old_gz old_plain (Some new_plain) (Demo.manifest_of foo)
           new_manifest); vm_compute; reflexivity.
Defined.

Lemma X4_edit_success_witness :
  let w := Demo.extracted foo in
  exists w',
    Demo.edit true (s2l "2.0") w = (Val tt, w')
    /\ w_out w' = w_out w
    /\ w_fs w' !! k_control = Some (File new_control)
    /\ w_fs w' !! k_gz = Some (File (Demo.gzip new_plain))
    /\ w_fs w' !! k_md5sums = Some (File new_manifest)
    /\ (forall k, inside k_debian k -> w_fs w' !! k = None)
    /\ (forall k, ~ inside k_debian k ->
                  k <> k_control -> k <> k_gz -> k <> k_md5sums ->
                  w_fs w' !! k = w_fs w !! k).
Proof.
  cbv zeta.
  apply (X4_edit_success (Demo.dch true) Demo.gunzip Demo.gzip Demo.md5_hex
           Demo.str_exn
           (Demo.extracted foo) (s2l "2.0") (Demo.control_of foo) new_control
           foo (s2l "changelog.gz")
           old_gz old_plain (Some new_plain) (Demo.manifest_of foo)
           new_manifest); vm_compute; reflexivity.
Defined.

(** Three worlds in which the updater fails: [debian] shipped in the
    archive, a changelog that is not gzip data, no manifest. *)
Local Abbreviation with_debian :=
  (set_fs <[k_debian := Dir]> (Demo.extracted foo)).
Local Abbreviation with_bad_gzip :=
  (set_fs <[k_gz := File (s2l "plain text")]> (Demo.extracted foo)).
Local Abbreviation without_manifest :=
  (set_fs (delete k_md5sums) (Demo.extracted foo)).

Lemma X5_updater_failures_fatal_witness :
  (exists w', Demo.edit true (s2l "2.0") with_debian
              = (Exc (FileExistsError k_debian), w')
              /\ w_out w' = w_out with_debian
              /\ w_fs w' = w_fs with_debian)
  /\ (exists w', Demo.edit true (s2l "2.0") with_bad_gzip
                 = (Exc BadGzipFile, w')
                 /\ w_out w' = w_out with_bad_gzip
                 /\ w_fs w' = <[k_changelog := File []]>
                                (<[k_debian := Dir]> (w_fs with_bad_gzip)))
  /\ (exists w', Demo.edit true (s2l "2.0") without_manifest
                 = (Exc (FileNotFoundError k_md5sums), w')
                 /\ w_out w' = w_out without_manifest
                 /\ w_fs w' = <[k_gz := File (Demo.gzip new_plain)]>
                                (<[k_changelog := File new_plain]>
                                   (<[k_debian := Dir]>
                                      (w_fs without_manifest)))).
Proof.
  split; [|split].
  - destruct (X5_updater_failures_fatal Demo.tmpdir
                (Demo.dpkg_extract foo) (Demo.dpkg_control foo)
                Demo.dpkg_build (Demo.dch true) Demo.gunzip Demo.gzip
                Demo.md5_hex Demo.str_exn Demo.os_rename Demo.copy2
                with_debian (s2l "2.0") (Demo.control_of foo) new_control
                foo (s2l "changelog.gz") old_gz) as (H & _);
      try (vm_compute; reflexivity).
    apply (H Dir). vm_compute. reflexivity.
  - destruct (X5_updater_failures_fatal Demo.tmpdir
                (Demo.dpkg_extract foo) (Demo.dpkg_control foo)
                Demo.dpkg_build (Demo.dch true) Demo.gunzip Demo.gzip
                Demo.md5_hex Demo.str_exn Demo.os_rename Demo.copy2
                with_bad_gzip (s2l "2.0") (Demo.control_of foo) new_control
                foo (s2l "changelog.gz") (s2l "plain text")) as (_ & H & _);
      try (vm_compute; reflexivity).
    apply H; vm_compute; reflexivity.
  - destruct (X5_updater_failures_fatal Demo.tmpdir
                (Demo.dpkg_extract foo) (Demo.dpkg_control foo)
                Demo.dpkg_build (Demo.dch true) Demo.gunzip Demo.gzip
                Demo.md5_hex Demo.str_exn Demo.os_rename Demo.copy2
                without_manifest (s2l "2.0") (Demo.control_of foo) new_control
                foo (s2l "changelog.gz") old_gz) as (_ & _ & H & _);
      try (vm_compute; reflexivity).
    apply (H old_plain (Some new_plain)); vm_compute; reflexivity.
Defined.

(** Three worlds without a changelog: nothing at [debian], a
    directory [debian] with a file in it, a regular file [debian]. *)
Local Abbreviation bare :=
  (set_fs (delete k_gz) (Demo.extracted foo)).
Local Abbreviation bare_with_dir :=
  (set_fs (fun fs => <[k_debian ++ s2l "/rules" := File (s2l "#!/usr/bin/make -f")]>
                       (<[k_debian := Dir]> fs)) bare).
Local Abbreviation bare_with_file :=
  (set_fs <[k_debian := File (s2l "x")]> bare).

Lemma X6_edit_without_changelog_witness :
  (exists w', Demo.edit true (s2l "2.0") bare = (Val tt, w')
              /\ w_out w' = w_out bare
              /\ w_fs w' = <[k_control := File new_control]> (w_fs bare))
  /\ (exists w', Demo.edit true (s2l "2.0") bare_with_dir = (Val tt, w')
                 /\ w_out w' = w_out bare_with_dir
                 /\ w_fs w' = remove_tree k_debian
                                (<[k_control := File new_control]>
                                   (w_fs bare_with_dir)))
  /\ (exists w', Demo.edit true (s2l "2.0") bare_with_file
                 = (Exc (NotADirectoryError k_debian), w')
                 /\ w_out w' = w_out bare_with_file
                 /\ w_fs w' = <[k_control := File new_control]>
                                (w_fs bare_with_file)).
Proof.
  split; [|split].
  - destruct (X6_edit_without_changelog (Demo.dch true) Demo.gunzip Demo.gzip
                Demo.md5_hex Demo.str_exn
                bare (s2l "2.0") (Demo.control_of foo) new_control foo)
      as (H & _); try (vm_compute; reflexivity).
    apply H. vm_compute. reflexivity.
  - destruct (X6_edit_without_changelog (Demo.dch true) Demo.gunzip Demo.gzip
                Demo.md5_hex Demo.str_exn
                bare_with_dir (s2l "2.0") (Demo.control_of foo) new_control foo)
      as (_ & H & _); try (vm_compute; reflexivity).
    apply H. vm_compute. reflexivity.
  - destruct (X6_edit_without_changelog (Demo.dch true) Demo.gunzip Demo.gzip
                Demo.md5_hex Demo.str_exn
                bare_with_file (s2l "2.0") (Demo.control_of foo) new_control foo)
      as (_ & _ & H); try (vm_compute; reflexivity).
    apply (H (s2l "x")). vm_compute. reflexivity.
Defined.

Lemma X7_scratch_directory_removed_witness :
  let w := Demo.extracted foo in
  let w' := (Demo.edit true (s2l "2.0") w).2 in
  (w_fs w !! k_debian = None
   /\ forall k, under k_debian k -> w_fs w !! k = None)
  /\ forall k, inside k_debian k -> w_fs w' !! k = None.
Proof.
  cbv zeta.
  assert (Hfree : forall k, under k_debian k ->
                            w_fs (Demo.extracted foo) !! k = None).
  { intros k Hu. destruct (w_fs (Demo.extracted foo) !! k) as [n|] eqn:E;
      [exfalso|reflexivity].
    revert k n E Hu.
    change (map_Forall (fun k (_ : node) => ~ under k_debian k)
              (w_fs (Demo.extracted foo))).
    refine (@bool_decide_unpack _ (map_Forall_dec _ _) _).
    vm_compute. exact I. }
  split; [split; [vm_compute; reflexivity|exact Hfree]|].
  apply (X7_scratch_directory_removed (Demo.dch true) Demo.gunzip Demo.gzip
           Demo.md5_hex Demo.str_exn (Demo.extracted foo) (s2l "2.0")).
  - intros _. exact Hfree.
  - vm_compute. reflexivity.
Defined.

Lemma X8_edit_footprint_witness :
  let w := Demo.extracted foo in
  let w' := (Demo.edit true (s2l "2.0") w).2 in
  let T := edit_footprint (w_cwd w) foo in
  w_cwd w' = w_cwd w
  /\ (forall k, ~ T k -> w_fs w' !! k = w_fs w !! k)
  /\ exists new, w_log w' = new ++ w_log w /\ Forall (touches T) new.
Proof.
  cbv zeta.
  apply (X8_edit_footprint (Demo.dch true) Demo.gunzip Demo.gzip
           Demo.md5_hex Demo.str_exn (Demo.extracted foo) (s2l "2.0")
           (Demo.control_of foo) foo); vm_compute; reflexivity.
Defined.

End UpdaterRuns.

Module ExitRuns.
Import Script Posix PosixFacts WorldFacts RunFacts ChangelogFacts Lines.
Import ExitFacts NameFacts.

Local Abbreviation foo := (s2l "foo").
Local Abbreviation the_deb :=
  (abspath (w_cwd (Demo.world0 0)) (s2l "foo_1.0.deb")).

(** A run that ends with status 0, and a run that ends with
    [RuntimeError] because the control file names no package. *)
Lemma X10_cleanup_on_every_path_witness :
  let good := Demo.main foo true Demo.argv0 (Demo.world0 0) in
  let bad := Demo.main [] true Demo.argv0 (Demo.world0 0) in
  (good.1 = Exc (SystemExit 0)
   /\ w_cwd good.2 = w_cwd (Demo.world0 0)
   /\ forall k, inside Demo.tmpdir k -> w_fs good.2 !! k = None)
  /\ (bad.1 = Exc (RuntimeError no_package_message)
      /\ w_cwd bad.2 = w_cwd (Demo.world0 0)
      /\ forall k, inside Demo.tmpdir k -> w_fs bad.2 !! k = None).
Proof.
  cbv zeta. split.
  - split; [vm_compute; reflexivity|].
    apply (X10_cleanup_on_every_path Demo.tmpdir
             (Demo.dpkg_extract foo) (Demo.dpkg_control foo) Demo.dpkg_build
             (Demo.dch true) Demo.gunzip Demo.gzip Demo.md5_hex Demo.str_exn
             Demo.os_rename Demo.copy2
             (s2l "deb_reversion.py") (s2l "foo_1.0.deb") (s2l "2.0") []
             (Demo.world0 0) demo_tmpdir_plain).
    reflexivity.
  - split; [vm_compute; reflexivity|].
    apply (X10_cleanup_on_every_path Demo.tmpdir
             (Demo.dpkg_extract []) (Demo.dpkg_control []) Demo.dpkg_build
             (Demo.dch true) Demo.gunzip Demo.gzip Demo.md5_hex Demo.str_exn
             Demo.os_rename Demo.copy2
             (s2l "deb_reversion.py") (s2l "foo_1.0.deb") (s2l "2.0") []
             (Demo.world0 0) demo_tmpdir_plain).
    reflexivity.
Defined.

Lemma X11_success_changes_archive_only_witness :
  let run := Demo.main foo true Demo.argv0 (Demo.world0 0) in
  run.1 = Exc (SystemExit 0)
  /\ forall k : text, ~ inside Demo.tmpdir k -> k <> the_deb ->
                      w_fs run.2 !! k = w_fs (Demo.world0 0) !! k.
Proof.
  cbv zeta. split; [vm_compute; reflexivity|].
  apply (X11_success_changes_archive_only Demo.tmpdir
           (Demo.dpkg_extract foo) (Demo.dpkg_control foo) Demo.dpkg_build
           (Demo.dch true) Demo.gunzip Demo.gzip Demo.md5_hex Demo.str_exn
           Demo.os_rename Demo.copy2
           (s2l "deb_reversion.py") (s2l "foo_1.0.deb") (s2l "2.0") []
           (Demo.world0 0) _ demo_tmpdir_plain).
  - reflexivity.
  - exact demo_deb_outside.
  - vm_compute. discriminate.
  - vm_compute. reflexivity.
Defined.

(** A run on a path that holds no archive, and a run in which the
    control tool fails after a successful extraction. *)
Local Abbreviation no_archive :=
  (set_fs (delete Demo.deb_path) (Demo.world0 0)).
Local Abbreviation failing_control :=
  (fun _ : option node => (2, @nil (text * node))).
Local Abbreviation extract_cmd :=
  [s2l "dpkg-deb"; s2l "--extract"; the_deb; s2l "."].
Local Abbreviation control_cmd :=
  [s2l "dpkg-deb"; s2l "--control"; the_deb; s2l "DEBIAN"].

Lemma X12_tool_failure_stops_run_witness :
  let run1 := Demo.main foo true Demo.argv0 no_archive in
  let run2 :=
    Script.main Demo.tmpdir (Demo.dpkg_extract foo) failing_control
      Demo.dpkg_build (Demo.dch true) Demo.gunzip Demo.gzip Demo.md5_hex
      Demo.str_exn Demo.os_rename Demo.copy2 Demo.argv0 (Demo.world0 0) in
  (run1.1 = Exc (CalledProcessError 2 extract_cmd)
   /\ w_log run1.2
      = [EvCleanup Demo.tmpdir; EvChdir (s2l "/home/ci/work");
         EvRun extract_cmd;
         EvChdir (s2l "/tmp/tmpq1/package");
         EvMkdir (s2l "/tmp/tmpq1/package"); EvMkdtemp Demo.tmpdir])
  /\ (run2.1 = Exc (CalledProcessError 2 control_cmd)
      /\ w_log run2.2
         = [EvCleanup Demo.tmpdir; EvChdir (s2l "/home/ci/work");
            EvRun control_cmd; EvRun extract_cmd;
            EvChdir (s2l "/tmp/tmpq1/package");
            EvMkdir (s2l "/tmp/tmpq1/package"); EvMkdtemp Demo.tmpdir]).
Proof.
  cbv zeta. split.
  - destruct (X12_tool_failure_stops_run Demo.tmpdir
                (Demo.dpkg_extract foo) (Demo.dpkg_control foo)
                Demo.dpkg_build (Demo.dch true) Demo.gunzip Demo.gzip
                Demo.md5_hex Demo.str_exn Demo.os_rename Demo.copy2
                (s2l "deb_reversion.py") (s2l "foo_1.0.deb") (s2l "2.0") []
                no_archive demo_tmpdir_plain) as [H _].
    + reflexivity.
    + vm_compute. reflexivity.
    + exact demo_deb_outside.
    + unfold Demo.main, Demo.argv0. rewrite (H 2 []).
      * split; vm_compute; reflexivity.
      * vm_compute. reflexivity.
      * discriminate.
  - destruct (X12_tool_failure_stops_run Demo.tmpdir
                (Demo.dpkg_extract foo) failing_control
                Demo.dpkg_build (Demo.dch true) Demo.gunzip Demo.gzip
                Demo.md5_hex Demo.str_exn Demo.os_rename Demo.copy2
                (s2l "deb_reversion.py") (s2l "foo_1.0.deb") (s2l "2.0") []
                (Demo.world0 0) demo_tmpdir_plain) as [_ H].
    + reflexivity.
    + vm_compute. reflexivity.
    + exact demo_deb_outside.
    + unfold Demo.argv0.
      rewrite (H (Demo.dpkg_extract foo (Some (File (s2l "!<arch>")))).2
                 2 []).
      * split; vm_compute; reflexivity.
      * vm_compute. reflexivity.
      * reflexivity.
      * discriminate.
Defined.

Lemma X13_package_name_kept_witness :
  let control' :=
    unlines [s2l "Package: foo"; s2l "Version: 2.0";
             s2l "Architecture: all"; []] in
  set_version (s2l "2.0") (Demo.control_of foo) = Re.Ret control'
  /\ package_name_of control' = package_name_of (Demo.control_of foo).
Proof.
  cbv zeta. split; [vm_compute; reflexivity|].
  apply (X13_package_name_kept (s2l "2.0")).
  - apply (ControlFacts.no_backslash_literal "2.0"). reflexivity.
  - repeat constructor; discriminate.
  - vm_compute. reflexivity.
Defined.

End ExitRuns.
